(* ===== verification/_CoqProject ===== *)
-Q . S2P
Prelude.v
Runtime.v
Crypto.v
ObjectId.v
UserModel.v
TodoModel.v
Db.v
TodoService.v
AuthService.v
Session.v
Controllers.v
Server.v
Concurrency.v
Client.v
AuthClient.v
TodoList.v
Forms.v
Chat.v
TodoListView.v
Browser.v
Pages.v
Boot.v
Scenario.v
