(* ===== verification/Prelude.v ===== *)
(** * A verification library for the todo-project backend and client

    The repository is a todo application: an Express/mongoose backend
    ([src/backend-todo/src]) and a React frontend ([src/frontend/src]).
    A browser signs up or logs in ([/v1/auth]), receives a JWT, and
    sends it as [Authorization: Bearer <token>] with every todo request
    ([/v1/user/todo/...]); the backend checks the token, calls a service,
    and the service talks to MongoDB through the [User] and [Todo]
    models.  Two React contexts keep the browser's copy: [AuthContext]
    the session, [TodoContext] the list of todos.

    ** Files, in dependency order, and what they model

    - [Prelude] (this file): the state-and-error monad [st S E A] =
      [S -> (E + A) * S] in which every [async] function that awaits the
      database and may [throw] is written, with its [let*] notation
      (scope [todo_scope]), its laws, the tactic [st_unfold], the hint
      databases [todo] and [st_simpl], and [find_first], the list search
      behind [findOne].
    - [Runtime]: JavaScript values of request bodies ([jsval]),
      truthiness, [trim]/[toLowerCase], and the exceptions the services
      throw ([err]) with the message each one carries.
    - [Crypto]: [utils/password-bcrypt.js], bcrypt and jsonwebtoken as
      the classes [Bcrypt] and [Jwt] with their laws, and the computable
      instances of [Crypto.Reference].
    - [ObjectId]: ObjectIds as 96-bit numbers ([N]) and their
      24-digit hexadecimal strings, the cast mongoose applies to [_id].
    - [UserModel], [TodoModel]: [models/user.js] and [models/todo.js]:
      the documents as records, the setters ([trim], [lowercase]), the
      validators ([required], [minlength], [enum]), the casts of
      [String]/[Date] paths, and the update cast of [findOneAndUpdate],
      which runs setters but no validators.
    - [Db]: the shared state [db] (both collections as [gmap oid _], the
      ObjectId counter, the clock, the salt source) and the mongoose
      operations as computations of [M]: [findOne], [create] with the
      unique index on [username], [findOneAndUpdate], [findOneAndDelete],
      [find], and [save()] of a loaded document, which runs the
      schema's validators on the whole document before it writes.
    - [TodoService]: [services/user-todo.js], one definition per
      function.
    - [AuthService]: [services/authentication.js] ([signupService],
      [loginService], [getUserService], [JWT_SECRET]).
    - [Session]: the bearer-token middleware [middlewares/decode-token],
      which the routers require but which is not in the repository; it is
      modelled from the spec.
    - [Controllers]: [controllers/todo-controller.js] and
      [controllers/auth-controller.js]: the field checks and the
      [try]/[catch] that turns every exception into [{ error }].
    - [Server]: [routes/*.js] and [app.js] as [handle : request -> M body];
      the database invariant [db_wf] and the changes one request can
      make ([db_change]); the server as a step relation.
    - [Concurrency]: requests interleaved at their [await]s: threads in
      phases, [cstep] running one database operation of one thread or
      letting time pass.
    - [Client]: [contexts/TodoContext.tsx]: the browser's list [cstate]
      and its five operations, each a request through [handle] and an
      update of the list.
    - [AuthClient]: [contexts/AuthContext.tsx]: the session of the
      browser (React state and [localStorage]), [restore] on mount,
      [login], [signup], [logout], a page [reload], and the system of
      the server and one browser ([sys_step]).
    - [TodoList]: [components/TodoList.tsx]: the comparator of
      [sortedTodos] over JavaScript numbers ([NaN] included),
      [Array.prototype.sort] as a stable insertion sort, [isExpired] and
      the urgency classes of a row.
    - [Forms]: the handlers of the other components:
      [TodoForm.handleSubmit], [TodoEditForm.handleSubmit] and
      [SignupPage.handleSubmit] as computations of [M] that call the two
      providers (and through them [handle]), the counters of
      [Dashboard.tsx], [Header.handleLogout] and the page [pages/Index.tsx]
      shows; [Date.prototype.toISOString] as the class [IsoDate], whose
      law is that [date_parse] reads its output back, with a computable
      instance [RefIso].
    - [Chat]: the assistant, [components/ChatBot.tsx] and the [/v1/llm]
      route ([routes/chatbot-route.js], [controllers/llm-controller.js],
      [services/LLM-chatbot.js]): the component's state and
      [handleSendMessage] split at its [await] ([send_start],
      [send_finish]) with the requests in flight ([chat_step]), the
      route behind [verifyToken], the controller's array checks, and
      [processConversation] with LangChain's f-string templates
      ([fmt_go]); the language model and [JSON.stringify] are the
      classes [ChatModel] and [TodoJson].
    - [TodoListView]: [components/TodoList.tsx] as a view: the empty
      state, the rows of [sortedTodos] (classes, struck title, truthy
      description, expired icon, badge), the [editingTodo] state and the
      row actions and the dialog's fields through the provider and
      [TodoEditForm].
    - [Browser]: one browser with both contexts: the session, the list
      and the fetches in flight of [TodoContext]'s effect on [[user]]
      ([br_step]), with the server stepping in between.
    - [Pages]: the [useState] of [Dashboard], [TodoForm], [Header] and
      [SignupPage] with the events of their controls, and [Index]: the
      page it shows and the reset of the components it unmounts
      ([app_mount]); a logout drops the draft of [TodoForm], closing the
      form keeps it.
    - [Boot]: [node index.js]: Node's [require] with its module cache
      ([load]) over the repository's modules in the order of their
      [require] calls ([requires]), the reads of [process.env] made while
      they load and the two [dotenv.config] calls ([module_body]);
      [mongoDBConnection] over a class [Mongo] for [mongoose.connect],
      exiting on failure; the listening server ([life_step]) holding
      the requests that arrive while the connection, not awaited, is
      pending.  The fuel of [load] is the number of modules, 16: each
      call below the first caches a module not cached before.
    - [Scenario]: the spec's end-to-end scenario run through [handle],
      and the concrete runs that witness the theorems with hypotheses.

    ** The theorems

    - Isolation of users ([TodoService], C1-C3): a todo of another user
      cannot be read, changed or deleted, and its answer is the one a
      missing todo gets; [getUserTodos] lists exactly the caller's todos.
    - Behaviour of the todo operations (C5-C7, C23): an update leaves
      [completed], owner and [createdAt] and a toggle flips [completed];
      create, delete and toggle keep every todo valid, while an update
      can store an invalid one, which its owner can then no longer
      toggle, since [save()] validates the whole document (findings).
    - Credentials ([AuthService], C8-C13): a taken name is refused,
      login accepts exactly the passwords bcrypt accepts, usernames stay
      unique, and the findings on [minlength], the 72-byte truncation and
      the dead [if (!newUser)] branch
      ([AuthService.signup_never_creation_failed]).
    - The server ([Server], C14, C18): [db_wf] holds in every
      reachable state; with [JWT_SECRET]
      unset anyone can forge a session.
    - Concurrency (C19-C21, C31): two interleaved toggles of a valid
      todo lose an update; two interleaved signups end in a
      duplicate-key error; every interleaving, time passing included,
      keeps [db_wf]; a toggle and an update of the same todo, valid
      before and after the update, serialise up to the clock and the
      [updatedAt] stamps ([db_equiv]), because [save()] sends only the
      modified path.
    - The clients (C17, C22, C27): the browser's list refines the
      server's (it is a permutation of the user's todos after every
      operation); a stored session never expires and survives a reload.
    - The router ([Server], C35): every answer has the payload shape of
      its route.
    - Start-up ([Boot], C32, C34): [authentication.js] reads
      [JWT_SECRET] while [./app] is required, before either
      [dotenv.config] runs, so a secret written in [.env] is ignored and
      ["your-dev-secret"] signs the tokens, while the chat key and the
      database URI do come from [.env] (a finding); a server whose
      connection has not succeeded has answered nothing.
    - The edit dialog ([TodoListView], C33): opening it on a stored
      todo and saving without a change stores the same todo, only
      [updatedAt] moving: the form's initial values, the [trim]s, the
      date's [toISOString] and the update's casts cancel out.
    - The forms ([Forms], C36-C40): a create through [TodoForm] reaches
      the database with the trimmed fields and the picked urgency and
      date (a refinement through the provider, the router, the service
      and the schema); edits through [TodoEditForm] keep every todo
      valid, since its select offers only the enum; [SignupPage] blames a
      taken username for every refusal and [TodoForm] shows its success
      toast whatever happens (findings); the dashboard's counters agree
      with each other and with the rows [TodoList] marks expired.
    - A shared browser ([Browser], C26): signing a new user in never
      touches the list, and a fetch answers the list of the user it was
      sent for, so after a logout and a login the dashboard shows the
      previous user's todos until a fetch answers, and for good when the
      previous session's fetch answers last (a finding).
    - The assistant ([Chat], C4, C15, C16): whatever the order in which
      answers arrive, every question gets exactly one answer; a send
      refines the intended conversation (the system message with the
      todos, then the last five messages with their roles); every
      failure is shown as an answer, and a question with a brace spoils
      it and the next four (a finding).
    - The handlers ([Controllers], C24, C25): every required-field check
      of the handlers, and the answers that reveal whether a username
      exists.
    - The dashboard ([TodoList], C28-C30): the sorted list shows every
      todo once with incomplete todos first; on valid rows the sort
      implements the order (status, priority, due date); a todo whose
      urgency is outside the enum compares equal to every todo of its
      status, which breaks ECMAScript's consistency requirement on any
      two todos of different urgencies.

    ** Choices

    - No fuel in the model of the code: every operation is a single pass
      over a finite map or a list, defined by structural recursion (the
      sort too: an insertion by [fold_left]); the step relations are
      inductive and their theorems are stated over [rtc] and [nsteps].
      The fuelled functions are Node's [require] ([Boot.load], fuel 16,
      the number of modules, as each call caches a new one) and the
      decimal printer of the reference [toISOString] ([RefIso.dec_go]),
      whose fuel of 16 digits covers every instant of the JavaScript
      [Date] range [0, 8.64e15] to which the [IsoDate] law is restricted.
    - Time is the [db_clock] field, moved only by [tick], a step of the
      server ([server_step]) and of the interleavings ([cstep]); JWT [iat] is
      [clock / 1000].  Salts come from a counter, so runs are
      deterministic; the bcrypt laws hold for every salt.
    - Strings are [String.string] (8-bit characters); [trim] uses the
      Latin-1 whitespace set.  Error messages are the source's strings,
      all non-empty, so [json.error] is truthy exactly on errors.
    - ObjectIds are [N]; the counter starts at 0 and the theorems about
      the client assume fewer than [16^24] ObjectIds have been issued,
      the bound under which the hex form is 24 digits.

    ** Not modelled

    - The language model itself and the markdown rendering of answers;
      chat items of other shapes than the client sends ([isHuman] a
      boolean, [text] a string); the [400] status of a malformed chat
      request, which the client does not read.
    - Of the React components, the markup and styling, the icons and
      [toLocaleDateString]; [components/LoginPage], which [Index]
      imports, is not in the repository.  The date picker yields
      instants of the [Date] range; dates before 1970 are not modelled
      (the [IsoDate] law covers [0, 8.64e15]).
    - Of the start-up, the loading of the packages (taken to read no
      variable of the repository), [middlewares/decode-token], which is
      not in the repository and is taken to verify with the secret of
      [authentication.js], mongoose's timeout on buffered operations
      (requests held while connecting are answered once connected) and
      the port.
    - HTTP itself: CORS, logging and JSON parsing of [app.js] are the
      identity on the requests modelled here. *)

From stdpp Require Export base gmap strings list pretty.

Declare Scope todo_scope.
Delimit Scope todo_scope with todo.

Create HintDb todo.
Create Rewrite HintDb st_simpl.

(** ** A state and error monad

    The services are [async] functions that thread the database through
    a chain of [await]s and may [throw] at any point; a throw keeps the
    effects that happened before it.  [st S E A] is that shape. *)

Definition st (S E A : Type) : Type := S -> (E + A) * S.

Section StMonad.
Context {S E : Type}.

Definition st_ret {A} (a : A) : st S E A := fun s => (inr a, s).

Definition st_bind {A B} (m : st S E A) (k : A -> st S E B) : st S E B :=
  fun s => match m s with
           | (inl e, s') => (inl e, s')
           | (inr a, s') => k a s'
           end.

Definition st_throw {A} (e : E) : st S E A := fun s => (inl e, s).

Definition st_get : st S E S := fun s => (inr s, s).

Definition st_put (s : S) : st S E unit := fun _ => (inr tt, s).

Definition st_modify (f : S -> S) : st S E unit := fun s => (inr tt, f s).

(** [try { m } catch (e) { h(e) }]: the handler runs on the state the
    throw left. *)
Definition st_catch {A} (m : st S E A) (h : E -> st S E A) : st S E A :=
  fun s => match m s with
           | (inl e, s') => h e s'
           | r => r
           end.

(** Turn a fallible pure result into a computation. *)
Definition st_lift {A} (r : E + A) : st S E A := fun s => (r, s).

Lemma st_bind_ret_l {A B} (a : A) (k : A -> st S E B) s :
  st_bind (st_ret a) k s = k a s.
Proof. reflexivity. Qed.

Lemma st_bind_ret_r {A} (m : st S E A) s : st_bind m st_ret s = m s.
Proof. unfold st_bind, st_ret. by destruct (m s) as [[e|a] s']. Qed.

Lemma st_bind_assoc {A B C} (m : st S E A) (k : A -> st S E B)
      (h : B -> st S E C) s :
  st_bind (st_bind m k) h s = st_bind m (fun a => st_bind (k a) h) s.
Proof. unfold st_bind. by destruct (m s) as [[e|a] s']. Qed.

Lemma st_bind_throw {A B} (e : E) (k : A -> st S E B) s :
  st_bind (st_throw e) k s = (inl e, s).
Proof. reflexivity. Qed.

(** The two outcomes of a bind, read off the first computation. *)
Lemma st_bind_inl {A B} (m : st S E A) (k : A -> st S E B) s e s' :
  m s = (inl e, s') -> st_bind m k s = (inl e, s').
Proof. intros H. unfold st_bind. by rewrite H. Qed.

Lemma st_bind_inr {A B} (m : st S E A) (k : A -> st S E B) s a s' :
  m s = (inr a, s') -> st_bind m k s = k a s'.
Proof. intros H. unfold st_bind. by rewrite H. Qed.
End StMonad.

Notation "'let*' x ':=' c 'in' k" := (st_bind c (fun x => k))
  (at level 10, x pattern, c at level 100, k at level 200) : todo_scope.
Notation "c ;;; k" := (st_bind c (fun _ => k))
  (at level 100, right associativity) : todo_scope.

#[export] Hint Rewrite @st_bind_ret_l @st_bind_assoc @st_bind_throw : st_simpl.

(** Unfold the monad and run a computation on a concrete or symbolic
    state as far as the matches allow. *)
Ltac st_unfold :=
  unfold st_bind, st_ret, st_throw, st_get, st_put, st_modify, st_lift in *.

(** ** Generic lemmas on options and lists *)

(** The first element of a list satisfying a boolean test. *)
Fixpoint find_first {A} (p : A -> bool) (l : list A) : option A :=
  match l with
  | [] => None
  | x :: l' => if p x then Some x else find_first p l'
  end.

Lemma find_first_Some {A} (p : A -> bool) l x :
  find_first p l = Some x -> x ∈ l /\ p x = true.
Proof.
  induction l as [|y l IH]; simpl; [done|].
  destruct (p y) eqn:Hy; [intros [= <-]; split; [left|done]|].
  intros H. destruct (IH H). split; [by right|done].
Qed.

Lemma find_first_None {A} (p : A -> bool) l :
  find_first p l = None -> forall x, x ∈ l -> p x = false.
Proof.
  induction l as [|y l IH]; simpl; [set_solver|].
  destruct (p y) eqn:Hy; [done|]. intros H x [->|Hx]%elem_of_cons; auto.
Qed.

(** When every match is the same element, [find_first] returns it. *)
Lemma find_first_unique {A} (p : A -> bool) l x :
  x ∈ l -> p x = true -> (forall y, y ∈ l -> p y = true -> y = x) ->
  find_first p l = Some x.
Proof.
  induction l as [|y l IH]; simpl; [set_solver|].
  intros Hx Hp Hu. destruct (p y) eqn:Hy.
  - f_equal. apply Hu; [left|done].
  - apply elem_of_cons in Hx as [->|Hx]; [congruence|].
    apply IH; [done|done|]. intros z Hz. apply Hu. by right.
Qed.

Lemma find_first_none_iff {A} (p : A -> bool) l :
  find_first p l = None <-> forall x, x ∈ l -> p x = false.
Proof.
  split; [apply find_first_None|].
  induction l as [|y l IH]; simpl; [done|]. intros H.
  rewrite (H y) by left. apply IH. intros x Hx. apply H. by right.
Qed.

#[export] Hint Resolve find_first_unique : todo.

(** Close a decidable goal on concrete data by evaluating its decision
    procedure. *)
Ltac decide_by_compute :=
  match goal with |- ?P => apply (bool_decide_unpack P); vm_compute; reflexivity end.
