(* ===== verification/Runtime.v ===== *)
(** * The JavaScript runtime the backend relies on

    Request bodies are parsed JSON, so every field a controller reads is
    a JavaScript value: [jsval] has the cases the handlers distinguish.
    [truthy] is the coercion behind [if (!title ...)]; [js_trim] and
    [js_lower] are [String.prototype.trim] and [toLowerCase] on
    Latin-1 code units (strings are lists of 8-bit characters here);
    [err] lists the exceptions the services throw, with the message the
    controllers copy into [{ error: e.message }]. *)

From S2P Require Import Prelude.
From Stdlib Require Import Ascii.

(** ** Values *)

Inductive jsval :=
| JUndefined
| JNull
| JBool (b : bool)
| JNum (z : Z)
| JStr (s : string)
| JObj.                        (** any object or array *)

(** JavaScript's [ToBoolean]: [undefined], [null], [false], [0] and [""]
    are falsy, everything else is truthy. *)
Definition truthy (v : jsval) : bool :=
  match v with
  | JUndefined | JNull => false
  | JBool b => b
  | JNum z => negb (Z.eqb z 0)
  | JStr s => negb (String.eqb s "")
  | JObj => true
  end.

(** ** Strings *)

(** The white-space and line-terminator code units below 256 that [trim]
    removes: TAB, LF, VT, FF, CR, SPACE and NO-BREAK SPACE. *)
Definition is_ws (c : ascii) : bool :=
  let n := nat_of_ascii c in
  ((9 <=? n) && (n <=? 13)) || (n =? 32) || (n =? 160).

Fixpoint trim_start (s : string) : string :=
  match s with
  | EmptyString => EmptyString
  | String c s' => if is_ws c then trim_start s' else s
  end.

Fixpoint trim_end (s : string) : string :=
  match s with
  | EmptyString => EmptyString
  | String c s' =>
      let r := trim_end s' in
      if is_ws c && String.eqb r "" then EmptyString else String c r
  end.

(** [String.prototype.trim]. *)
Definition js_trim (s : string) : string := trim_end (trim_start s).

(** [String.prototype.toLowerCase] on Latin-1: A-Z and the accented
    capitals U+00C0-U+00DE (except the multiplication sign U+00D7) move
    down by 32. *)
Definition lower_char (c : ascii) : ascii :=
  let n := nat_of_ascii c in
  if ((65 <=? n) && (n <=? 90)) || ((192 <=? n) && (n <=? 222) && negb (n =? 215))
  then ascii_of_nat (n + 32) else c.

Fixpoint js_lower (s : string) : string :=
  match s with
  | EmptyString => EmptyString
  | String c s' => String (lower_char c) (js_lower s')
  end.

(** ** Exceptions *)

(** The errors that reach a controller's [catch].  The first five are
    thrown by the services with the message shown in [err_message]; the
    others come from mongoose, bcrypt, jsonwebtoken or the JavaScript
    runtime, and carry the path or field they concern. *)
Inductive err :=
| ErrUsernameTaken                 (** authentication.js:11 *)
| ErrCreateUser                    (** authentication.js:23 *)
| ErrUserNotFound                  (** authentication.js:37, 64 *)
| ErrInvalidPassword               (** authentication.js:43 *)
| ErrTodoAccess                    (** user-todo.js:40, 53, 63 *)
| ErrValidation (path : string)    (** mongoose ValidationError *)
| ErrCast (path : string)          (** mongoose CastError *)
| ErrDuplicateKey (field : string) (** MongoDB E11000 on a unique index *)
| ErrDocumentNotFound              (** mongoose save() of a removed document *)
| ErrTypeError (what : string)     (** e.g. [title.trim is not a function] *)
| ErrBcrypt                        (** bcrypt on a non-string argument *)
| ErrJwt.                          (** jsonwebtoken sign/verify failure *)

Definition err_message (e : err) : string :=
  match e with
  | ErrUsernameTaken => "Username already taken"
  | ErrCreateUser => "Failed to create user. Please try again."
  | ErrUserNotFound => "UserNotFound"
  | ErrInvalidPassword => "InvalidPassword"
  | ErrTodoAccess => "Todo not found or access denied"
  | ErrValidation p => "validation failed: " +:+ p
  | ErrCast p => "Cast failed for path " +:+ p
  | ErrDuplicateKey f => "E11000 duplicate key error: " +:+ f
  | ErrDocumentNotFound => "No document found for query"
  | ErrTypeError w => w +:+ " is not a function"
  | ErrBcrypt => "data and salt arguments required"
  | ErrJwt => "invalid token"
  end.

#[export] Instance err_eq_dec : EqDecision err.
Proof. solve_decision. Defined.

(** Mongoose's cast of a value to a [String] path: strings pass, numbers
    and booleans are printed, anything else is a [CastError]. *)
Definition cast_string (path : string) (v : jsval) : err + string :=
  match v with
  | JStr s => inr s
  | JNum z => inr (pretty z)
  | JBool b => inr (if b then "true" else "false")
  | _ => inl (ErrCast path)
  end.

(** A method call [v.trim()]: only strings have it. *)
Definition call_trim (what : string) (v : jsval) : err + string :=
  match v with
  | JStr s => inr (js_trim s)
  | _ => inl (ErrTypeError what)
  end.

(** ** Lemmas *)

Lemma truthy_str s : truthy (JStr s) = true <-> s <> "".
Proof.
  simpl. destruct (String.eqb_spec s ""); simpl; split; congruence.
Qed.

Lemma trim_start_idem s : trim_start (trim_start s) = trim_start s.
Proof.
  induction s as [|c s IH]; simpl; [done|].
  destruct (is_ws c) eqn:Hc; [done|]. simpl. by rewrite Hc.
Qed.

(** [trim_end] never returns a string ending in white space. *)
Lemma trim_end_idem s : trim_end (trim_end s) = trim_end s.
Proof.
  induction s as [|c s IH]; simpl; [done|].
  destruct (is_ws c && String.eqb (trim_end s) "") eqn:Hc; [done|].
  simpl. rewrite IH, Hc. done.
Qed.

Lemma is_ws_lower c : is_ws (lower_char c) = is_ws c.
Proof. destruct c as [[] [] [] [] [] [] [] []]; reflexivity. Qed.

Lemma lower_char_idem c : lower_char (lower_char c) = lower_char c.
Proof. destruct c as [[] [] [] [] [] [] [] []]; reflexivity. Qed.

Lemma js_lower_idem s : js_lower (js_lower s) = js_lower s.
Proof. induction s as [|c s IH]; simpl; by rewrite ?lower_char_idem, ?IH. Qed.

Lemma js_lower_eqb_empty s : String.eqb (js_lower s) "" = String.eqb s "".
Proof. by destruct s. Qed.

Lemma trim_start_lower s : trim_start (js_lower s) = js_lower (trim_start s).
Proof.
  induction s as [|c s IH]; simpl; [done|]. rewrite is_ws_lower.
  by destruct (is_ws c).
Qed.

Lemma trim_end_lower s : trim_end (js_lower s) = js_lower (trim_end s).
Proof.
  induction s as [|c s IH]; simpl; [done|].
  rewrite is_ws_lower, IH, js_lower_eqb_empty.
  by destruct (is_ws c && String.eqb (trim_end s) "").
Qed.

(** Trimming commutes with lower-casing. *)
Lemma js_trim_lower s : js_trim (js_lower s) = js_lower (js_trim s).
Proof. unfold js_trim. by rewrite trim_start_lower, trim_end_lower. Qed.

(** A string that does not start with white space keeps that property
    under [trim_end]. *)
Lemma trim_start_trim_end s : trim_start s = s -> trim_start (trim_end s) = trim_end s.
Proof.
  destruct s as [|c s]; simpl; [done|].
  destruct (is_ws c) eqn:Hc.
  - intros H. assert (String.length (trim_start s) <= String.length s).
    { clear. induction s as [|d s IH]; simpl; [lia|]. destruct (is_ws d); simpl; lia. }
    rewrite H in *. simpl in *. lia.
  - intros _. simpl. by rewrite Hc.
Qed.

Lemma js_trim_idem s : js_trim (js_trim s) = js_trim s.
Proof.
  unfold js_trim. rewrite trim_start_trim_end by apply trim_start_idem.
  apply trim_end_idem.
Qed.
