(* ===== verification/Crypto.v ===== *)
(** * The cryptographic libraries, as interfaces

    [utils/password-bcrypt.js] wraps [bcrypt.hash(plaintext, 10)] and
    [bcrypt.compare]; [services/authentication.js] calls [jwt.sign].
    Neither library is part of the repository, so each is a [Class]:
    the services and their theorems are stated against the class, and
    [Crypto.Reference] gives one instance of each, computable, which
    shows the laws are satisfiable and lets the witnesses run.

    The bcrypt laws are the idealisation the service relies on: a hash
    is at least 6 characters long (a real one has 60, so the schema's
    [minlength: 6] always passes), and [compare p (hash salt q)] holds
    exactly when [p] and [q] agree on their first 72 bytes (bcrypt
    ignores the rest of the input).  The JWT laws: a token verifies
    under the secret it was signed with, to the claims it was signed
    with; it is not empty and contains no space. *)

From S2P Require Import Prelude.
From stdpp Require Import countable.
From Stdlib Require Import Ascii.

(** The part of a password bcrypt reads. *)
Definition trunc72 (p : string) : string := String.substring 0 72 p.

Class Bcrypt := {
  bcrypt_hash : nat -> string -> string;   (** salt, plaintext *)
  bcrypt_compare : string -> string -> bool;
  bcrypt_hash_length : forall salt p, 6 <= String.length (bcrypt_hash salt p);
  bcrypt_compare_hash : forall salt p q,
    bcrypt_compare p (bcrypt_hash salt q) = bool_decide (trunc72 p = trunc72 q)
}.

(** The payload [{ id, username }] of [jwt.sign], with the [iat] claim
    jsonwebtoken adds. *)
Record claims := mk_claims {
  cl_id : N;            (** the ObjectId of the user *)
  cl_username : string;
  cl_iat : Z
}.

#[export] Instance claims_eq_dec : EqDecision claims.
Proof. solve_decision. Defined.

#[export] Instance claims_countable : Countable claims.
Proof.
  apply (inj_countable' (fun c => (cl_id c, cl_username c, cl_iat c))
                        (fun '(i, u, t) => mk_claims i u t)).
  by intros [].
Defined.

(** HS256 signing: [jwt_sign secret claims].  A token verifies under the
    secret it was signed with, to the claims it was signed with, is not
    empty (a JWT is [header.payload.signature]) and contains no space
    (it travels as [Bearer <token>]). *)
Class Jwt := {
  jwt_sign : string -> claims -> string;
  jwt_verify : string -> string -> option claims;
  jwt_verify_sign : forall k c, jwt_verify k (jwt_sign k c) = Some c;
  jwt_sign_no_space : forall k c, String.index 0 " " (jwt_sign k c) = None;
  jwt_sign_nonempty : forall k c, jwt_sign k c <> ""
}.

(** ** A reference instance of each class *)

Module Reference.

(** A "hash" that keeps the salt in one character after bcrypt's
    [$2b$10$] header and the part of the password bcrypt reads. *)
Definition hash (salt : nat) (p : string) : string :=
  "$2b$10$" +:+ String (Ascii.ascii_of_nat (salt mod 256)) (trunc72 p).

Definition compare (p h : string) : bool :=
  bool_decide (String.substring 8 (String.length h - 8) h = trunc72 p).

Lemma substring_all s : String.substring 0 (String.length s) s = s.
Proof. induction s; simpl; by rewrite ?IHs. Qed.

Lemma compare_hash salt p q :
  compare p (hash salt q) = bool_decide (trunc72 p = trunc72 q).
Proof.
  unfold compare, hash. simpl. rewrite Nat.sub_0_r, substring_all.
  apply bool_decide_ext. split; congruence.
Qed.

#[export] Instance bcrypt : Bcrypt.
Proof.
  refine {| bcrypt_hash := hash; bcrypt_compare := compare;
            bcrypt_compare_hash := compare_hash |}.
  intros. simpl. lia.
Defined.

(** Binary digits of a positive, least significant first. *)
Fixpoint bits (p : positive) : string :=
  match p with
  | xH => ""
  | xO p' => String "0"%char (bits p')
  | xI p' => String "1"%char (bits p')
  end.

Fixpoint unbits (s : string) : option positive :=
  match s with
  | EmptyString => Some xH
  | String c s' =>
      match unbits s' with
      | Some p => if Ascii.eqb c "0"%char then Some (xO p)
                  else if Ascii.eqb c "1"%char then Some (xI p) else None
      | None => None
      end
  end.

Lemma unbits_bits p : unbits (bits p) = Some p.
Proof. induction p; simpl; by rewrite ?IHp. Qed.

Lemma bits_no_space p : String.index 0 " " (bits p) = None.
Proof. induction p; simpl; rewrite ?IHp; done. Qed.

(** A token: one header character, then the bits of the signed pair. *)
Definition sign (k : string) (c : claims) : string :=
  String "e"%char (bits (encode (k, c))).

Definition verify (k : string) (t : string) : option claims :=
  match t with
  | EmptyString => None
  | String _ t' =>
      match unbits t' with
      | Some p => match decode (A := string * claims) p with
                  | Some (k', c) => if bool_decide (k' = k) then Some c else None
                  | None => None
                  end
      | None => None
      end
  end.

Lemma verify_sign k c : verify k (sign k c) = Some c.
Proof.
  unfold verify, sign. rewrite unbits_bits, decode_encode.
  by rewrite bool_decide_true.
Qed.

Lemma sign_no_space k c : String.index 0 " " (sign k c) = None.
Proof. unfold sign. simpl. by rewrite bits_no_space. Qed.

#[export] Instance jwt : Jwt :=
  {| jwt_sign := sign; jwt_verify := verify;
     jwt_verify_sign := verify_sign;
     jwt_sign_no_space := sign_no_space;
     jwt_sign_nonempty := fun k c => ltac:(discriminate) |}.

End Reference.
