(* ===== verification/ObjectId.v ===== *)
(** * ObjectIds as the handlers see them

    A todo's [_id] reaches the server as the string a client read from
    [todo.id] (the [toJSON] transform of [models/todo.js] copies [_id]
    to [id]) and is cast back by mongoose when a query filter says
    [{ _id: todoId, ... }].  An ObjectId is a 96-bit number, written as
    24 hexadecimal digits; casting accepts either case and fails with a
    [CastError] on anything else.  (bson also accepts a raw 12-byte
    string; that form is not modelled.) *)

From S2P Require Import Prelude Runtime.
From Stdlib Require Import Ascii.

Definition oid := N.

Definition hex_val (c : ascii) : option N :=
  let n := nat_of_ascii c in
  if (48 <=? n) && (n <=? 57) then Some (N.of_nat (n - 48))
  else if (97 <=? n) && (n <=? 102) then Some (N.of_nat (n - 87))
  else if (65 <=? n) && (n <=? 70) then Some (N.of_nat (n - 55))
  else None.

(** Lower-case digit, as [ObjectId.prototype.toHexString] prints. *)
Definition hex_char (d : N) : ascii :=
  if (d <? 10)%N then ascii_of_nat (48 + N.to_nat d)
  else ascii_of_nat (87 + N.to_nat d).

Fixpoint hex_parse (s : string) (acc : N) : option N :=
  match s with
  | EmptyString => Some acc
  | String c s' =>
      match hex_val c with
      | Some d => hex_parse s' (acc * 16 + d)
      | None => None
      end
  end.

(** [k] digits of [n], most significant first, in front of [acc]. *)
Fixpoint hex_show (k : nat) (n : N) (acc : string) : string :=
  match k with
  | O => acc
  | S k' => hex_show k' (n / 16) (String (hex_char (n mod 16)) acc)
  end.

Definition oid_to_string (n : oid) : string := hex_show 24 n "".

Definition oid_of_string (s : string) : option oid :=
  if String.length s =? 24 then hex_parse s 0 else None.

(** Mongoose's cast of a filter value to an ObjectId. *)
Definition cast_oid (v : jsval) : err + oid :=
  match v with
  | JStr s => match oid_of_string s with
              | Some n => inr n
              | None => inl (ErrCast "_id")
              end
  | _ => inl (ErrCast "_id")
  end.

(** The JSON form of an ObjectId, as the client sends it back. *)
Definition oid_json (n : oid) : jsval := JStr (oid_to_string n).

(** ** The codec round trip *)

Lemma hex_val_char d : (d < 16)%N -> hex_val (hex_char d) = Some d.
Proof.
  intros Hd. unfold hex_char, hex_val.
  destruct (N.ltb_spec d 10);
    rewrite nat_ascii_embedding by lia; remember (N.to_nat d) as m eqn:Hm.
  - destruct (Nat.leb_spec 48 (48 + m)); [|lia].
    destruct (Nat.leb_spec (48 + m) 57); [|lia]. simpl.
    f_equal. apply N2Nat.inj. rewrite Nat2N.id. lia.
  - destruct (Nat.leb_spec 48 (87 + m)); [|lia].
    destruct (Nat.leb_spec (87 + m) 57); [lia|].
    destruct (Nat.leb_spec 97 (87 + m)); [|lia].
    destruct (Nat.leb_spec (87 + m) 102); [|lia]. simpl.
    f_equal. apply N2Nat.inj. rewrite Nat2N.id. lia.
Qed.

Lemma hex_show_length k n acc :
  String.length (hex_show k n acc) = k + String.length acc.
Proof.
  revert n acc. induction k as [|k IH]; intros n acc; simpl; [done|].
  rewrite IH. simpl. lia.
Qed.

Lemma hex_parse_show k n acc a :
  (n < 16 ^ N.of_nat k)%N ->
  hex_parse (hex_show k n acc) a = hex_parse acc (a * 16 ^ N.of_nat k + n).
Proof.
  revert n acc a. induction k as [|k IH]; intros n acc a Hn; simpl.
  - f_equal. simpl in Hn. lia.
  - rewrite Nat2N.inj_succ, N.pow_succ_r' in Hn.
    rewrite IH by (apply N.Div0.div_lt_upper_bound; lia). simpl.
    rewrite hex_val_char by (apply N.mod_lt; lia).
    f_equal. rewrite Nat2N.inj_succ, N.pow_succ_r'.
    pose proof (N.div_mod n 16 ltac:(lia)) as Hdm.
    set (q := (n / 16)%N) in *. set (r := (n mod 16)%N) in *.
    clearbody q r. rewrite Hdm. ring.
Qed.

(** The hex string of an ObjectId casts back to it: the id a client
    reads from a response addresses the same document. *)
Theorem oid_roundtrip n :
  (n < 16 ^ 24)%N -> oid_of_string (oid_to_string n) = Some n.
Proof.
  intros Hn. unfold oid_of_string, oid_to_string.
  rewrite hex_show_length, Nat.add_0_r, Nat.eqb_refl.
  rewrite hex_parse_show by exact Hn. cbn [hex_parse]. f_equal.
Qed.
