(* ===== verification/UserModel.v ===== *)
(** * The [User] schema ([src/backend-todo/src/models/user.js])

    A user document has a [username] (trimmed, lower-cased, required,
    unique), a [password] (required, at least 6 characters) and a
    [fullname] (trimmed, required), plus the [createdAt]/[updatedAt]
    timestamps.  [user_build] is [new User(fields)] followed by
    validation: the setters run on the cast value, then the validators in
    schema order.  The unique index is enforced by the collection
    ([Db.user_create]); setters also run on query filters
    ([Db.user_findOne]). *)

From S2P Require Import Prelude Runtime.

Record user := mk_user {
  u_username : string;
  u_password : string;
  u_fullname : string;
  u_createdAt : Z;
  u_updatedAt : Z
}.

#[export] Instance user_eq_dec : EqDecision user.
Proof. solve_decision. Defined.

(** [trim: true, lowercase: true]. *)
Definition username_set (s : string) : string := js_lower (js_trim s).

(** [required: true] on a String path: a non-empty string. *)
Definition required_string (s : string) : bool := negb (String.eqb s "").

(** Cast and set a path at document construction; a cast failure is
    reported as a validation error of that path. *)
Definition build_path (path : string) (set : string -> string) (v : jsval)
  : err + string :=
  match cast_string path v with
  | inr s => inr (set s)
  | inl _ => inl (ErrValidation path)
  end.

Definition user_build (now : Z) (username : jsval) (password : string)
    (fullname : jsval) : err + user :=
  match build_path "username" username_set username with
  | inl e => inl e
  | inr un =>
      if negb (required_string un) then inl (ErrValidation "username")
      else if negb (required_string password)
              || (String.length password <? 6) then inl (ErrValidation "password")
      else match build_path "fullname" js_trim fullname with
           | inl e => inl e
           | inr fn =>
               if negb (required_string fn) then inl (ErrValidation "fullname")
               else inr (mk_user un password fn now now)
           end
  end.

(** ** Lemmas *)

Lemma user_build_ok now username password fullname u :
  user_build now username password fullname = inr u ->
  (exists s, cast_string "username" username = inr s /\ u_username u = username_set s)
  /\ u_password u = password /\ u_username u <> ""
  /\ u_fullname u <> "" /\ 6 <= String.length password.
Proof.
  unfold user_build, build_path, required_string.
  destruct (cast_string "username" username) as [|s] eqn:Hu; [done|].
  destruct (String.eqb_spec (username_set s) ""); simpl; [done|].
  destruct (String.eqb_spec password ""); simpl; [done|].
  destruct (Nat.ltb_spec (String.length password) 6); simpl; [done|].
  destruct (cast_string "fullname" fullname) as [|f]; [done|].
  destruct (String.eqb_spec (js_trim f) ""); simpl; [done|].
  intros [= <-]. simpl. eauto 10.
Qed.

Lemma username_set_idem s : username_set (username_set s) = username_set s.
Proof.
  unfold username_set. by rewrite js_trim_lower, js_lower_idem, js_trim_idem.
Qed.

(** A stored user's name is non-empty and already normalised, so the
    setters a query applies to it give it back. *)
Definition user_ok (u : user) : Prop :=
  u_username u <> "" /\ username_set (u_username u) = u_username u.

#[export] Instance user_ok_dec u : Decision (user_ok u).
Proof. unfold user_ok. apply _. Defined.

Lemma user_build_user_ok now username password fullname u :
  user_build now username password fullname = inr u -> user_ok u.
Proof.
  intros ((v & _ & Hu) & _ & Hne & _)%user_build_ok.
  split; [done|]. by rewrite Hu, username_set_idem.
Qed.

(** The fields a [User] document accepts. *)
Lemma user_build_accepts now username password fullname v f :
  cast_string "username" username = inr v -> username_set v <> "" ->
  6 <= String.length password ->
  cast_string "fullname" fullname = inr f -> js_trim f <> "" ->
  user_build now username password fullname
  = inr (mk_user (username_set v) password (js_trim f) now now).
Proof.
  intros Hv Hne Hlen Hf Hfne. unfold user_build, build_path, required_string.
  rewrite Hv, Hf. apply String.eqb_neq in Hne as ->, Hfne as ->. simpl.
  destruct (String.eqb_spec password "") as [->|_]; [simpl in Hlen; lia|].
  destruct (Nat.ltb_spec (String.length password) 6); [lia|]. done.
Qed.
