(* ===== verification/TodoModel.v ===== *)
(** * The [Todo] schema ([src/backend-todo/src/models/todo.js])

    A todo document has a [title] (trimmed, required), a [description]
    (trimmed), an [urgency] (a String restricted by an [enum] validator,
    default ["normal"]), a [dueDate] (a Date, optional), [completed]
    (default [false]), the owner's [username] (required) and the
    timestamps.  [todo_build] is [new Todo(fields)] with validation, as
    [Todo.create] runs it; [todo_cast_update] is the cast an update
    document receives in [findOneAndUpdate], which runs the setters but,
    by mongoose's default ([runValidators: false]), no validator;
    [todo_validate] is the validation [doc.save()] runs on a loaded
    document before it writes. *)

From S2P Require Import Prelude Runtime UserModel.

Record todo := mk_todo {
  t_title : string;
  t_description : string;
  t_urgency : option string;      (** [None]: stored as [null] *)
  t_dueDate : option Z;           (** milliseconds since the epoch *)
  t_completed : bool;
  t_username : string;
  t_createdAt : Z;
  t_updatedAt : Z
}.

#[export] Instance todo_eq_dec : EqDecision todo.
Proof. solve_decision. Defined.

(** [enum: ["important", "normal", "not important"]]. *)
Definition urgency_enum : list string := ["important"; "normal"; "not important"].

Definition in_enum (s : string) : bool := bool_decide (s ∈ urgency_enum).

(** [Date] casting needs the runtime's date parser ([new Date(string)]);
    a number is a time value as it is. *)
Class DateParser := { date_parse : string -> option Z }.

Section Casts.
Context `{DateParser}.

Definition cast_date (v : jsval) : err + option Z :=
  match v with
  | JUndefined | JNull => inr None
  | JNum z => inr (Some z)
  | JStr s => match date_parse s with
              | Some t => inr (Some t)
              | None => inl (ErrValidation "dueDate")
              end
  | _ => inl (ErrValidation "dueDate")
  end.

(** The urgency of a new document: [undefined] takes the default. *)
Definition cast_urgency (v : jsval) : err + option string :=
  match v with
  | JUndefined => inr (Some "normal")
  | JNull => inr None
  | _ => match cast_string "urgency" v with
         | inr s => inr (Some s)
         | inl _ => inl (ErrValidation "urgency")
         end
  end.

(** [new Todo({ username, title, description, urgency, dueDate,
    completed: false })] and its validation, in schema order. *)
Definition todo_build (now : Z) (username : string) (title description
    urgency dueDate : jsval) : err + todo :=
  match build_path "title" js_trim title with
  | inl e => inl e
  | inr ti =>
  if negb (required_string ti) then inl (ErrValidation "title") else
  match build_path "description" js_trim description with
  | inl e => inl e
  | inr de =>
  match cast_urgency urgency with
  | inl e => inl e
  | inr ur =>
  if negb (match ur with Some s => in_enum s | None => true end)
  then inl (ErrValidation "urgency") else
  match cast_date dueDate with
  | inl e => inl e
  | inr du =>
  if negb (required_string username) then inl (ErrValidation "username")
  else inr (mk_todo ti de ur du false username now now)
  end end end end.

(** The update document of [updateTodoService], as the service passes
    it to [findOneAndUpdate]. *)
Record todo_update := mk_update {
  up_title : jsval;
  up_description : jsval;
  up_urgency : jsval;
  up_dueDate : jsval
}.

(** The [$set] mongoose sends: each key cast (and, for strings, passed
    through its setters); a key whose value is [undefined] is stripped
    ([None]).  A cast failure is a [CastError], thrown before the
    query runs. *)
Record todo_patch := mk_patch {
  p_title : option string;
  p_description : option string;
  p_urgency : option (option string);
  p_dueDate : option (option Z)
}.

Definition patch_string (path : string) (set : string -> string) (v : jsval)
    : err + option string :=
  match v with
  | JUndefined => inr None
  | _ => match cast_string path v with
         | inr s => inr (Some (set s))
         | inl e => inl e
         end
  end.

Definition patch_urgency (v : jsval) : err + option (option string) :=
  match v with
  | JUndefined => inr None
  | JNull => inr (Some None)
  | _ => match cast_string "urgency" v with
         | inr s => inr (Some (Some s))
         | inl e => inl e
         end
  end.

Definition patch_date (v : jsval) : err + option (option Z) :=
  match v with
  | JUndefined => inr None
  | _ => match cast_date v with
         | inr d => inr (Some d)
         | inl _ => inl (ErrCast "dueDate")
         end
  end.

Definition todo_cast_update (u : todo_update) : err + todo_patch :=
  match patch_string "title" js_trim (up_title u) with
  | inl e => inl e
  | inr ti =>
  match patch_string "description" js_trim (up_description u) with
  | inl e => inl e
  | inr de =>
  match patch_urgency (up_urgency u) with
  | inl e => inl e
  | inr ur =>
  match patch_date (up_dueDate u) with
  | inl e => inl e
  | inr du => inr (mk_patch ti de ur du)
  end end end end.
End Casts.

(** [$set] on a stored document, with [updatedAt] refreshed (the
    [timestamps] option).  No validator runs. *)
Definition todo_patch_apply (now : Z) (p : todo_patch) (d : todo) : todo :=
  mk_todo (default (t_title d) (p_title p))
          (default (t_description d) (p_description p))
          (default (t_urgency d) (p_urgency p))
          (default (t_dueDate d) (p_dueDate p))
          (t_completed d) (t_username d) (t_createdAt d) now.


(** The schema's invariant on a stored document: what [todo_build]
    checks. *)
Definition todo_valid (d : todo) : Prop :=
  t_title d <> "" /\ t_username d <> "" /\
  match t_urgency d with Some s => s ∈ urgency_enum | None => True end.

#[export] Instance todo_valid_dec d : Decision (todo_valid d).
Proof. unfold todo_valid. destruct (t_urgency d); apply _. Defined.

(** The validators [doc.save()] runs on a document before it writes
    ([validateBeforeSave]), on every path of a loaded document, not only
    the modified ones: [required] on [title], the [enum] on [urgency],
    [required] on [username], in schema order; the first failing path is
    reported, as in [todo_build]. *)
Definition todo_validate (d : todo) : option err :=
  if negb (required_string (t_title d)) then Some (ErrValidation "title")
  else if negb (match t_urgency d with Some s => in_enum s | None => true end)
  then Some (ErrValidation "urgency")
  else if negb (required_string (t_username d)) then Some (ErrValidation "username")
  else None.

(** A date parser for concrete runs: ["YYYY-MM-DD"] read as the number
    [YYYYMMDD]; any other character makes the date invalid. *)
Module RefDate.
Fixpoint digits (s : string) (acc : Z) : option Z :=
  match s with
  | EmptyString => Some acc
  | String c s' =>
      let n := Ascii.nat_of_ascii c in
      if (48 <=? n) && (n <=? 57) then digits s' (acc * 10 + Z.of_nat (n - 48))%Z
      else if n =? 45 then digits s' acc else None
  end.

#[export] Instance date_parser : DateParser :=
  {| date_parse := fun s => if String.eqb s "" then None else digits s 0 |}.
End RefDate.

(** ** Lemmas *)

(** [save()]'s validation accepts exactly the documents of the schema's
    invariant. *)
Lemma todo_validate_None d : todo_validate d = None <-> todo_valid d.
Proof.
  unfold todo_validate, todo_valid, required_string, in_enum.
  destruct (String.eqb_spec (t_title d) "") as [Ht|Ht]; simpl; [intuition congruence|].
  destruct (String.eqb_spec (t_username d) "") as [Hu|Hu];
    destruct (t_urgency d) as [v|]; simpl;
    try (destruct (decide (v ∈ urgency_enum)) as [Hv|Hv];
         [rewrite bool_decide_true by done|rewrite bool_decide_false by done]);
    simpl; intuition congruence.
Qed.

(** Validation reads only [title], [urgency] and [username]. *)
Lemma todo_validate_same d d' :
  t_title d' = t_title d -> t_urgency d' = t_urgency d -> t_username d' = t_username d ->
  todo_validate d' = todo_validate d.
Proof. unfold todo_validate. by intros -> -> ->. Qed.

Lemma todo_validate_Some d : ~ todo_valid d -> exists p, todo_validate d = Some (ErrValidation p).
Proof.
  rewrite <- todo_validate_None. unfold todo_validate.
  repeat case_match; try congruence; eauto.
Qed.

Section ModelLemmas.
Context `{DateParser}.

Lemma todo_build_valid now u title description urgency dueDate d :
  todo_build now u title description urgency dueDate = inr d ->
  todo_valid d /\ t_completed d = false /\ t_username d = u.
Proof.
  unfold todo_build, todo_valid, required_string.
  destruct (build_path "title" js_trim title) as [|ti]; [done|].
  destruct (String.eqb_spec ti ""); simpl; [done|].
  destruct (build_path "description" js_trim description) as [|de]; [done|].
  destruct (cast_urgency urgency) as [|ur]; [done|].
  destruct (match ur with Some s => in_enum s | None => true end) eqn:Hur;
    simpl; [|done].
  destruct (cast_date dueDate) as [|du]; [done|].
  destruct (String.eqb_spec u ""); simpl; [done|].
  intros [= <-]. simpl. repeat split; [done|done|].
  destruct ur as [s|]; [|done]. unfold in_enum in Hur.
  by apply bool_decide_eq_true in Hur.
Qed.

End ModelLemmas.
