(* ===== verification/Db.v ===== *)
(** * The database and the mongoose operations the services call

    [db] is the state the whole backend shares: the [users] and [todos]
    collections keyed by ObjectId, the next ObjectId to hand out, the
    wall clock that stamps [createdAt]/[updatedAt], and the source of
    bcrypt salts.  Every operation is one round trip to MongoDB and is a
    computation of [M] = [st db err]: [findOne] is [find_one] on the
    collection with the cast filter, [create] builds and validates the
    document then enforces the unique index, [findOneAndUpdate] and
    [findOneAndDelete] act on the first match, and [save] of a loaded
    document sends the [$set] of its modified paths keyed by [_id]. *)

From S2P Require Import Prelude Runtime ObjectId UserModel TodoModel.
Local Open Scope todo_scope.

Record db := mk_db {
  db_users : gmap oid user;
  db_todos : gmap oid todo;
  db_next : oid;
  db_clock : Z;
  db_salt : nat
}.

Definition M := st db err.

Definition set_users (f : gmap oid user -> gmap oid user) (s : db) : db :=
  mk_db (f (db_users s)) (db_todos s) (db_next s) (db_clock s) (db_salt s).

Definition set_todos (f : gmap oid todo -> gmap oid todo) (s : db) : db :=
  mk_db (db_users s) (f (db_todos s)) (db_next s) (db_clock s) (db_salt s).

(** ** Collection primitives *)

Definition find_one {D} (p : oid -> D -> bool) (c : gmap oid D) : option (oid * D) :=
  find_first (fun kd => p kd.1 kd.2) (map_to_list c).

Definition find_all {D} (p : oid -> D -> bool) (c : gmap oid D) : list (oid * D) :=
  filter (fun kd => p kd.1 kd.2 = true) (map_to_list c).

(** A fresh ObjectId for a new document. *)
Definition fresh_id : M oid :=
  fun s => (inr (db_next s),
            mk_db (db_users s) (db_todos s) (db_next s + 1)%N (db_clock s) (db_salt s)).

Definition clock : M Z := fun s => (inr (db_clock s), s).

(** A fresh salt for [bcrypt.hash(plaintext, 10)]. *)
Definition fresh_salt : M nat :=
  fun s => (inr (db_salt s),
            mk_db (db_users s) (db_todos s) (db_next s) (db_clock s) (S (db_salt s))).

(** ** The [User] model *)

Definition username_is (key : string) : oid -> user -> bool :=
  fun _ u => String.eqb (u_username u) key.

(** [User.findOne({ username })]: the filter value is cast and passed
    through the path's setters before the query runs. *)
Definition user_findOne (username : jsval) : M (option (oid * user)) :=
  let* v := st_lift (cast_string "username" username) in
  let* s := st_get in
  st_ret (find_one (username_is (username_set v)) (db_users s)).

(** [User.create({ username, password, fullname })]. *)
Definition user_create (username : jsval) (password : string) (fullname : jsval)
  : M (oid * user) :=
  let* t := clock in
  let* u := st_lift (user_build t username password fullname) in
  let* s := st_get in
  match find_one (username_is (u_username u)) (db_users s) with
  | Some _ => st_throw (ErrDuplicateKey "username")
  | None =>
      let* id := fresh_id in
      st_modify (set_users (insert id u)) ;;;
      st_ret (id, u)
  end.

(** ** The [Todo] model *)

(** The filter [{ _id: todoId, username }] once [todoId] is cast. *)
Definition owned_by (id : oid) (username : string) : oid -> todo -> bool :=
  fun k d => N.eqb k id && String.eqb (t_username d) username.

Definition owner_is (username : string) : oid -> todo -> bool :=
  fun _ d => String.eqb (t_username d) username.

Section TodoOps.
Context `{DateParser}.

(** [Todo.create({ username, title, description, urgency, dueDate,
    completed: false })]. *)
Definition todo_create (username : string) (title description urgency
    dueDate : jsval) : M (oid * todo) :=
  let* t := clock in
  let* d := st_lift (todo_build t username title description urgency dueDate) in
  let* id := fresh_id in
  st_modify (set_todos (insert id d)) ;;;
  st_ret (id, d).

(** [Todo.findOne({ _id: todoId, username })]. *)
Definition todo_findOne (todoId : jsval) (username : string)
  : M (option (oid * todo)) :=
  let* i := st_lift (cast_oid todoId) in
  let* s := st_get in
  st_ret (find_one (owned_by i username) (db_todos s)).

(** [Todo.findOneAndUpdate({ _id: todoId, username }, update,
    { new: true })]: the updated document, or [null]. *)
Definition todo_findOneAndUpdate (todoId : jsval) (username : string)
    (u : todo_update) : M (option (oid * todo)) :=
  let* i := st_lift (cast_oid todoId) in
  let* p := st_lift (todo_cast_update u) in
  let* t := clock in
  let* s := st_get in
  match find_one (owned_by i username) (db_todos s) with
  | None => st_ret None
  | Some (k, d) =>
      let d' := todo_patch_apply t p d in
      st_modify (set_todos (insert k d')) ;;;
      st_ret (Some (k, d'))
  end.

(** [Todo.findOneAndDelete({ _id: todoId, username })]. *)
Definition todo_findOneAndDelete (todoId : jsval) (username : string)
  : M (option (oid * todo)) :=
  let* i := st_lift (cast_oid todoId) in
  let* s := st_get in
  match find_one (owned_by i username) (db_todos s) with
  | None => st_ret None
  | Some (k, d) =>
      st_modify (set_todos (delete k)) ;;;
      st_ret (Some (k, d))
  end.

(** [Todo.find({ username })]. *)
Definition todo_find (username : string) : M (list (oid * todo)) :=
  let* s := st_get in
  st_ret (find_all (owner_is username) (db_todos s)).
End TodoOps.

(** [doc.save()] of a loaded todo whose only modified path is
    [completed]: the document in memory is validated first (a
    [ValidationError] writes nothing), then
    [updateOne({ _id }, { $set: { completed, updatedAt } })] is sent, a
    [DocumentNotFoundError] when no document has that [_id]; the
    in-memory document is returned with the new timestamp. *)
Definition todo_save_completed (k : oid) (d : todo) : M todo :=
  match todo_validate d with
  | Some e => st_throw e
  | None =>
  let* t := clock in
  let* s := st_get in
  match db_todos s !! k with
  | None => st_throw ErrDocumentNotFound
  | Some cur =>
      let stored := mk_todo (t_title cur) (t_description cur) (t_urgency cur)
                            (t_dueDate cur) (t_completed d) (t_username cur)
                            (t_createdAt cur) t in
      st_modify (set_todos (insert k stored)) ;;;
      st_ret (mk_todo (t_title d) (t_description d) (t_urgency d) (t_dueDate d)
                      (t_completed d) (t_username d) (t_createdAt d) t)
  end
  end.

(** ** Queries over a collection *)

Section FindOne.
Context {D : Type}.
Implicit Types (c : gmap oid D) (p : oid -> D -> bool).

Lemma find_one_Some p c k d :
  find_one p c = Some (k, d) -> c !! k = Some d /\ p k d = true.
Proof.
  unfold find_one. intros [Hin Hp]%find_first_Some.
  by apply elem_of_map_to_list in Hin.
Qed.

Lemma find_one_None p c :
  find_one p c = None <-> forall k d, c !! k = Some d -> p k d = false.
Proof.
  unfold find_one. rewrite find_first_none_iff. split.
  - intros H k d Hk. apply (H (k, d)). by apply elem_of_map_to_list.
  - intros H [k d] Hin. apply elem_of_map_to_list in Hin. by apply H.
Qed.

(** The match of a filter that at most one document satisfies. *)
Lemma find_one_unique p c k d :
  c !! k = Some d -> p k d = true ->
  (forall k' d', c !! k' = Some d' -> p k' d' = true -> k' = k) ->
  find_one p c = Some (k, d).
Proof.
  intros Hk Hp Hu. unfold find_one. apply find_first_unique.
  - by apply elem_of_map_to_list.
  - done.
  - intros [k' d'] Hin%elem_of_map_to_list Hp'. simpl in *.
    pose proof (Hu k' d' Hin Hp') as ->. congruence.
Qed.

Lemma elem_of_find_all p c k d :
  (k, d) ∈ find_all p c <-> c !! k = Some d /\ p k d = true.
Proof.
  unfold find_all. rewrite list_elem_of_filter, elem_of_map_to_list. simpl. tauto.
Qed.
End FindOne.

(** A filter on [_id] and owner is a keyed lookup followed by the owner
    check: [{ _id: id, username }] matches at most the document [id]. *)
Lemma find_one_owned_by (c : gmap oid todo) i u :
  find_one (owned_by i u) c =
  match c !! i with
  | Some d => if String.eqb (t_username d) u then Some (i, d) else None
  | None => None
  end.
Proof.
  destruct (c !! i) as [d|] eqn:Hi; [destruct (String.eqb_spec (t_username d) u)|].
  - apply find_one_unique; [done| |].
    + unfold owned_by. rewrite N.eqb_refl. simpl. by apply String.eqb_eq.
    + intros k' d' _ Hp. unfold owned_by in Hp. apply andb_prop in Hp as [Hk _].
      by apply N.eqb_eq.
  - apply find_one_None. intros k d' Hk. unfold owned_by.
    destruct (N.eqb_spec k i) as [->|]; simpl; [|done].
    rewrite Hi in Hk. injection Hk as <-. by apply String.eqb_neq.
  - apply find_one_None. intros k d' Hk. unfold owned_by.
    destruct (N.eqb_spec k i) as [->|]; simpl; [congruence|done].
Qed.

(** No two users share a username: the unique index. *)
Definition users_unique (us : gmap oid user) : Prop :=
  forall k1 k2 u1 u2, us !! k1 = Some u1 -> us !! k2 = Some u2 ->
  u_username u1 = u_username u2 -> k1 = k2.

Lemma find_one_username (us : gmap oid user) key k u :
  users_unique us -> us !! k = Some u -> u_username u = key ->
  find_one (username_is key) us = Some (k, u).
Proof.
  intros Hu Hk Hn. apply find_one_unique; [done| |].
  - unfold username_is. by apply String.eqb_eq.
  - intros k' u' Hk' Hp. unfold username_is in Hp. apply String.eqb_eq in Hp.
    eapply Hu; [exact Hk'|exact Hk|congruence].
Qed.

Lemma find_one_username_None (us : gmap oid user) key :
  find_one (username_is key) us = None <->
  forall k u, us !! k = Some u -> u_username u <> key.
Proof.
  rewrite find_one_None. unfold username_is.
  setoid_rewrite String.eqb_neq. done.
Qed.

(** ** The effect of each operation on the state *)

(** The state after a user is created at the next ObjectId. *)
Definition db_add_user (s : db) (u : user) : db :=
  mk_db (<[db_next s := u]> (db_users s)) (db_todos s) (db_next s + 1)%N
        (db_clock s) (db_salt s).

Definition db_bump_salt (s : db) : db :=
  mk_db (db_users s) (db_todos s) (db_next s) (db_clock s) (S (db_salt s)).

Lemma user_findOne_spec username s :
  user_findOne username s =
  match cast_string "username" username with
  | inl e => (inl e, s)
  | inr v => (inr (find_one (username_is (username_set v)) (db_users s)), s)
  end.
Proof. unfold user_findOne. st_unfold. by destruct (cast_string _ _). Qed.

Lemma user_create_spec username password fullname s :
  user_create username password fullname s =
  match user_build (db_clock s) username password fullname with
  | inl e => (inl e, s)
  | inr u =>
      match find_one (username_is (u_username u)) (db_users s) with
      | Some _ => (inl (ErrDuplicateKey "username"), s)
      | None => (inr (db_next s, u), db_add_user s u)
      end
  end.
Proof.
  unfold user_create, clock, fresh_id. st_unfold.
  destruct (user_build _ _ _ _) as [e|u]; [done|]. simpl.
  by destruct (find_one _ _).
Qed.

(** A created user carries a name no stored user has. *)
Lemma users_unique_add s u :
  users_unique (db_users s) ->
  find_one (username_is (u_username u)) (db_users s) = None ->
  users_unique (db_users (db_add_user s u)).
Proof.
  intros Hu Hnone. rewrite find_one_username_None in Hnone.
  intros k1 k2 u1 u2. cbn [db_add_user db_users].
  rewrite !lookup_insert. intros H1 H2 Heq.
  destruct (decide (db_next s = k1)) as [<-|], (decide (db_next s = k2)) as [<-|];
    simplify_eq; [done| | |eauto].
  - by destruct (Hnone k2 u2 H2).
  - by destruct (Hnone k1 u1 H1).
Qed.

Lemma users_unique_alt (us : gmap oid user) :
  users_unique us <->
  map_Forall (fun k1 u1 => map_Forall (fun k2 u2 =>
    u_username u1 = u_username u2 -> k1 = k2) us) us.
Proof.
  split.
  - intros Hu k1 u1 H1 k2 u2 H2 Heq. by apply (Hu k1 k2 u1 u2).
  - intros Hu k1 k2 u1 u2 H1 H2 Heq. exact (Hu k1 u1 H1 k2 u2 H2 Heq).
Qed.

#[export] Instance users_unique_dec us : Decision (users_unique us).
Proof.
  destruct (decide (map_Forall (fun k1 u1 => map_Forall (fun k2 u2 =>
              u_username u1 = u_username u2 -> k1 = k2) us) us)) as [H|H];
    [left|right]; by rewrite users_unique_alt.
Defined.
