(* ===== verification/TodoService.v ===== *)
(** * The task service ([src/backend-todo/src/services/user-todo.js])

    Five [async] functions over the [Todo] collection, each scoped by
    the caller's [username]: [createTodoService] trims the title and
    description and creates the document; [updateTodoService] and
    [deleteTodoService] are one conditional [findOneAndUpdate] /
    [findOneAndDelete] on [{ _id, username }], throwing
    ["Todo not found or access denied"] on [null]; [toggleCompletion]
    is a [findOne] on the same filter followed by [save()] of the
    flipped flag, two round trips; [getUserTodos] is [find({ username })]. *)

From S2P Require Import Prelude Runtime ObjectId UserModel TodoModel Db.
Local Open Scope todo_scope.

(** [description?.trim() || ""]: optional chaining only guards
    [null]/[undefined]; an empty trimmed string falls back to [""]. *)
Definition trim_description (description : jsval) : err + string :=
  match description with
  | JUndefined | JNull => inr ""
  | _ => call_trim "description.trim" description
  end.

Section TodoService.
Context `{DateParser}.

Definition createTodoService (username : string) (title existing urgency
    description : jsval) : M (oid * todo) :=
  let* ti := st_lift (call_trim "title.trim" title) in
  let* de := st_lift (trim_description description) in
  todo_create username (JStr ti) (JStr de) urgency existing.

Definition updateTodoService (username : string) (todoId title existing
    urgency description : jsval) : M (oid * todo) :=
  let* ti := st_lift (call_trim "title.trim" title) in
  let* de := st_lift (trim_description description) in
  let* updated := todo_findOneAndUpdate todoId username
                    (mk_update (JStr ti) (JStr de) urgency existing) in
  match updated with
  | None => st_throw ErrTodoAccess
  | Some r => st_ret r
  end.

Definition deleteTodoService (username : string) (todoId : jsval)
  : M (oid * todo) :=
  let* deleted := todo_findOneAndDelete todoId username in
  match deleted with
  | None => st_throw ErrTodoAccess
  | Some r => st_ret r
  end.

Definition toggleCompletion (username : string) (todoId : jsval)
  : M (oid * todo) :=
  let* found := todo_findOne todoId username in
  match found with
  | None => st_throw ErrTodoAccess
  | Some (k, d) =>
      let flipped := mk_todo (t_title d) (t_description d) (t_urgency d)
                       (t_dueDate d) (negb (t_completed d)) (t_username d)
                       (t_createdAt d) (t_updatedAt d) in
      let* saved := todo_save_completed k flipped in
      st_ret (k, saved)
  end.

Definition getUserTodos (username : string) : M (list (oid * todo)) :=
  todo_find username.
End TodoService.

(** ** Functional specifications *)

(** The document [toggleCompletion] writes: the flag flipped and the
    [updatedAt] stamp of the save. *)
Definition flip_completed (d : todo) (t : Z) : todo :=
  mk_todo (t_title d) (t_description d) (t_urgency d) (t_dueDate d)
          (negb (t_completed d)) (t_username d) (t_createdAt d) t.

(** The outcome of an owner-scoped operation on the document [i]: [ok d]
    when [i] exists and belongs to [u], ["Todo not found or access
    denied"] otherwise, the state untouched in that case. *)
Definition scoped {A} (s : db) (i : oid) (u : string)
    (ok : todo -> (err + A) * db) : (err + A) * db :=
  match db_todos s !! i with
  | Some d => if String.eqb (t_username d) u then ok d else (inl ErrTodoAccess, s)
  | None => (inl ErrTodoAccess, s)
  end.

Section Specs.
Context `{DateParser}.

Theorem toggleCompletion_spec u todoId s :
  toggleCompletion u todoId s =
  match cast_oid todoId with
  | inl e => (inl e, s)
  | inr i => scoped s i u (fun d =>
      match todo_validate d with
      | Some e => (inl e, s)
      | None => (inr (i, flip_completed d (db_clock s)),
                 set_todos (insert i (flip_completed d (db_clock s))) s)
      end)
  end.
Proof.
  unfold toggleCompletion, todo_findOne, todo_save_completed, clock, scoped.
  st_unfold. destruct (cast_oid todoId) as [e|i]; [done|]. simpl.
  rewrite find_one_owned_by.
  destruct (db_todos s !! i) as [d|] eqn:Hi; [|done].
  destruct (String.eqb (t_username d) u); [|done]. simpl.
  rewrite (todo_validate_same d) by done.
  destruct (todo_validate d); [done|]. simpl. by rewrite Hi.
Qed.

Theorem deleteTodoService_spec u todoId s :
  deleteTodoService u todoId s =
  match cast_oid todoId with
  | inl e => (inl e, s)
  | inr i => scoped s i u (fun d => (inr (i, d), set_todos (delete i) s))
  end.
Proof.
  unfold deleteTodoService, todo_findOneAndDelete, scoped.
  st_unfold. destruct (cast_oid todoId) as [e|i]; [done|]. simpl.
  rewrite find_one_owned_by.
  destruct (db_todos s !! i) as [d|]; [|done].
  by destruct (String.eqb (t_username d) u).
Qed.

Theorem updateTodoService_spec u todoId title existing urgency description s :
  updateTodoService u todoId title existing urgency description s =
  match call_trim "title.trim" title, trim_description description with
  | inl e, _ | _, inl e => (inl e, s)
  | inr ti, inr de =>
      match cast_oid todoId,
            todo_cast_update (mk_update (JStr ti) (JStr de) urgency existing) with
      | inl e, _ | _, inl e => (inl e, s)
      | inr i, inr p => scoped s i u (fun d =>
          (inr (i, todo_patch_apply (db_clock s) p d),
           set_todos (insert i (todo_patch_apply (db_clock s) p d)) s))
      end
  end.
Proof.
  unfold updateTodoService, todo_findOneAndUpdate, clock, scoped.
  st_unfold. destruct (call_trim "title.trim" title) as [e|ti]; [done|].
  destruct (trim_description description) as [e|de]; [done|].
  destruct (cast_oid todoId) as [e|i]; [done|].
  destruct (todo_cast_update _) as [e|p]; [done|]. simpl.
  rewrite find_one_owned_by.
  destruct (db_todos s !! i) as [d|]; [|done].
  by destruct (String.eqb (t_username d) u).
Qed.
End Specs.

(** The state after a todo is created: the document at the next
    ObjectId, which is then used up. *)
Definition db_add_todo (s : db) (d : todo) : db :=
  mk_db (db_users s) (<[db_next s := d]> (db_todos s)) (db_next s + 1)%N
        (db_clock s) (db_salt s).

Section CreateSpec.
Context `{DateParser}.

Theorem createTodoService_spec u title existing urgency description s :
  createTodoService u title existing urgency description s =
  match call_trim "title.trim" title, trim_description description with
  | inl e, _ | _, inl e => (inl e, s)
  | inr ti, inr de =>
      match todo_build (db_clock s) u (JStr ti) (JStr de) urgency existing with
      | inl e => (inl e, s)
      | inr d => (inr (db_next s, d), db_add_todo s d)
      end
  end.
Proof.
  unfold createTodoService, todo_create, clock, fresh_id.
  st_unfold. destruct (call_trim "title.trim" title) as [e|ti]; [done|].
  destruct (trim_description description) as [e|de]; [done|]. simpl.
  by destruct (todo_build _ _ _ _ _ _).
Qed.
End CreateSpec.

(** ** Owner scoping *)

Lemma scoped_foreign {A} s i u d (ok : todo -> (err + A) * db) :
  db_todos s !! i = Some d -> t_username d <> u ->
  scoped s i u ok = (inl ErrTodoAccess, s).
Proof.
  intros Hi Hu. unfold scoped. rewrite Hi.
  by apply String.eqb_neq in Hu as ->.
Qed.

Lemma scoped_missing {A} s i u (ok : todo -> (err + A) * db) :
  db_todos s !! i = None -> scoped s i u ok = (inl ErrTodoAccess, s).
Proof. intros Hi. unfold scoped. by rewrite Hi. Qed.

Lemma scoped_owner {A} s i u d (ok : todo -> (err + A) * db) :
  db_todos s !! i = Some d -> t_username d = u -> scoped s i u ok = ok d.
Proof.
  intros Hi Hu. unfold scoped. rewrite Hi.
  by apply String.eqb_eq in Hu as ->.
Qed.

#[export] Hint Resolve scoped_foreign scoped_missing scoped_owner : todo.

(** The same operation on the state where document [i] does not exist. *)
Definition without_todo (s : db) (i : oid) : db := set_todos (delete i) s.

Lemma lookup_without_todo s i : db_todos (without_todo s i) !! i = None.
Proof. apply lookup_delete_eq. Qed.

(** Removing a document the caller does not own changes no outcome of
    an owner-scoped operation. *)
Lemma scoped_hide_foreign {A} s i d j u (ok1 ok2 : todo -> (err + A) * db) :
  db_todos s !! i = Some d -> t_username d <> u ->
  (forall d', fst (ok1 d') = fst (ok2 d')) ->
  fst (scoped s j u ok1) = fst (scoped (without_todo s i) j u ok2).
Proof.
  intros Hi Hu Hok. destruct (decide (j = i)) as [->|Hne].
  - by rewrite (scoped_foreign s i u d), scoped_missing by auto using lookup_without_todo.
  - unfold scoped. cbn [without_todo set_todos db_todos].
    rewrite lookup_delete_ne by congruence.
    destruct (db_todos s !! j) as [dj|]; [|done].
    by destruct (String.eqb (t_username dj) u).
Qed.

Section Isolation.
Context `{DateParser}.

(** C1: a todo owned by [A] cannot be deleted, toggled or updated by
    another user [B] through its id: delete and toggle fail with
    ["Todo not found or access denied"], update fails, and none of
    them changes the database. *)
Theorem foreign_todo_isolated A B s i d todoId title existing urgency description :
  db_todos s !! i = Some d -> t_username d = A -> A <> B ->
  cast_oid todoId = inr i ->
  deleteTodoService B todoId s = (inl ErrTodoAccess, s) /\
  toggleCompletion B todoId s = (inl ErrTodoAccess, s) /\
  exists e, updateTodoService B todoId title existing urgency description s
            = (inl e, s).
Proof.
  intros Hi <- HAB Hid.
  rewrite deleteTodoService_spec, toggleCompletion_spec,
    updateTodoService_spec, Hid.
  split; [eauto with todo|split; [eauto with todo|]].
  destruct (call_trim _ title), (trim_description description); eauto.
  destruct (todo_cast_update _); eauto.
  rewrite (scoped_foreign _ _ _ d); eauto.
Qed.

(** C2: another user's todo is indistinguishable from a missing one:
    each owner-scoped operation of [B] gives the same result whether
    document [i] belongs to someone else or does not exist. *)
Theorem foreign_same_as_missing A B s i d todoId title existing urgency description :
  db_todos s !! i = Some d -> t_username d = A -> A <> B ->
  fst (deleteTodoService B todoId s)
    = fst (deleteTodoService B todoId (without_todo s i)) /\
  fst (toggleCompletion B todoId s)
    = fst (toggleCompletion B todoId (without_todo s i)) /\
  fst (updateTodoService B todoId title existing urgency description s)
    = fst (updateTodoService B todoId title existing urgency description
             (without_todo s i)).
Proof.
  intros Hi <- HAB.
  rewrite !deleteTodoService_spec, !toggleCompletion_spec, !updateTodoService_spec.
  split; [|split].
  - destruct (cast_oid todoId); [done|]. eauto using scoped_hide_foreign.
  - destruct (cast_oid todoId); [done|]. apply (scoped_hide_foreign _ _ d); [done..|].
    intros d'. by destruct (todo_validate d').
  - destruct (call_trim _ title), (trim_description description); [done..|].
    destruct (cast_oid todoId); [done|].
    destruct (todo_cast_update _); [done|].
    eauto using scoped_hide_foreign.
Qed.
End Isolation.

(** ** Listing, toggling and the frame of each update *)

(** [d] with only its [updatedAt] stamp replaced. *)
Definition touch (d : todo) (t : Z) : todo :=
  mk_todo (t_title d) (t_description d) (t_urgency d) (t_dueDate d)
          (t_completed d) (t_username d) (t_createdAt d) t.

Lemma flip_completed_twice d t t' :
  flip_completed (flip_completed d t) t' = touch d t'.
Proof. unfold flip_completed, touch. simpl. by rewrite negb_involutive. Qed.

Lemma set_todos_insert_insert s i x y :
  set_todos (insert i x) (set_todos (insert i y) s) = set_todos (insert i x) s.
Proof. unfold set_todos. simpl. by rewrite insert_insert_eq. Qed.

Lemma lookup_set_todos_insert s i x : db_todos (set_todos (insert i x) s) !! i = Some x.
Proof. apply lookup_insert_eq. Qed.

Lemma clock_set_todos s f : db_clock (set_todos f s) = db_clock s.
Proof. done. Qed.

Lemma flip_completed_valid d t : todo_valid d -> todo_valid (flip_completed d t).
Proof. done. Qed.

Section Behaviour.
Context `{DateParser}.

(** The owner toggles a valid todo: the flag flipped, stamped and
    stored. *)
Lemma toggleCompletion_owner u todoId s i d :
  cast_oid todoId = inr i -> db_todos s !! i = Some d -> t_username d = u -> todo_valid d ->
  toggleCompletion u todoId s =
    (inr (i, flip_completed d (db_clock s)), set_todos (insert i (flip_completed d (db_clock s))) s).
Proof.
  intros Hid Hi Hu Hv. rewrite toggleCompletion_spec, Hid, (scoped_owner s i u d) by done.
  by rewrite (proj2 (todo_validate_None d) Hv).
Qed.

(** C3: [getUserTodos u] changes nothing and returns exactly the
    stored todos whose owner is [u]. *)
Theorem getUserTodos_exact u s :
  exists l, getUserTodos u s = (inr l, s) /\
    forall k d, (k, d) ∈ l <-> db_todos s !! k = Some d /\ t_username d = u.
Proof.
  eexists. split; [reflexivity|]. intros k d.
  rewrite elem_of_find_all. unfold owner_is.
  by rewrite String.eqb_eq.
Qed.

(** Toggling a todo twice, with no other request in between,
    restores its [completed] flag and every other field but the
    [updatedAt] stamp. *)
Theorem toggle_twice u todoId s i d :
  cast_oid todoId = inr i -> db_todos s !! i = Some d -> t_username d = u -> todo_valid d ->
  exists r1 s1 r2,
    toggleCompletion u todoId s = (inr r1, s1) /\
    toggleCompletion u todoId s1 = (inr r2, set_todos (insert i (touch d (db_clock s))) s) /\
    t_completed (snd r1) = negb (t_completed d) /\
    t_completed (snd r2) = t_completed d.
Proof.
  intros Hid Hi Hu Hv.
  exists (i, flip_completed d (db_clock s)),
    (set_todos (insert i (flip_completed d (db_clock s))) s),
    (i, touch d (db_clock s)).
  rewrite (toggleCompletion_owner u todoId s i d) by done.
  rewrite (toggleCompletion_owner u todoId _ i (flip_completed d (db_clock s)))
    by auto using lookup_set_todos_insert, flip_completed_valid.
  rewrite clock_set_todos, flip_completed_twice, set_todos_insert_insert.
  repeat split.
Qed.

(** C5: an update never touches [completed], the owner or [createdAt]
    of the todo it changes, and a toggle changes only [completed] and
    [updatedAt]. *)
Theorem update_toggle_frame u todoId title existing urgency description s i d' s' :
  (updateTodoService u todoId title existing urgency description s = (inr (i, d'), s') ->
   exists d, db_todos s !! i = Some d /\ db_todos s' = <[i := d']> (db_todos s) /\
     t_completed d' = t_completed d /\ t_username d' = t_username d /\
     t_createdAt d' = t_createdAt d) /\
  (toggleCompletion u todoId s = (inr (i, d'), s') ->
   exists d, db_todos s !! i = Some d /\ db_todos s' = <[i := d']> (db_todos s) /\
     d' = flip_completed d (db_clock s)).
Proof.
  rewrite updateTodoService_spec, toggleCompletion_spec. unfold scoped. split.
  - destruct (call_trim _ title), (trim_description description); try done.
    destruct (cast_oid todoId) as [|j]; [done|].
    destruct (todo_cast_update _) as [|p]; [done|].
    destruct (db_todos s !! j) as [d|] eqn:Hj; [|done].
    destruct (String.eqb _ u); [|done]. intros [= <- <- <-]. eauto 10.
  - destruct (cast_oid todoId) as [|j]; [done|].
    destruct (db_todos s !! j) as [d|] eqn:Hj; [|done].
    destruct (String.eqb _ u); [|done].
    destruct (todo_validate d); [done|]. intros [= <- <- <-]. eauto 10.
Qed.
End Behaviour.

(** ** The schema invariant *)

(** Every stored todo satisfies the schema's validators. *)
Definition todos_valid (s : db) : Prop :=
  map_Forall (fun _ d => todo_valid d) (db_todos s).

#[export] Instance todos_valid_dec s : Decision (todos_valid s).
Proof. unfold todos_valid. apply _. Defined.


Lemma todos_valid_insert s i d :
  todos_valid s -> todo_valid d -> todos_valid (set_todos (insert i d) s).
Proof. intros Hs Hd. by apply map_Forall_insert_2. Qed.

Section Invariant.
Context `{DateParser}.

(** C6: creating, deleting and toggling keep every stored todo valid
    for the schema (non-empty title and owner, urgency in the enum). *)
Theorem todos_valid_preserved s u todoId title existing urgency description r s' :
  todos_valid s ->
  (createTodoService u title existing urgency description s = (r, s') ->
   todos_valid s') /\
  (deleteTodoService u todoId s = (r, s') -> todos_valid s') /\
  (toggleCompletion u todoId s = (r, s') -> todos_valid s').
Proof.
  intros Hs. rewrite createTodoService_spec, deleteTodoService_spec,
    toggleCompletion_spec. unfold scoped. split; [|split].
  - destruct (call_trim _ title), (trim_description description);
      try (intros [= _ <-]; done).
    destruct (todo_build _ _ _ _ _ _) as [|d] eqn:Hb; [intros [= _ <-]; done|].
    intros [= _ <-]. apply todos_valid_insert; [done|].
    by apply todo_build_valid in Hb as [? _].
  - destruct (cast_oid todoId) as [|j]; [intros [= _ <-]; done|].
    destruct (db_todos s !! j) as [d|]; [|intros [= _ <-]; done].
    destruct (String.eqb _ u); intros [= _ <-]; [|done].
    by apply map_Forall_delete.
  - destruct (cast_oid todoId) as [|j]; [intros [= _ <-]; done|].
    destruct (db_todos s !! j) as [d|] eqn:Hj; [|intros [= _ <-]; done].
    destruct (String.eqb _ u); [|intros [= _ <-]; done].
    destruct (todo_validate d); intros [= _ <-]; [done|].
    apply todos_valid_insert; [done|]. apply flip_completed_valid. exact (Hs j d Hj).
Qed.
End Invariant.

(** ** Concrete runs *)

Import RefDate.

(** One todo of ["alice"] at ObjectId 0, the clock at 5. *)
Definition milk : todo :=
  mk_todo "Buy milk" "" (Some "normal") (Some 20250110%Z) false "alice" 1 1.

Definition db_milk : db := mk_db ∅ {[0%N := milk]} 1%N 5%Z 0.

Lemma foreign_todo_isolated_witness :
  deleteTodoService "bob" (oid_json 0%N) db_milk
    = (inl ErrTodoAccess, db_milk) /\
  toggleCompletion "bob" (oid_json 0%N) db_milk = (inl ErrTodoAccess, db_milk) /\
  exists e, updateTodoService "bob" (oid_json 0%N)
              (JStr "Steal milk") (JStr "2025-01-11") (JStr "important") JUndefined
              db_milk = (inl e, db_milk).
Proof.
  apply (foreign_todo_isolated "alice" "bob" db_milk 0%N milk); [reflexivity|reflexivity| |].
  - discriminate.
  - vm_compute. reflexivity.
Defined.

Lemma foreign_same_as_missing_witness :
  fst (deleteTodoService "bob" (oid_json 0%N) db_milk)
    = fst (deleteTodoService "bob" (oid_json 0%N)
             (without_todo db_milk 0%N)) /\
  fst (toggleCompletion "bob" (oid_json 0%N) db_milk)
    = fst (toggleCompletion "bob" (oid_json 0%N) (without_todo db_milk 0%N)) /\
  fst (updateTodoService "bob" (oid_json 0%N)
         (JStr "x") (JStr "2025-01-11") (JStr "normal") JUndefined db_milk)
    = fst (updateTodoService "bob" (oid_json 0%N)
             (JStr "x") (JStr "2025-01-11") (JStr "normal") JUndefined
             (without_todo db_milk 0%N)).
Proof.
  apply (foreign_same_as_missing "alice" "bob" db_milk 0%N milk); [reflexivity|reflexivity|].
  discriminate.
Defined.

Lemma toggle_twice_witness :
  exists r1 s1 r2,
    toggleCompletion "alice" (oid_json 0%N) db_milk = (inr r1, s1) /\
    toggleCompletion "alice" (oid_json 0%N) s1
      = (inr r2, set_todos (insert 0%N (touch milk (db_clock db_milk))) db_milk) /\
    t_completed (snd r1) = negb (t_completed milk) /\
    t_completed (snd r2) = t_completed milk.
Proof.
  apply (toggle_twice "alice" (oid_json 0%N) db_milk 0%N milk);
    [vm_compute; reflexivity|reflexivity|reflexivity|decide_by_compute].
Defined.

Lemma update_toggle_frame_witness :
  exists d, db_todos db_milk !! 0%N = Some d /\
    db_todos (set_todos (insert 0%N (flip_completed milk 5%Z)) db_milk)
      = <[0%N := flip_completed milk 5%Z]> (db_todos db_milk) /\
    flip_completed milk 5%Z = flip_completed d (db_clock db_milk).
Proof.
  apply (proj2 (update_toggle_frame "alice" (oid_json 0%N) (JStr "") (JStr "") (JStr "")
                  JUndefined db_milk 0%N (flip_completed milk 5%Z)
                  (set_todos (insert 0%N (flip_completed milk 5%Z)) db_milk))).
  vm_compute. reflexivity.
Defined.

Lemma todos_valid_preserved_witness :
  todos_valid db_milk /\
  todos_valid (snd (createTodoService "alice" (JStr " Call mom ") (JStr "2025-02-01")
                      (JStr "important") JUndefined db_milk)).
Proof.
  assert (Hv : todos_valid db_milk) by (decide_by_compute).
  split; [exact Hv|].
  destruct (createTodoService "alice" (JStr " Call mom ") (JStr "2025-02-01")
              (JStr "important") JUndefined db_milk) as [r s'] eqn:Hrun.
  apply (proj1 (todos_valid_preserved db_milk "alice" (JStr "") (JStr " Call mom ")
           (JStr "2025-02-01") (JStr "important") JUndefined r s' Hv)).
  exact Hrun.
Defined.

(** C7: [findOneAndUpdate] runs no validator: an update may store a
    blank title and an urgency outside the enum, which [create] rejects,
    so the schema invariant does not survive [updateTodoService]. *)
Theorem update_bypasses_validation :
  todos_valid db_milk /\
  createTodoService "alice" (JStr "   ") (JStr "2025-01-10") (JStr "urgent") JUndefined
    db_milk = (inl (ErrValidation "title"), db_milk) /\
  exists d', updateTodoService "alice" (oid_json 0%N) (JStr "   ") (JStr "2025-01-10")
               (JStr "urgent") JUndefined db_milk
             = (inr (0%N, d'), set_todos (insert 0%N d') db_milk) /\
           t_title d' = "" /\ t_urgency d' = Some "urgent" /\
           ~ todos_valid (set_todos (insert 0%N d') db_milk).
Proof.
  split; [decide_by_compute|].
  split; [vm_compute; reflexivity|].
  eexists. split; [vm_compute; reflexivity|].
  split; [reflexivity|]. split; [reflexivity|].
  intros Hv. specialize (Hv 0%N _ (lookup_insert_eq _ _ _)).
  by destruct Hv as [Ht _].
Qed.

(** The todo of [db_milk] after the update of C7: a blank title and an
    urgency outside the enum. *)
Definition milk_blanked : todo :=
  mk_todo "" "" (Some "urgent") (Some 20250110%Z) false "alice" 1 5.

Lemma milk_blanked_stored :
  snd (updateTodoService "alice" (oid_json 0%N) (JStr "   ") (JStr "2025-01-10")
         (JStr "urgent") JUndefined db_milk)
  = set_todos (insert 0%N milk_blanked) db_milk.
Proof. vm_compute. reflexivity. Qed.

Section InvalidToggle.
Context `{DateParser}.

(** C23: once a todo is invalid for the schema, which only an update
    can make it (C7), its owner can no longer toggle it: [save()]
    validates the whole loaded document, so every toggle fails with a
    [ValidationError] and changes nothing, until an update makes the
    todo valid again. *)
Theorem toggle_invalid_todo_fails u todoId s i d :
  cast_oid todoId = inr i -> db_todos s !! i = Some d -> t_username d = u ->
  ~ todo_valid d ->
  exists path, toggleCompletion u todoId s = (inl (ErrValidation path), s).
Proof.
  intros Hid Hi Hu Hinv. destruct (todo_validate_Some d Hinv) as [path Hval].
  exists path. rewrite toggleCompletion_spec, Hid, (scoped_owner s i u d) by done.
  by rewrite Hval.
Qed.
End InvalidToggle.

Lemma toggle_invalid_todo_fails_witness :
  exists path, toggleCompletion "alice" (oid_json 0%N)
                 (snd (updateTodoService "alice" (oid_json 0%N) (JStr "   ")
                         (JStr "2025-01-10") (JStr "urgent") JUndefined db_milk))
               = (inl (ErrValidation path),
                  snd (updateTodoService "alice" (oid_json 0%N) (JStr "   ")
                         (JStr "2025-01-10") (JStr "urgent") JUndefined db_milk)).
Proof.
  rewrite milk_blanked_stored.
  apply (toggle_invalid_todo_fails "alice" (oid_json 0%N) _ 0%N milk_blanked);
    [vm_compute; reflexivity|apply lookup_set_todos_insert|reflexivity|decide_by_compute].
Defined.
