(* ===== verification/AuthService.v ===== *)
(** * The credential service ([src/backend-todo/src/services/authentication.js])

    [signupService] looks the username up, hashes the password with
    [generatePassword] ([utils/password-bcrypt.js]), creates the user and
    then runs [loginService], which looks the user up again, checks the
    password with [verifyPassword] and signs [{ id, username }] with
    [JWT_SECRET]; [getUserService] returns the profile of a username.
    [JWT_SECRET] is [process.env.JWT_SECRET || "your-dev-secret"], read
    once at load time: the section variable [env_secret]. *)

From S2P Require Import Prelude Runtime Crypto ObjectId UserModel Db.
Local Open Scope todo_scope.

(** [process.env.JWT_SECRET || "your-dev-secret"]: an unset or empty
    variable falls back to the development secret. *)
Definition JWT_SECRET (env_secret : option string) : string :=
  match env_secret with
  | Some k => if String.eqb k "" then "your-dev-secret" else k
  | None => "your-dev-secret"
  end.

(** [{ id, username, fullname, token }], the result of [loginService]. *)
Record auth_user := mk_auth {
  au_id : oid;
  au_username : string;
  au_fullname : string;
  au_token : string
}.

(** [{ id, username, fullname }], the result of [getUserService]. *)
Record profile := mk_profile {
  pr_id : oid;
  pr_username : string;
  pr_fullname : string
}.

Section Auth.
Context `{Bcrypt} `{Jwt}.
Context (env_secret : option string).

(** [bcrypt.hash(plaintext, 10)] with a fresh salt; bcrypt rejects a
    non-string argument. *)
Definition generatePassword (plaintext : jsval) : M string :=
  match plaintext with
  | JStr p => let* salt := fresh_salt in st_ret (bcrypt_hash salt p)
  | _ => st_throw ErrBcrypt
  end.

(** [bcrypt.compare(plaintext, hashed)]. *)
Definition verifyPassword (plaintext : jsval) (hashed : string) : err + bool :=
  match plaintext with
  | JStr p => inr (bcrypt_compare p hashed)
  | _ => inl ErrBcrypt
  end.

Definition loginService (username password : jsval) : M auth_user :=
  let* found := user_findOne username in
  match found with
  | None => st_throw ErrUserNotFound
  | Some (k, u) =>
      let* valid := st_lift (verifyPassword password (u_password u)) in
      if negb valid then st_throw ErrInvalidPassword else
      let* t := clock in
      let token := jwt_sign (JWT_SECRET env_secret)
                     (mk_claims k (u_username u) (t / 1000)) in
      st_ret (mk_auth k (u_username u) (u_fullname u) token)
  end.

(** The [if (!newUser)] branch is dead: [User.create] returns the new
    document or throws. *)
Definition signupService (username fullname password : jsval) : M auth_user :=
  let* existing := user_findOne username in
  match existing with
  | Some _ => st_throw ErrUsernameTaken
  | None =>
      let* hashed := generatePassword password in
      user_create username hashed fullname ;;;
      loginService username password
  end.

Definition getUserService (username : jsval) : M profile :=
  let* found := user_findOne username in
  match found with
  | None => st_throw ErrUserNotFound
  | Some (k, u) => st_ret (mk_profile k (u_username u) (u_fullname u))
  end.
End Auth.

(** ** Specifications *)

Section AuthSpecs.
Context `{Bcrypt} `{Jwt}.
Context (env_secret : option string).

(** The token [loginService] signs for the user [k]. *)
Definition login_token (k : oid) (u : user) (t : Z) : string :=
  jwt_sign (JWT_SECRET env_secret) (mk_claims k (u_username u) (t / 1000)).

Theorem loginService_spec username password s :
  loginService env_secret username password s =
  match cast_string "username" username with
  | inl e => (inl e, s)
  | inr v =>
      match find_one (username_is (username_set v)) (db_users s) with
      | None => (inl ErrUserNotFound, s)
      | Some (k, u) =>
          match verifyPassword password (u_password u) with
          | inl e => (inl e, s)
          | inr false => (inl ErrInvalidPassword, s)
          | inr true =>
              (inr (mk_auth k (u_username u) (u_fullname u)
                      (login_token k u (db_clock s))), s)
          end
      end
  end.
Proof.
  unfold loginService, login_token, clock. st_unfold. rewrite user_findOne_spec.
  destruct (cast_string _ _) as [e|v]; [done|].
  destruct (find_one _ _) as [[k u]|]; [|done].
  destruct (verifyPassword _ _) as [e|[]]; done.
Qed.

Corollary loginService_readonly username password s r s' :
  loginService env_secret username password s = (r, s') -> s' = s.
Proof.
  rewrite loginService_spec.
  destruct (cast_string _ _); [by intros [= _ <-]|].
  destruct (find_one _ _) as [[k u]|]; [|by intros [= _ <-]].
  destruct (verifyPassword _ _) as [|[]]; by intros [= _ <-].
Qed.

(** What a successful signup did: the name was free, the password a
    string, and the new user was stored at the next ObjectId before the
    closing login. *)
Lemma signupService_success username fullname password s a s1 :
  signupService env_secret username fullname password s = (inr a, s1) ->
  exists v p u,
    cast_string "username" username = inr v /\ password = JStr p /\
    find_one (username_is (username_set v)) (db_users s) = None /\
    user_build (db_clock s) username (bcrypt_hash (db_salt s) p) fullname = inr u /\
    find_one (username_is (u_username u)) (db_users s) = None /\
    s1 = db_add_user (db_bump_salt s) u /\
    loginService env_secret username password s1 = (inr a, s1).
Proof.
  unfold signupService. st_unfold. rewrite user_findOne_spec.
  destruct (cast_string _ _) as [e|v] eqn:Hv; [done|]. simpl.
  destruct (find_one _ _) as [[k u0]|] eqn:Hfree; [done|].
  destruct password as [| | | |p|]; try done. unfold generatePassword, fresh_salt.
  st_unfold. simpl. fold (db_bump_salt s).
  rewrite user_create_spec. cbn [db_bump_salt db_clock db_users].
  destruct (user_build _ _ _ _) as [e|u] eqn:Hb; [done|].
  destruct (find_one (username_is (u_username u)) _) eqn:Hdup; [done|].
  intros Hlogin. pose proof Hlogin as Hro. apply loginService_readonly in Hro.
  subst s1. exists v, p, u. by rewrite Hlogin.
Qed.

Theorem signupService_spec username fullname password s :
  signupService env_secret username fullname password s =
  match cast_string "username" username with
  | inl e => (inl e, s)
  | inr v =>
      match find_one (username_is (username_set v)) (db_users s) with
      | Some _ => (inl ErrUsernameTaken, s)
      | None =>
          match password with
          | JStr p =>
              match user_build (db_clock s) username (bcrypt_hash (db_salt s) p)
                      fullname with
              | inl e => (inl e, db_bump_salt s)
              | inr u =>
                  match find_one (username_is (u_username u)) (db_users s) with
                  | Some _ => (inl (ErrDuplicateKey "username"), db_bump_salt s)
                  | None => loginService env_secret username password
                              (db_add_user (db_bump_salt s) u)
                  end
              end
          | _ => (inl ErrBcrypt, s)
          end
      end
  end.
Proof.
  unfold signupService. st_unfold. rewrite user_findOne_spec.
  destruct (cast_string _ _) as [e|v]; [done|].
  destruct (find_one _ _) as [[k u0]|]; [done|].
  destruct password as [| | | |p|]; try done. unfold generatePassword, fresh_salt.
  st_unfold. simpl. fold (db_bump_salt s). rewrite user_create_spec.
  cbn [db_bump_salt db_clock db_users].
  destruct (user_build _ _ _ _) as [e|u]; [done|].
  by destruct (find_one (username_is (u_username u)) _).
Qed.
End AuthSpecs.

(** ** Properties of the credential service *)

Lemma getUserService_readonly username s r s' :
  getUserService username s = (r, s') -> s' = s.
Proof.
  unfold getUserService. st_unfold. rewrite user_findOne_spec.
  destruct (cast_string _ _); [by intros [= _ <-]|].
  destruct (find_one _ _) as [[]|]; by intros [= _ <-].
Qed.


Lemma users_unique_bump s : users_unique (db_users (db_bump_salt s)) <-> users_unique (db_users s).
Proof. done. Qed.

Lemma db_add_user_lookup s u : db_users (db_add_user s u) !! db_next s = Some u.
Proof. apply lookup_insert_eq. Qed.

(** A username that some stored user carries is found. *)
Lemma find_one_username_Some (us : gmap oid user) key k u :
  us !! k = Some u -> u_username u = key ->
  exists r, find_one (username_is key) us = Some r.
Proof.
  intros Hk Hn. destruct (find_one _ us) as [r|] eqn:Hf; [by eauto|].
  rewrite find_one_username_None in Hf. by destruct (Hf k u Hk).
Qed.

Section AuthProps.
Context `{Bcrypt} `{Jwt}.
Context (env_secret : option string).

(** C8: once a signup for a username has succeeded, a second signup
    for any username that normalises to the same name fails with
    ["Username already taken"] and changes nothing. *)
Theorem signup_twice_taken username username' fullname fullname' password password'
    s a s1 v v' :
  signupService env_secret username fullname password s = (inr a, s1) ->
  cast_string "username" username = inr v ->
  cast_string "username" username' = inr v' ->
  username_set v' = username_set v ->
  signupService env_secret username' fullname' password' s1 = (inl ErrUsernameTaken, s1).
Proof.
  intros Hs Hv Hv' Hn.
  destruct (signupService_success env_secret _ _ _ _ _ _ Hs)
    as (v0 & p & u & Hv0 & -> & _ & Hb & _ & -> & _).
  apply user_build_ok in Hb as ((v1 & Hv1 & Hu) & _).
  rewrite Hv in Hv1. injection Hv1 as <-.
  rewrite signupService_spec, Hv'.
  destruct (find_one_username_Some _ (username_set v') _ u
              (db_add_user_lookup (db_bump_salt s) u)) as [r ->]; [congruence|done].
Qed.

(** C9: a stored user logs in with a password that matches the stored
    hash; the state is unchanged and the token returned verifies, under
    the server's secret, to the user's ObjectId and username. *)
Theorem login_correct_password username p q s k u v salt :
  users_unique (db_users s) -> db_users s !! k = Some u ->
  cast_string "username" username = inr v -> username_set v = u_username u ->
  u_password u = bcrypt_hash salt q -> trunc72 p = trunc72 q ->
  loginService env_secret username (JStr p) s
    = (inr (mk_auth k (u_username u) (u_fullname u)
              (login_token env_secret k u (db_clock s))), s) /\
  jwt_verify (JWT_SECRET env_secret) (login_token env_secret k u (db_clock s))
    = Some (mk_claims k (u_username u) (db_clock s / 1000)).
Proof.
  intros Huniq Hk Hv Hn Hpw Hp. split; [|apply jwt_verify_sign].
  rewrite loginService_spec, Hv, (find_one_username _ _ k u) by done.
  simpl. rewrite Hpw, bcrypt_compare_hash. by rewrite bool_decide_true.
Qed.

(** C10: a wrong password for an existing user fails with
    ["InvalidPassword"], not ["UserNotFound"], and changes nothing. *)
Theorem login_wrong_password username p q s k u v salt :
  users_unique (db_users s) -> db_users s !! k = Some u ->
  cast_string "username" username = inr v -> username_set v = u_username u ->
  u_password u = bcrypt_hash salt q -> trunc72 p <> trunc72 q ->
  loginService env_secret username (JStr p) s = (inl ErrInvalidPassword, s).
Proof.
  intros Huniq Hk Hv Hn Hpw Hp.
  rewrite loginService_spec, Hv, (find_one_username _ _ k u) by done.
  simpl. rewrite Hpw, bcrypt_compare_hash. by rewrite bool_decide_false.
Qed.

(** C11: no operation of the credential service makes two users share
    a username: signup inserts only a name no stored user has, login
    and profile lookup change nothing. *)
Theorem auth_preserves_unique_usernames username fullname password s r s' :
  users_unique (db_users s) ->
  (signupService env_secret username fullname password s = (r, s') ->
   users_unique (db_users s')) /\
  (loginService env_secret username password s = (r, s') -> s' = s) /\
  (forall r', getUserService username s = (r', s') -> s' = s).
Proof.
  intros Hu. split; [|split].
  - rewrite signupService_spec.
    destruct (cast_string _ _); [by intros [= _ <-]|].
    destruct (find_one _ _); [by intros [= _ <-]|].
    destruct password as [| | | |p|]; try by intros [= _ <-].
    destruct (user_build _ _ _ _) as [|u]; [by intros [= _ <-]|].
    destruct (find_one (username_is (u_username u)) _) eqn:Hfree;
      [by intros [= _ <-]|].
    intros Hl. apply loginService_readonly in Hl as ->.
    by apply users_unique_add.
  - apply loginService_readonly.
  - intros r'. apply getUserService_readonly.
Qed.
End AuthProps.

(** A new user is the only one carrying its name. *)
Lemma find_one_add_user s u :
  find_one (username_is (u_username u)) (db_users s) = None ->
  find_one (username_is (u_username u)) (db_users (db_add_user s u)) = Some (db_next s, u).
Proof.
  intros Hnone. rewrite find_one_username_None in Hnone.
  apply find_one_unique; [apply db_add_user_lookup|by apply String.eqb_eq|].
  intros k' u' Hk' Hp. apply String.eqb_eq in Hp.
  cbn [db_add_user db_users] in Hk'. rewrite lookup_insert in Hk'.
  case_decide; [done|]. by destruct (Hnone k' u' Hk').
Qed.

Section ShortPassword.
Context `{Bcrypt} `{Jwt}.
Context (env_secret : option string).

(** C12: the [minlength: 6] of the schema is checked on the bcrypt
    hash, not on the password: signup with the one-character password
    ["x"] succeeds whenever the name is free and the fields are
    present. *)
Theorem signup_short_password_accepted username fullname s v f :
  cast_string "username" username = inr v -> username_set v <> "" ->
  find_one (username_is (username_set v)) (db_users s) = None ->
  cast_string "fullname" fullname = inr f -> js_trim f <> "" ->
  exists a s', signupService env_secret username fullname (JStr "x") s = (inr a, s').
Proof.
  intros Hv Hne Hfree Hf Hfne. rewrite signupService_spec, Hv, Hfree.
  unfold user_build, build_path, required_string. rewrite Hv, Hf.
  apply String.eqb_neq in Hne as ->, Hfne as ->. simpl.
  pose proof (bcrypt_hash_length (db_salt s) "x") as Hlen.
  destruct (String.eqb_spec (bcrypt_hash (db_salt s) "x") "") as [Hemp|_].
  { rewrite Hemp in Hlen. simpl in Hlen. lia. }
  destruct (Nat.ltb_spec (String.length (bcrypt_hash (db_salt s) "x")) 6); [lia|].
  simpl. rewrite Hfree.
  rewrite loginService_spec, Hv.
  rewrite (find_one_add_user (db_bump_salt s)
             (mk_user (username_set v) (bcrypt_hash (db_salt s) "x") (js_trim f)
                (db_clock s) (db_clock s))) by exact Hfree.
  simpl. rewrite bcrypt_compare_hash, bool_decide_true by done. eauto.
Qed.
End ShortPassword.

Section SignupLogin.
Context `{Bcrypt} `{Jwt}.
Context (env_secret : option string).

(** C13: after a successful signup with password [p], logging in with
    any password that agrees with [p] on its first 72 bytes succeeds
    and yields the identity the signup returned.  bcrypt reads only 72
    bytes, so passwords that differ after that point are accepted. *)
Theorem signup_then_login username fullname p p' s a s1 :
  signupService env_secret username fullname (JStr p) s = (inr a, s1) ->
  trunc72 p' = trunc72 p ->
  exists a', loginService env_secret username (JStr p') s1 = (inr a', s1) /\
             au_id a' = au_id a /\ au_username a' = au_username a.
Proof.
  intros Hs Hp.
  destruct (signupService_success env_secret _ _ _ _ _ _ Hs)
    as (v & p0 & u & Hv & [= <-] & _ & Hb & Hdup & -> & Hlogin).
  pose proof (user_build_ok _ _ _ _ _ Hb) as ((v1 & Hv1 & Hu) & Hpw & _).
  rewrite Hv in Hv1. injection Hv1 as <-.
  rewrite loginService_spec, Hv in Hlogin |- *.
  rewrite <- Hu, (find_one_add_user (db_bump_salt s) u) in Hlogin |- * by exact Hdup.
  cbn [verifyPassword] in Hlogin |- *. rewrite Hpw, !bcrypt_compare_hash in Hlogin |- *.
  rewrite bool_decide_true in Hlogin |- * by done.
  injection Hlogin as <-. eauto.
Qed.
End SignupLogin.

(** ** Concrete runs, with the reference bcrypt and JWT *)

Import Reference.

Definition db0 : db := mk_db ∅ ∅ 0%N 1700000000000%Z 7.

Definition alice : user :=
  mk_user "alice" (Reference.hash 7 "secret1") "Alice" 1700000000000%Z 1700000000000%Z.

Definition db_alice : db := db_add_user (db_bump_salt db0) alice.

Lemma users_unique_empty : users_unique (db_users db0).
Proof. intros k1 k2 u1 u2 H1. cbn [db0 db_users] in H1. by rewrite lookup_empty in H1. Qed.

Lemma users_unique_alice : users_unique (db_users db_alice).
Proof. apply users_unique_add; [exact users_unique_empty|reflexivity]. Qed.

Definition alice_auth : auth_user :=
  mk_auth 0%N "alice" "Alice" (login_token None 0%N alice 1700000000000%Z).

Lemma signup_twice_taken_witness :
  signupService None (JStr " ALICE ") (JStr "Other") (JStr "hunter22") db_alice
    = (inl ErrUsernameTaken, db_alice).
Proof.
  apply (signup_twice_taken None (JStr "alice") (JStr " ALICE ") (JStr "Alice")
           (JStr "Other") (JStr "secret1") (JStr "hunter22") db0 alice_auth db_alice
           "alice" " ALICE "); vm_compute; reflexivity.
Defined.

Lemma login_correct_password_witness :
  loginService None (JStr "Alice") (JStr "secret1") db_alice
    = (inr (mk_auth 0%N "alice" "Alice" (login_token None 0%N alice (db_clock db_alice))),
       db_alice) /\
  jwt_verify (JWT_SECRET None) (login_token None 0%N alice (db_clock db_alice))
    = Some (mk_claims 0%N "alice" (db_clock db_alice / 1000)).
Proof.
  apply (login_correct_password None (JStr "Alice") "secret1" "secret1" db_alice 0%N alice
           "Alice" 7); [exact users_unique_alice|vm_compute; reflexivity..].
Defined.

Lemma login_wrong_password_witness :
  loginService None (JStr "alice") (JStr "secret2") db_alice = (inl ErrInvalidPassword, db_alice).
Proof.
  apply (login_wrong_password None (JStr "alice") "secret2" "secret1" db_alice 0%N alice
           "alice" 7); [exact users_unique_alice|vm_compute; reflexivity..|discriminate].
Defined.

Lemma auth_preserves_unique_usernames_witness :
  users_unique (db_users (snd (signupService None (JStr "bob") (JStr "Bob")
                                 (JStr "pw1234") db_alice))).
Proof.
  destruct (signupService None (JStr "bob") (JStr "Bob") (JStr "pw1234") db_alice)
    as [r s'] eqn:Hrun.
  exact (proj1 (auth_preserves_unique_usernames None (JStr "bob") (JStr "Bob")
                  (JStr "pw1234") db_alice r s' users_unique_alice) Hrun).
Defined.

Lemma signup_short_password_accepted_witness :
  exists a s', signupService None (JStr "bob") (JStr "Bob") (JStr "x") db_alice = (inr a, s').
Proof.
  apply (signup_short_password_accepted None (JStr "bob") (JStr "Bob") db_alice "bob" "Bob");
    [vm_compute; reflexivity|discriminate|vm_compute; reflexivity|vm_compute; reflexivity|
     discriminate].
Defined.

(** Two passwords that differ only in their 73rd byte. *)
Definition pw72 : string := "aaaaaaaaaaaaaaaaaaaaaaaaaaaaaaaaaaaaaaaaaaaaaaaaaaaaaaaaaaaaaaaaaaaaaaaa".

Lemma signup_then_login_witness :
  exists a', loginService None (JStr "carol") (JStr (pw72 +:+ "2"))
               (snd (signupService None (JStr "carol") (JStr "Carol") (JStr (pw72 +:+ "1")) db0))
             = (inr a', snd (signupService None (JStr "carol") (JStr "Carol")
                                (JStr (pw72 +:+ "1")) db0)) /\
             au_id a' = 0%N /\ au_username a' = "carol".
Proof.
  destruct (signup_then_login None (JStr "carol") (JStr "Carol") (pw72 +:+ "1") (pw72 +:+ "2")
              db0 (mk_auth 0%N "carol" "Carol"
                     (login_token None 0%N (mk_user "carol" (Reference.hash 7 (pw72 +:+ "1"))
                        "Carol" 1700000000000%Z 1700000000000%Z) 1700000000000%Z))
              (snd (signupService None (JStr "carol") (JStr "Carol") (JStr (pw72 +:+ "1")) db0)))
    as (a' & Hl & Hid & Hn); [vm_compute; reflexivity|vm_compute; reflexivity|].
  exists a'. split; [exact Hl|]. split; assumption.
Defined.

Lemma getUserService_spec username s :
  getUserService username s =
  match cast_string "username" username with
  | inl e => (inl e, s)
  | inr v =>
      match find_one (username_is (username_set v)) (db_users s) with
      | None => (inl ErrUserNotFound, s)
      | Some (k, u) => (inr (mk_profile k (u_username u) (u_fullname u)), s)
      end
  end.
Proof.
  unfold getUserService. st_unfold. rewrite user_findOne_spec.
  destruct (cast_string _ _); [done|]. by destruct (find_one _ _) as [[]|].
Qed.

Lemma user_build_err now username password fullname e :
  user_build now username password fullname = inl e -> exists p, e = ErrValidation p.
Proof.
  unfold user_build, build_path.
  destruct (cast_string "username" username); [intros [= <-]; eauto|].
  repeat case_match; intros; simplify_eq; eauto.
Qed.

Lemma cast_string_err path v e : cast_string path v = inl e -> e = ErrCast path.
Proof. destruct v; by intros [= <-]. Qed.

Section DeadBranch.
Context `{Bcrypt} `{Jwt}.
Context (env_secret : option string).

(** The [if (!newUser)] branch of [signupService] is dead: no
    signup fails with ["Failed to create user. Please try again."] (the
    spec's [CreationFailed]); a rejected insert surfaces as mongoose's
    own validation or duplicate-key error. *)
Theorem signup_never_creation_failed username fullname password s :
  fst (signupService env_secret username fullname password s) <> inl ErrCreateUser.
Proof.
  rewrite signupService_spec.
  destruct (cast_string _ _) eqn:Hc; [by apply cast_string_err in Hc as ->|].
  destruct (find_one _ _); [done|].
  destruct password as [| | | |p|]; try done.
  destruct (user_build _ _ _ _) as [e|u] eqn:Hb;
    [by apply user_build_err in Hb as [? ->]|].
  destruct (find_one _ _); [done|].
  rewrite loginService_spec.
  destruct (cast_string _ _) eqn:Hc'; [by apply cast_string_err in Hc' as ->|].
  destruct (find_one _ _) as [[]|]; [|done].
  simpl; by destruct (bcrypt_compare _ _).
Qed.
End DeadBranch.
