(* ===== verification/Session.v ===== *)
(** * The bearer-token middleware ([middlewares/decode-token], required
    by the three routers)

    The module is not in the repository: it is modelled from the spec
    (4.4).  It reads the [Authorization] header, requires the
    [Bearer ] prefix, verifies the token with the process-wide
    [JWT_SECRET] and, on success, hands the decoded claims to the
    handler as [req.user]; any failure answers [Unauthorized] without
    saying why. *)

From S2P Require Import Prelude Runtime Crypto ObjectId AuthService.

Definition bearer_prefix : string := "Bearer ".

Section Session.
Context `{Jwt}.

(** The token of an [Authorization] header, if it has the prefix. *)
Definition bearer_token (header : option string) : option string :=
  match header with
  | Some h =>
      if String.prefix bearer_prefix h
      then Some (String.substring 7 (String.length h - 7) h)
      else None
  | None => None
  end.

(** [verifyToken]: the caller's claims, or [None] for [Unauthorized]. *)
Definition verifyToken (secret : string) (header : option string) : option claims :=
  match bearer_token header with
  | Some t => jwt_verify secret t
  | None => None
  end.
End Session.

(** ** Lemmas *)

Lemma substring_app_prefix p t :
  String.substring (String.length p) (String.length (p +:+ t) - String.length p) (p +:+ t) = t.
Proof.
  induction p as [|c p IH]; simpl.
  - rewrite Nat.sub_0_r. apply Reference.substring_all.
  - exact IH.
Qed.

Lemma prefix_app p t : String.prefix p (p +:+ t) = true.
Proof.
  induction p as [|c p IH]; simpl; [by destruct t|].
  destruct (Ascii.ascii_dec c c); [exact IH|congruence].
Qed.

Lemma bearer_token_header t : bearer_token (Some (bearer_prefix +:+ t)) = Some t.
Proof.
  unfold bearer_token. rewrite prefix_app. f_equal.
  exact (substring_app_prefix bearer_prefix t).
Qed.

(** A header built from a signed token verifies to the signed claims. *)
Lemma verifyToken_sign `{Jwt} k c :
  verifyToken k (Some (bearer_prefix +:+ jwt_sign k c)) = Some c.
Proof. unfold verifyToken. rewrite bearer_token_header. apply jwt_verify_sign. Qed.
