(* ===== verification/Controllers.v ===== *)
(** * The Express handlers ([src/backend-todo/src/controllers])

    Each handler reads its fields from [req.body] (values of [jsval]) or
    the caller's claims from [req.user], answers ["missing ..."] when a
    required field is falsy, and otherwise calls one service inside
    [try]/[catch]: [res.json({ data })] on success,
    [res.json({ error: e.message })] on a throw.  A handler never throws
    itself; its answer is a [body]. *)

From S2P Require Import Prelude Runtime Crypto ObjectId UserModel TodoModel Db TodoService AuthService.
Local Open Scope todo_scope.

(** What [res.json] sends. *)
Inductive payload :=
| PAuth (a : auth_user)
| PProfile (p : profile)
| PTodo (k : oid) (d : todo)
| PTodos (l : list (oid * todo)).

Inductive body :=
| BData (p : payload)              (** [{ data: ... }] *)
| BError (msg : string)            (** [{ error: ... }] *)
| BSuccess.                        (** [{ success: true }] *)

(** [try { const x = await m; res.json({ data: f(x) }) }
    catch (e) { res.json({ error: e.message }) }]. *)
Definition respond {A} (m : M A) (f : A -> payload) : M body :=
  st_catch (let* x := m in st_ret (BData (f x)))
           (fun e => st_ret (BError (err_message e))).

Definition todo_payload (r : oid * todo) : payload := PTodo r.1 r.2.

Module AuthController.

Section AuthHandlers.
Context `{Bcrypt} `{Jwt}.
Context (env_secret : option string).

Definition signup (username password fullname : jsval) : M body :=
if negb (truthy username) then st_ret (BError "missing username")
else if negb (truthy password) then st_ret (BError "missing password")
else if negb (truthy fullname) then st_ret (BError "missing fullname")
else respond (signupService env_secret username fullname password) PAuth.

Definition login (username password : jsval) : M body :=
if negb (truthy username) then st_ret (BError "missing username")
else if negb (truthy password) then st_ret (BError "missing password")
else respond (loginService env_secret username password) PAuth.

Definition getUser (user : claims) : M body :=
let username := JStr (cl_username user) in
if negb (truthy username) then st_ret (BError "missing username param")
else respond (getUserService username) PProfile.
End AuthHandlers.

End AuthController.
Export AuthController.

Module TodoController.

Section TodoHandlers.
Context `{DateParser}.

Definition createTodo (user : claims) (title description urgency dueDate : jsval)
: M body :=
if negb (truthy title) || negb (truthy urgency) || negb (truthy dueDate)
then st_ret (BError "Missing required fields")
else respond (createTodoService (cl_username user) title dueDate urgency description)
             todo_payload.

Definition updateTodo (user : claims) (title description urgency dueDate id : jsval)
: M body :=
if negb (truthy id) || negb (truthy title) || negb (truthy urgency)
   || negb (truthy dueDate)
then st_ret (BError "Missing required fields")
else respond (updateTodoService (cl_username user) id title dueDate urgency
                description) todo_payload.

Definition deleteTodo (user : claims) (id : jsval) : M body :=
if negb (truthy id) then st_ret (BError "Missing id")
else st_catch (deleteTodoService (cl_username user) id ;;; st_ret BSuccess)
              (fun e => st_ret (BError (err_message e))).

Definition toggleTodoCompletion (user : claims) (id : jsval) : M body :=
if negb (truthy id) then st_ret (BError "Missing id")
else respond (toggleCompletion (cl_username user) id) todo_payload.

Definition getTodos (user : claims) : M body :=
if negb (truthy (JStr (cl_username user)))
then st_ret (BError "Username missing from token")
else respond (getUserTodos (cl_username user)) PTodos.
End TodoHandlers.

End TodoController.
Export TodoController.

(** ** Lemmas *)

Lemma respond_spec {A} (m : M A) (f : A -> payload) s :
  respond m f s =
  match m s with
  | (inl e, s') => (inr (BError (err_message e)), s')
  | (inr x, s') => (inr (BData (f x)), s')
  end.
Proof. unfold respond, st_catch. st_unfold. by destruct (m s) as [[e|x] s']. Qed.

(** A handler always answers: the [catch] turns every throw into an
    error body. *)
Lemma respond_total {A} (m : M A) (f : A -> payload) s :
  exists b, fst (respond m f s) = inr b.
Proof. rewrite respond_spec. destruct (m s) as [[e|x] s']; eauto. Qed.

(** ** Properties of the handlers *)

Section HandlerProps.
Context `{Bcrypt} `{Jwt} `{DateParser}.
Context (env_secret : option string).

(** C24: a request whose required field is missing or falsy is
    answered with the handler's ["missing ..."] error before any
    database access, the database left as it was: [title], [urgency]
    and [dueDate] of a create, these and the [id] of an update, the
    [id] of a delete or a toggle, the [username] and [password] of a
    signup or a login, and the [fullname] of a signup, each checked in
    the order of the handler's [if]s. *)
Theorem missing_fields_rejected c s title description urgency dueDate id
    username password fullname :
  (negb (truthy title) || negb (truthy urgency) || negb (truthy dueDate) = true ->
   createTodo c title description urgency dueDate s
     = (inr (BError "Missing required fields"), s)) /\
  (negb (truthy id) || negb (truthy title) || negb (truthy urgency)
     || negb (truthy dueDate) = true ->
   updateTodo c title description urgency dueDate id s
     = (inr (BError "Missing required fields"), s)) /\
  (truthy id = false ->
   deleteTodo c id s = (inr (BError "Missing id"), s) /\
   toggleTodoCompletion c id s = (inr (BError "Missing id"), s)) /\
  (truthy username = false ->
   signup env_secret username password fullname s = (inr (BError "missing username"), s) /\
   login env_secret username password s = (inr (BError "missing username"), s)) /\
  (truthy username = true -> truthy password = false ->
   signup env_secret username password fullname s = (inr (BError "missing password"), s) /\
   login env_secret username password s = (inr (BError "missing password"), s)) /\
  (truthy username = true -> truthy password = true -> truthy fullname = false ->
   signup env_secret username password fullname s = (inr (BError "missing fullname"), s)).
Proof.
  unfold createTodo, updateTodo, deleteTodo, toggleTodoCompletion, signup, login.
  repeat split; intros; repeat match goal with H : _ = _ |- _ => rewrite H end; done.
Qed.

(** C25: with the user stored, a wrong password is answered
    ["InvalidPassword"] and an unknown name ["UserNotFound"]: the login
    handler tells the two apart, so the answer reveals whether a
    username exists. *)
Theorem login_reveals_existence username username' p q s k u v v' salt :
  users_unique (db_users s) -> db_users s !! k = Some u ->
  cast_string "username" username = inr v -> username_set v = u_username u ->
  u_password u = bcrypt_hash salt q -> trunc72 p <> trunc72 q ->
  cast_string "username" username' = inr v' ->
  find_one (username_is (username_set v')) (db_users s) = None ->
  truthy username = true -> truthy username' = true -> p <> "" ->
  login env_secret username (JStr p) s = (inr (BError "InvalidPassword"), s) /\
  login env_secret username' (JStr p) s = (inr (BError "UserNotFound"), s).
Proof.
  intros Huniq Hk Hv Hn Hpw Hp Hv' Hnone Ht Ht' Hpne.
  unfold login. rewrite Ht, Ht'. apply String.eqb_neq in Hpne. simpl. rewrite Hpne. simpl.
  rewrite !respond_spec, !loginService_spec, Hv, Hv', Hnone.
  rewrite (find_one_username _ _ k u) by done. simpl.
  rewrite Hpw, bcrypt_compare_hash, bool_decide_false by done. done.
Qed.
End HandlerProps.
