(* ===== verification/Server.v ===== *)
(** * The HTTP API ([src/backend-todo/src/routes], [app.js])

    [app.js] mounts three routers: [/v1/auth] (login, signup, and
    [GET /info] behind [verifyToken]), [/v1/user] (the five todo routes,
    all behind [verifyToken]) and [/v1/llm] (the chat route, not
    modelled: it forwards to an external language model).  [request]
    lists the routes with the fields each handler reads; [handle] is the
    router.  The server is the transition system [server_step]: one
    request handled to completion, or time passing.  The invariant
    [db_wf] (unique usernames, every ObjectId below the counter) holds
    in every state reachable from an empty database; a request creates
    at most one document, and every answer has the payload shape of its
    route ([route_shape], [has_shape]). *)

From S2P Require Import Prelude Runtime Crypto ObjectId UserModel TodoModel Db TodoService AuthService Session Controllers.
Local Open Scope todo_scope.

Inductive request :=
| PostLogin (username password : jsval)
| PostSignup (username password fullname : jsval)
| GetInfo (auth : option string)
| GetTodos (auth : option string)
| PostCreate (auth : option string) (title description urgency dueDate : jsval)
| PutUpdate (auth : option string) (id title description urgency dueDate : jsval)
| DeleteTodo (auth : option string) (id : jsval)
| PatchToggle (auth : option string) (id : jsval).

(** The middleware's answer to a missing or invalid token. *)
Definition unauthorized : body := BError "Unauthorized".

Section Router.
Context `{Bcrypt} `{Jwt} `{DateParser}.
Context (env_secret : option string).

(** [verifyToken] in front of a protected handler. *)
Definition with_user (auth : option string) (k : claims -> M body) : M body :=
  match verifyToken (JWT_SECRET env_secret) auth with
  | None => st_ret unauthorized
  | Some c => k c
  end.

Definition handle (req : request) : M body :=
  match req with
  | PostLogin u p => login env_secret u p
  | PostSignup u p f => signup env_secret u p f
  | GetInfo a => with_user a getUser
  | GetTodos a => with_user a getTodos
  | PostCreate a ti de ur du => with_user a (fun c => createTodo c ti de ur du)
  | PutUpdate a i ti de ur du => with_user a (fun c => updateTodo c ti de ur du i)
  | DeleteTodo a i => with_user a (fun c => deleteTodo c i)
  | PatchToggle a i => with_user a (fun c => toggleTodoCompletion c i)
  end.

(** Time passing between requests. *)
Definition tick (s : db) (dt : Z) : db :=
  mk_db (db_users s) (db_todos s) (db_next s) (db_clock s + dt) (db_salt s).

Inductive server_step : db -> db -> Prop :=
| step_handle req s b s' : handle req s = (inr b, s') -> server_step s s'
| step_tick s dt : (0 <= dt)%Z -> server_step s (tick s dt).
End Router.

(** Every stored ObjectId is below the counter, so the next one is
    fresh. *)
Definition ids_below (s : db) : Prop :=
  map_Forall (fun k _ => (k < db_next s)%N) (db_users s) /\
  map_Forall (fun k _ => (k < db_next s)%N) (db_todos s).

(** The database invariant: usernames unique and normalised, ObjectIds
    fresh. *)
Definition db_wf (s : db) : Prop :=
  users_unique (db_users s) /\ map_Forall (fun _ u => user_ok u) (db_users s) /\
  ids_below s.

#[export] Instance db_wf_dec s : Decision (db_wf s).
Proof. unfold db_wf, ids_below. apply _. Defined.

(** An empty database, at any time. *)
Definition db_empty (t : Z) : db := mk_db ∅ ∅ 0%N t 0.

(** ** What one request can do to the database *)

Inductive db_change (s : db) : db -> Prop :=
| ch_same : db_change s s
| ch_salt : db_change s (db_bump_salt s)
| ch_add_user u :
    user_ok u -> find_one (username_is (u_username u)) (db_users s) = None ->
    db_change s (db_add_user (db_bump_salt s) u)
| ch_add_todo d : db_change s (db_add_todo s d)
| ch_set_todo i d : is_Some (db_todos s !! i) -> db_change s (set_todos (insert i d) s)
| ch_del_todo i : db_change s (set_todos (delete i) s).

#[export] Hint Constructors db_change : todo.

(** A computation whose final state is always one of those changes. *)
Definition changes_ok {A} (m : M A) : Prop := forall s, db_change s (snd (m s)).

Lemma db_change_wf s s' : db_wf s -> db_change s s' -> db_wf s'.
Proof.
  intros (Hu & Hok & Hku & Hkt) Hc. unfold db_wf, ids_below.
  destruct Hc as [| |u Huok Hfree|d|i d [d0 Hi]|i].
  - done.
  - done.
  - cbn [db_add_user db_bump_salt db_users db_todos db_next].
    split; [by apply (users_unique_add (db_bump_salt s))|].
    split; [by apply map_Forall_insert_2|]. split.
    + apply map_Forall_insert_2; [lia|]. intros k x Hk. specialize (Hku k x Hk). simpl in *. lia.
    + intros k x Hk. specialize (Hkt k x Hk). simpl in *. lia.
  - cbn [db_add_todo db_users db_todos db_next]. do 2 (split; [done|]). split.
    + intros k x Hk. specialize (Hku k x Hk). simpl in *. lia.
    + apply map_Forall_insert_2; [lia|]. intros k x Hk. specialize (Hkt k x Hk). simpl in *. lia.
  - cbn [set_todos db_users db_todos db_next]. do 3 (split; [done|]).
    apply map_Forall_insert_2; [|done]. exact (Hkt i d0 Hi).
  - cbn [set_todos db_users db_todos db_next]. do 3 (split; [done|]).
    by apply map_Forall_delete.
Qed.

Lemma changes_ok_ret {A} (a : A) : changes_ok (st_ret a).
Proof. intros s. constructor. Qed.

Lemma changes_ok_respond {A} (m : M A) f : changes_ok m -> changes_ok (respond m f).
Proof.
  intros Hm s. rewrite respond_spec. specialize (Hm s).
  by destruct (m s) as [[e|x] s'].
Qed.

(** The outcome of a read-only computation. *)
Lemma changes_ok_readonly {A} (m : M A) :
  (forall s r s', m s = (r, s') -> s' = s) -> changes_ok m.
Proof.
  intros Hro s. destruct (m s) as [r s'] eqn:E. apply Hro in E as ->. constructor.
Qed.

#[export] Hint Resolve changes_ok_ret changes_ok_respond : todo.

Lemma changes_ok_catch {A} (m : M A) (b : body) (h : err -> body) :
  changes_ok m -> changes_ok (st_catch (m ;;; st_ret b) (fun e => st_ret (h e))).
Proof.
  intros Hm s. specialize (Hm s). unfold st_catch. st_unfold.
  by destruct (m s) as [[e|x] s'].
Qed.

#[export] Hint Resolve changes_ok_catch : todo.

(** Split the field checks of a handler and close its branches. *)
Ltac changes_branches :=
  repeat match goal with
         | |- changes_ok (if ?b then _ else _) => destruct b
         end; auto with todo.

Section Changes.
Context `{Bcrypt} `{Jwt} `{DateParser}.
Context (env_secret : option string).

Lemma signupService_changes u f p : changes_ok (signupService env_secret u f p).
Proof.
  intros s. rewrite signupService_spec.
  destruct (cast_string _ _); [constructor|].
  destruct (find_one _ _); [constructor|].
  destruct p as [| | | |p|]; try constructor.
  destruct (user_build _ _ _ _) as [|u'] eqn:Hb; [constructor|].
  destruct (find_one (username_is (u_username u')) _) eqn:Hfree; [constructor|].
  destruct (loginService _ _ _ _) as [r s'] eqn:E.
  apply loginService_readonly in E as ->.
  apply ch_add_user; [by apply user_build_user_ok in Hb|done].
Qed.

Lemma createTodoService_changes u ti ex ur de :
  changes_ok (createTodoService u ti ex ur de).
Proof.
  intros s. rewrite createTodoService_spec.
  destruct (call_trim _ ti); [constructor|].
  destruct (trim_description de); [constructor|].
  destruct (todo_build _ _ _ _ _ _); constructor.
Qed.

Lemma scoped_changes {A} s i u (ok : todo -> (err + A) * db) :
  (forall d, db_todos s !! i = Some d -> db_change s (snd (ok d))) ->
  db_change s (snd (scoped s i u ok)).
Proof.
  intros Hok. unfold scoped. destruct (db_todos s !! i) eqn:Hi; [|constructor].
  destruct (String.eqb _ u); [auto|constructor].
Qed.

Lemma updateTodoService_changes u i ti ex ur de :
  changes_ok (updateTodoService u i ti ex ur de).
Proof.
  intros s. rewrite updateTodoService_spec.
  destruct (call_trim _ ti); [constructor|].
  destruct (trim_description de); [constructor|].
  destruct (cast_oid i); [constructor|].
  destruct (todo_cast_update _); [constructor|].
  apply scoped_changes. intros d Hd. apply ch_set_todo. eauto.
Qed.

Lemma deleteTodoService_changes u i : changes_ok (deleteTodoService u i).
Proof.
  intros s. rewrite deleteTodoService_spec.
  destruct (cast_oid i); [constructor|].
  apply scoped_changes. intros d _. apply ch_del_todo.
Qed.

Lemma toggleCompletion_changes u i : changes_ok (toggleCompletion u i).
Proof.
  intros s. rewrite toggleCompletion_spec.
  destruct (cast_oid i); [constructor|].
  apply scoped_changes. intros d Hd.
  destruct (todo_validate d); [constructor|]. apply ch_set_todo. eauto.
Qed.

#[local] Hint Resolve signupService_changes createTodoService_changes
  updateTodoService_changes deleteTodoService_changes toggleCompletion_changes : todo.

Lemma changes_ok_with_user a k :
  (forall c, changes_ok (k c)) -> changes_ok (with_user env_secret a k).
Proof.
  intros Hk s. unfold with_user. destruct (verifyToken _ _); [apply Hk|constructor].
Qed.

Lemma handle_changes req : changes_ok (handle env_secret req).
Proof.
  destruct req; simpl; try (apply changes_ok_with_user; intros c).
  - unfold login. changes_branches.
    apply changes_ok_respond, changes_ok_readonly, loginService_readonly.
  - unfold signup. changes_branches.
  - unfold getUser. changes_branches.
    apply changes_ok_respond, changes_ok_readonly, getUserService_readonly.
  - unfold getTodos. changes_branches.
    apply changes_ok_respond, changes_ok_readonly. by intros s r s' [= _ <-].
  - unfold createTodo. changes_branches.
  - unfold updateTodo. changes_branches.
  - unfold deleteTodo. changes_branches.
  - unfold toggleTodoCompletion. changes_branches.
Qed.
End Changes.

(** ** The invariant over reachable states, and totality *)

Lemma tick_wf s dt : db_wf s -> db_wf (tick s dt).
Proof. done. Qed.

Lemma db_empty_wf t : db_wf (db_empty t).
Proof.
  unfold db_wf, ids_below, db_empty. cbn [db_users db_todos].
  split; [intros k1 k2 u1 u2 H1; by rewrite lookup_empty in H1|].
  split; [|split]; apply map_Forall_empty.
Qed.

Section Reachable.
Context `{Bcrypt} `{Jwt} `{DateParser}.
Context (env_secret : option string).

Lemma server_step_wf s s' : db_wf s -> server_step env_secret s s' -> db_wf s'.
Proof.
  intros Hwf Hstep. inversion Hstep as [req s0 b s1 Hh|s0 dt Hdt]; subst;
    [|by apply tick_wf].
  apply (db_change_wf s); [done|].
  pose proof (handle_changes env_secret req s) as Hc. by rewrite Hh in Hc.
Qed.

(** C14: in every state the server can reach from an empty database,
    whatever requests arrived and however time passed, no two users
    share a username and every stored ObjectId is below the counter. *)
Theorem reachable_wf t s :
  rtc (server_step env_secret) (db_empty t) s -> db_wf s.
Proof.
  intros Hr. cut (forall x y, rtc (server_step env_secret) x y -> db_wf x -> db_wf y).
  { intros Hgen. exact (Hgen _ _ Hr (db_empty_wf t)). }
  intros x y Hxy. induction Hxy as [x|x y z Hxy Hyz IH]; [done|].
  intros Hx. apply IH. by apply (server_step_wf x).
Qed.

(** A computation that always answers. *)
Definition answers {A} (m : M A) : Prop := forall s, exists a, fst (m s) = inr a.

Lemma answers_ret {A} (a : A) : answers (st_ret a).
Proof. intros s. by exists a. Qed.

Lemma answers_respond {A} (m : M A) f : answers (respond m f).
Proof. intros s. apply respond_total. Qed.

Lemma answers_catch {A} (m : M A) b (h : err -> body) :
  answers (st_catch (m ;;; st_ret b) (fun e => st_ret (h e))).
Proof.
  intros s. unfold st_catch. st_unfold. destruct (m s) as [[e|x] s']; eauto.
Qed.

Lemma answers_with_user a k : (forall c, answers (k c)) -> answers (with_user env_secret a k).
Proof. intros Hk s. unfold with_user. destruct (verifyToken _ _); [apply Hk|eauto]. Qed.

#[local] Hint Resolve answers_ret answers_respond answers_catch : todo.

Lemma handle_answers req : answers (handle env_secret req).
Proof.
  destruct req; simpl; try (apply answers_with_user; intros c);
    [unfold login|unfold signup|unfold getUser|unfold getTodos|unfold createTodo
    |unfold updateTodo|unfold deleteTodo|unfold toggleTodoCompletion];
    repeat match goal with |- answers (if ?b then _ else _) => destruct b end;
    auto with todo.
Qed.

(** The server answers every request: each handler turns every
    exception of the layers below into an [{ error }] body, so no
    request ends in an unhandled rejection. *)
Theorem handle_total req s : exists b, fst (handle env_secret req s) = inr b.
Proof. apply handle_answers. Qed.
End Reachable.

(** ** How fast ObjectIds are used up *)

Lemma db_change_next s s' : db_change s s' -> (db_next s' <= db_next s + 1)%N.
Proof. destruct 1; simpl; lia. Qed.

Section Counter.
Context `{Bcrypt} `{Jwt} `{DateParser}.
Context (env_secret : option string).

Lemma server_step_next s s' :
  server_step env_secret s s' -> (db_next s' <= db_next s + 1)%N.
Proof.
  destruct 1 as [req s0 b s1 Hh|s0 dt _]; [|simpl; lia].
  apply db_change_next. pose proof (handle_changes env_secret req s0) as Hc.
  by rewrite Hh in Hc.
Qed.

(** Each request hands out at most one ObjectId: after [n] steps
    of the server from an empty database the counter is at most [n], so
    any run of fewer than [16^24] requests keeps every ObjectId inside
    the 24-digit range the client's theorems assume. *)
Theorem objectids_bounded t n s :
  nsteps (server_step env_secret) n (db_empty t) s -> (db_next s <= N.of_nat n)%N.
Proof.
  cut (forall s0, nsteps (server_step env_secret) n s0 s ->
                  (db_next s <= db_next s0 + N.of_nat n)%N).
  { intros Hc Hn. specialize (Hc _ Hn). simpl in Hc. lia. }
  induction n as [|n IH]; intros s0 Hn; inversion Hn as [|? ? s1 ? Hstep Hrest]; subst.
  - lia.
  - specialize (IH s1 Hrest). apply server_step_next in Hstep. lia.
Qed.
End Counter.

(** ** The shape of each route's answer *)

(** What the client may find in [json.data] on each route. *)
Inductive answer_shape := SAuth | SProfile | STodo | STodos | SSuccess.

Definition route_shape (req : request) : answer_shape :=
  match req with
  | PostLogin _ _ | PostSignup _ _ _ => SAuth
  | GetInfo _ => SProfile
  | GetTodos _ => STodos
  | PostCreate _ _ _ _ _ | PutUpdate _ _ _ _ _ _ | PatchToggle _ _ => STodo
  | DeleteTodo _ _ => SSuccess
  end.

(** An answer of the shape: an [{ error }], or the data of the shape. *)
Definition has_shape (sh : answer_shape) (b : body) : bool :=
  match b, sh with
  | BError _, _ => true
  | BData (PAuth _), SAuth | BData (PProfile _), SProfile
  | BData (PTodo _ _), STodo | BData (PTodos _), STodos | BSuccess, SSuccess => true
  | _, _ => false
  end.

Definition answers_in {A} (P : A -> Prop) (m : M A) : Prop :=
  forall s, exists a, fst (m s) = inr a /\ P a.

Section Shapes.
Context `{Bcrypt} `{Jwt} `{DateParser}.
Context (env_secret : option string).
Context (sh : answer_shape).

Lemma shape_ret b : has_shape sh b = true -> answers_in (fun b => has_shape sh b = true) (st_ret b).
Proof. intros Hb s. by exists b. Qed.

Lemma shape_respond {A} (m : M A) f :
  (forall x, has_shape sh (BData (f x)) = true) ->
  answers_in (fun b => has_shape sh b = true) (respond m f).
Proof.
  intros Hf s. rewrite respond_spec. destruct (m s) as [[e|x] s']; eexists; split; eauto.
Qed.

Lemma shape_catch {A} (m : M A) b (h : err -> body) :
  has_shape sh b = true -> (forall e, has_shape sh (h e) = true) ->
  answers_in (fun b => has_shape sh b = true)
    (st_catch (m ;;; st_ret b) (fun e => st_ret (h e))).
Proof.
  intros Hb Hh s. unfold st_catch. st_unfold. destruct (m s) as [[e|x] s']; eauto.
Qed.

Lemma shape_with_user a k :
  (forall c, answers_in (fun b => has_shape sh b = true) (k c)) ->
  answers_in (fun b => has_shape sh b = true) (with_user env_secret a k).
Proof.
  intros Hk s. unfold with_user. destruct (verifyToken _ _); [apply Hk|].
  exists unauthorized. by destruct sh.
Qed.
End Shapes.

(** C35: the API is typed: every request is answered, with an
    [{ error }] or with the data its route promises (an auth payload for
    login and signup, a profile for [/info], a todo for create, update
    and toggle, a list for [/todo/my], [{ success }] for delete), so the
    client's reading of [json.data] on each route is well typed. *)
Theorem handle_typed `{Bcrypt} `{Jwt} `{DateParser} env_secret req :
  answers_in (fun b => has_shape (route_shape req) b = true) (handle env_secret req).
Proof.
  destruct req; simpl; try (apply shape_with_user; intros c);
    [unfold login|unfold signup|unfold getUser|unfold getTodos|unfold createTodo
    |unfold updateTodo|unfold deleteTodo|unfold toggleTodoCompletion];
    repeat match goal with |- answers_in _ (if ?b then _ else _) => destruct b end;
    first [apply shape_ret; reflexivity | apply shape_respond; intros; reflexivity
          | apply shape_catch; [reflexivity|intros; reflexivity]].
Qed.

(** ** Sessions *)

Section Sessions.
Context `{Bcrypt} `{Jwt} `{DateParser}.

(** C18: with [JWT_SECRET] unset or empty, the fallback secret
    ["your-dev-secret"] written in the source signs the sessions: anyone
    can mint a header under which [GET /v1/user/todo/my] lists the
    todos of any user they name. *)
Theorem default_secret_forgeable env_secret k u t s :
  env_secret = None \/ env_secret = Some "" -> u <> "" ->
  handle env_secret
    (GetTodos (Some (bearer_prefix +:+ jwt_sign "your-dev-secret" (mk_claims k u t)))) s
  = (inr (BData (PTodos (find_all (owner_is u) (db_todos s)))), s).
Proof.
  intros Henv Hu. simpl. unfold with_user.
  replace (JWT_SECRET env_secret) with "your-dev-secret" by (by destruct Henv as [-> | ->]).
  rewrite verifyToken_sign. unfold getTodos. cbn [cl_username].
  apply String.eqb_neq in Hu. simpl. rewrite Hu. simpl.
  by rewrite respond_spec.
Qed.
End Sessions.
