(* ===== verification/Concurrency.v ===== *)
(** * Concurrent requests: interleavings of round trips

    Node runs one handler until it [await]s, so two requests interleave
    only at the [await]s, each of which is one atomic MongoDB operation.
    [toggleCompletion] awaits twice ([findOne], then [save()], which
    validates the loaded document before it writes) and [signupService]
    checks the name ([findOne]) before it creates the user;
    [updateTodoService] is one atomic [findOneAndUpdate].  A thread is a
    request between two such operations; [cstep] runs one atomic
    operation of one thread, or lets time pass.  The split lemmas show
    that the phases compose back to the sequential services of
    [TodoService]/[AuthService].  The theorems: two toggles lose an
    update, two signups end in a duplicate-key error, every
    interleaving keeps the database well formed, and a toggle and an
    update of a valid todo serialise up to the clock and the
    [updatedAt] stamps. *)

From S2P Require Import Prelude Runtime Crypto ObjectId UserModel TodoModel Db TodoService AuthService Server.
Local Open Scope todo_scope.

(** ** The phases of the two-round-trip services *)

(** [toggleCompletion] up to its first [await]: the [findOne]. *)
Definition toggle_read (u : string) (todoId : jsval) : M (oid * todo) :=
  let* found := todo_findOne todoId u in
  match found with
  | None => st_throw ErrTodoAccess
  | Some r => st_ret r
  end.

(** The rest: flip the loaded document and [save()] it. *)
Definition toggle_write (r : oid * todo) : M (oid * todo) :=
  let '(k, d) := r in
  let flipped := mk_todo (t_title d) (t_description d) (t_urgency d)
                   (t_dueDate d) (negb (t_completed d)) (t_username d)
                   (t_createdAt d) (t_updatedAt d) in
  let* saved := todo_save_completed k flipped in
  st_ret (k, saved).

Lemma toggle_split u todoId s :
  toggleCompletion u todoId s = st_bind (toggle_read u todoId) toggle_write s.
Proof.
  unfold toggleCompletion, toggle_read. st_unfold.
  destruct (todo_findOne todoId u s) as [[e|[[k d]|]] s']; done.
Qed.

Section SignupPhases.
Context `{Bcrypt} `{Jwt}.
Context (env_secret : option string).

(** [signupService] up to the [findOne] that checks the name. *)
Definition signup_check (username : jsval) : M unit :=
  let* existing := user_findOne username in
  match existing with
  | Some _ => st_throw ErrUsernameTaken
  | None => st_ret tt
  end.

(** The rest: hash, [User.create], and the closing login. *)
Definition signup_commit (username fullname password : jsval) : M auth_user :=
  let* hashed := generatePassword password in
  user_create username hashed fullname ;;;
  loginService env_secret username password.

Lemma signup_split username fullname password s :
  signupService env_secret username fullname password s =
  st_bind (signup_check username) (fun _ => signup_commit username fullname password) s.
Proof.
  unfold signupService, signup_check, signup_commit. st_unfold.
  destruct (user_findOne username s) as [[e|[r|]] s']; done.
Qed.
End SignupPhases.

(** ** Threads and interleaved steps *)

(** What a finished request returned. *)
Inductive outcome :=
| OToggled (r : err + oid * todo)
| OUpdated (r : err + oid * todo)
| OSignedUp (r : err + auth_user).

Inductive thread :=
| TToggle (u : string) (todoId : jsval)      (** before the [findOne] *)
| TToggleSave (r : oid * todo)               (** loaded, before [save()] *)
| TUpdate (u : string) (todoId title existing urgency description : jsval)
                                             (** one [findOneAndUpdate] *)
| TSignup (username fullname password : jsval)   (** before the check *)
| TSignupCommit (username fullname password : jsval) (** name found free *)
| TDone (o : outcome).

Definition finished (t : thread) : bool :=
  match t with TDone _ => true | _ => false end.

(** Run a phase; a throw ends the thread with its error. *)
Definition phase {A} (m : M A) (next : A -> thread) (fail : err -> thread) : M thread :=
  st_catch (let* a := m in st_ret (next a)) (fun e => st_ret (fail e)).

Section Threads.
Context `{Bcrypt} `{Jwt} `{DateParser}.
Context (env_secret : option string).

(** One atomic round trip of a thread. *)
Definition thread_step (t : thread) : M thread :=
  match t with
  | TToggle u i =>
      phase (toggle_read u i) TToggleSave (fun e => TDone (OToggled (inl e)))
  | TToggleSave r =>
      phase (toggle_write r) (fun x => TDone (OToggled (inr x)))
            (fun e => TDone (OToggled (inl e)))
  | TUpdate u i ti ex ur de =>
      phase (updateTodoService u i ti ex ur de) (fun x => TDone (OUpdated (inr x)))
            (fun e => TDone (OUpdated (inl e)))
  | TSignup un fn pw =>
      phase (signup_check un) (fun _ => TSignupCommit un fn pw)
            (fun e => TDone (OSignedUp (inl e)))
  | TSignupCommit un fn pw =>
      phase (signup_commit env_secret un fn pw) (fun a => TDone (OSignedUp (inr a)))
            (fun e => TDone (OSignedUp (inl e)))
  | TDone o => st_ret (TDone o)
  end.

(** Any unfinished thread may take the next step. *)
Inductive cstep : db * list thread -> db * list thread -> Prop :=
| cstep_run s ts i t t' s' :
    ts !! i = Some t -> finished t = false ->
    thread_step t s = (inr t', s') ->
    cstep (s, ts) (s', <[i := t']> ts)
| cstep_tick s ts dt : (0 <= dt)%Z -> cstep (s, ts) (tick s dt, ts).
End Threads.

Lemma phase_spec {A} (m : M A) next fail s :
  phase m next fail s =
  match m s with
  | (inl e, s') => (inr (fail e), s')
  | (inr a, s') => (inr (next a), s')
  end.
Proof. unfold phase, st_catch. st_unfold. by destruct (m s) as [[e|a] s']. Qed.

Lemma toggle_read_spec u todoId s :
  toggle_read u todoId s =
  match cast_oid todoId with
  | inl e => (inl e, s)
  | inr i => scoped s i u (fun d => (inr (i, d), s))
  end.
Proof.
  unfold toggle_read, todo_findOne, scoped. st_unfold.
  destruct (cast_oid todoId) as [e|i]; [done|]. simpl.
  rewrite find_one_owned_by.
  destruct (db_todos s !! i) as [d|]; [|done].
  by destruct (String.eqb (t_username d) u).
Qed.

(** [save()] of a valid snapshot writes the snapshot's flag, whatever
    the stored document's flag is by then. *)
Lemma toggle_write_spec k d s cur :
  todo_valid d -> db_todos s !! k = Some cur ->
  toggle_write (k, d) s =
  (inr (k, flip_completed d (db_clock s)),
   set_todos (insert k (mk_todo (t_title cur) (t_description cur) (t_urgency cur)
                          (t_dueDate cur) (negb (t_completed d)) (t_username cur)
                          (t_createdAt cur) (db_clock s))) s).
Proof.
  intros Hv Hk. unfold toggle_write, todo_save_completed, clock. st_unfold.
  rewrite (todo_validate_same d) by done. rewrite (proj2 (todo_validate_None d) Hv).
  by rewrite Hk.
Qed.

(** ** Two toggles of the same todo *)

Section LostUpdate.
Context `{Bcrypt} `{Jwt} `{DateParser}.
Context (env_secret : option string).

Lemma thread_read_step u todoId s i d :
  cast_oid todoId = inr i -> db_todos s !! i = Some d -> t_username d = u ->
  thread_step env_secret (TToggle u todoId) s = (inr (TToggleSave (i, d)), s).
Proof.
  intros Hid Hi Hu. simpl. rewrite phase_spec, toggle_read_spec, Hid.
  by rewrite (scoped_owner s i u d).
Qed.

Lemma thread_write_step k d s cur :
  todo_valid d -> db_todos s !! k = Some cur ->
  thread_step env_secret (TToggleSave (k, d)) s =
  (inr (TDone (OToggled (inr (k, flip_completed d (db_clock s))))),
   set_todos (insert k (mk_todo (t_title cur) (t_description cur) (t_urgency cur)
                          (t_dueDate cur) (negb (t_completed d)) (t_username cur)
                          (t_createdAt cur) (db_clock s))) s).
Proof.
  intros Hv Hk. unfold thread_step. rewrite phase_spec.
  by rewrite (toggle_write_spec k d s cur).
Qed.

(** C19: [toggleCompletion] is a read followed by a write, not one
    atomic flip: when two toggles of the same todo both read before
    either writes, both succeed and both report the flag flipped, yet
    the stored flag ends flipped only once, while the same two toggles
    run one after the other leave it as it was.  One of the two
    updates is lost.  The todo is valid, so that both [save()]s pass
    validation. *)
Theorem concurrent_toggles_lose_update s u todoId i d :
  cast_oid todoId = inr i -> db_todos s !! i = Some d -> t_username d = u -> todo_valid d ->
  exists s' r1 r2,
    rtc (cstep env_secret) (s, [TToggle u todoId; TToggle u todoId])
        (s', [TDone (OToggled (inr r1)); TDone (OToggled (inr r2))]) /\
    t_completed (snd r1) = negb (t_completed d) /\
    t_completed (snd r2) = negb (t_completed d) /\
    db_todos s' !! i = Some (flip_completed d (db_clock s)) /\
    db_todos (snd (toggleCompletion u todoId (snd (toggleCompletion u todoId s)))) !! i
      = Some (touch d (db_clock s)).
Proof.
  intros Hid Hi Hu Hv.
  set (t := db_clock s). set (d1 := flip_completed d t).
  set (s1 := set_todos (insert i d1) s).
  exists (set_todos (insert i d1) s1), (i, d1), (i, d1).
  split; [|split; [done|split; [done|split]]].
  - eapply rtc_l.
    { apply (cstep_run env_secret s _ 0 (TToggle u todoId)); [done|done|].
      by apply thread_read_step. }
    eapply rtc_l.
    { apply (cstep_run env_secret s _ 1 (TToggle u todoId)); [done|done|].
      by apply thread_read_step. }
    eapply rtc_l.
    { apply (cstep_run env_secret s _ 0 (TToggleSave (i, d))); [done|done|].
      by apply (thread_write_step i d s d). }
    eapply rtc_l.
    { apply (cstep_run env_secret s1 _ 1 (TToggleSave (i, d))); [done|done|].
      apply (thread_write_step i d s1 d1); [done|apply lookup_insert_eq]. }
    apply rtc_refl.
  - apply lookup_insert_eq.
  - rewrite (toggleCompletion_owner u todoId s i d) by done. simpl.
    rewrite (toggleCompletion_owner u todoId _ i d1)
      by auto using lookup_set_todos_insert, flip_completed_valid.
    simpl. rewrite lookup_insert_eq. f_equal. apply flip_completed_twice.
Qed.
End LostUpdate.

(** Run thread [k] of a configuration one round trip, when it can. *)
Section StepAt.
Context `{Bcrypt} `{Jwt} `{DateParser}.
Context (env_secret : option string).

Definition step_at (k : nat) (c : db * list thread) : db * list thread :=
  match c.2 !! k with
  | Some th =>
      match thread_step env_secret th c.1 with
      | (inr th', s') => (s', <[k := th']> c.2)
      | (inl _, _) => c
      end
  | None => c
  end.

Definition can_step (k : nat) (c : db * list thread) : bool :=
  match c.2 !! k with
  | Some th =>
      negb (finished th) &&
      match thread_step env_secret th c.1 with (inr _, _) => true | _ => false end
  | None => false
  end.

Lemma step_at_cstep k c : can_step k c = true -> cstep env_secret c (step_at k c).
Proof.
  destruct c as [st ts]. unfold can_step, step_at. cbn [fst snd].
  destruct (ts !! k) as [th|] eqn:Hk; [|done].
  destruct (finished th) eqn:Hf; [done|]. simpl.
  destruct (thread_step env_secret th st) as [[e|th'] s'] eqn:Hr; [done|].
  intros _. by apply cstep_run with th.
Qed.
End StepAt.

(** ** A toggle and an update of the same todo *)

(** The database with its clock set to [c]: what time passing does. *)
Definition at_clock (x : db) (c : Z) : db :=
  mk_db (db_users x) (db_todos x) (db_next x) c (db_salt x).

(** Two databases that differ only in the clock and the [updatedAt]
    stamps of their todos. *)
Definition unstamp (d : todo) : todo := touch d 0.

Definition db_equiv (x y : db) : Prop :=
  db_users x = db_users y /\ unstamp <$> db_todos x = unstamp <$> db_todos y /\
  db_next x = db_next y /\ db_salt x = db_salt y.

#[export] Instance db_equiv_equivalence : Equivalence db_equiv.
Proof.
  split.
  - intros x. by repeat split.
  - intros x y (? & ? & ? & ?). by repeat split.
  - intros x y z (? & ? & ? & ?) (? & ? & ? & ?). repeat split; congruence.
Qed.

Lemma tick_at_clock x c dt : tick (at_clock x c) dt = at_clock x (c + dt).
Proof. done. Qed.

Lemma set_todos_at_clock f x c : set_todos f (at_clock x c) = at_clock (set_todos f x) c.
Proof. done. Qed.

(** Re-stamping one todo and moving the clock keep a database
    equivalent. *)
Lemma db_equiv_restamp x i d t t' c :
  db_equiv (at_clock (set_todos (insert i (flip_completed d t)) x) c)
           (set_todos (insert i (flip_completed d t')) x).
Proof. repeat split. cbn. by rewrite !fmap_insert. Qed.

(** A patch and a flip of the flag commute. *)
Lemma patch_flip_comm t0 t1 t p x :
  todo_patch_apply t p (flip_completed x t1) = flip_completed (todo_patch_apply t0 p x) t.
Proof. done. Qed.

Section ToggleUpdate.
Context `{Bcrypt} `{Jwt} `{DateParser}.
Context (env_secret : option string).
Context (s : db) (u : string) (todoId title existing urgency description : jsval).
Context (i : oid) (d : todo) (ti de : string) (p : todo_patch).
Hypothesis Hid : cast_oid todoId = inr i.
Hypothesis Hd : db_todos s !! i = Some d.
Hypothesis Hu : t_username d = u.
Hypothesis Hti : call_trim "title.trim" title = inr ti.
Hypothesis Hde : trim_description description = inr de.
Hypothesis Hp : todo_cast_update (mk_update (JStr ti) (JStr de) urgency existing) = inr p.
Hypothesis Hv : todo_valid d.
Hypothesis Hv2 : todo_valid (todo_patch_apply (db_clock s) p d).

Local Abbreviation upd t1 := (todo_patch_apply t1 p d).
Local Abbreviation d2 := (upd (db_clock s)).
Local Abbreviation sU t1 := (set_todos (insert i (upd t1)) s).
Local Abbreviation TT := (TToggle u todoId).
Local Abbreviation TU := (TUpdate u todoId title existing urgency description).
Local Abbreviation DU t1 := (TDone (OUpdated (inr (i, upd t1)))).

Lemma thread_update_step st x :
  db_todos st !! i = Some x -> t_username x = u ->
  thread_step env_secret TU st =
  (inr (TDone (OUpdated (inr (i, todo_patch_apply (db_clock st) p x)))),
   set_todos (insert i (todo_patch_apply (db_clock st) p x)) st).
Proof.
  intros Hx Hux. simpl. rewrite phase_spec, updateTodoService_spec, Hti, Hde, Hid, Hp.
  by rewrite (scoped_owner st i u x).
Qed.

(** The configurations a toggle and an update of the todo pass through,
    at any clock: both pending, the toggle loaded, the update done with
    either snapshot loaded by the toggle, the toggle done, or both
    done with the update's fields and the flag flipped. *)
Definition toggle_update_configs (c : db * list thread) : Prop :=
  (exists k, c = (at_clock s k, [TT; TU])) \/
  (exists k, c = (at_clock s k, [TToggleSave (i, d); TU])) \/
  (exists t1 k, c = (at_clock (sU t1) k, [TT; DU t1])) \/
  (exists t1 k, c = (at_clock (sU t1) k, [TToggleSave (i, d); DU t1])) \/
  (exists t1 k, c = (at_clock (sU t1) k, [TToggleSave (i, upd t1); DU t1])) \/
  (exists o t1 k, c = (at_clock (set_todos (insert i (flip_completed d t1)) s) k, [TDone o; TU])) \/
  (exists o1 o2 t2 k,
     c = (at_clock (set_todos (insert i (flip_completed d2 t2)) s) k, [TDone o1; TDone o2])).

Local Tactic Notation "tu_case" int(n) :=
  do n right; first [left | idtac]; eauto 10.

Lemma toggle_update_step c c' :
  toggle_update_configs c -> cstep env_secret c c' -> toggle_update_configs c'.
Proof.
  intros Hc Hstep. revert Hc. destruct Hstep as [st ts k th th' st' Hk Hfin Hrun|st ts dt Hdt].
  2: { intros Hc. unfold toggle_update_configs in *.
       destruct Hc as [(k & Hc)|[(k & Hc)|[(t1 & k & Hc)|[(t1 & k & Hc)|[(t1 & k & Hc)|
         [(o & t1 & k & Hc)|(o1 & o2 & t2 & k & Hc)]]]]]];
         injection Hc as -> ->; rewrite tick_at_clock; [tu_case 0|tu_case 1|tu_case 2|
         tu_case 3|tu_case 4|tu_case 5|tu_case 6]. }
  intros Hc. unfold toggle_update_configs in Hc.
  destruct Hc as [(c & Hc)|[(c & Hc)|[(t1 & c & Hc)|[(t1 & c & Hc)|[(t1 & c & Hc)|
    [(o & t1 & c & Hc)|(o1 & o2 & t2 & c & Hc)]]]]]];
    injection Hc as Hst Hts; subst st ts;
    destruct k as [|[|k]]; simpl in Hk; try done; injection Hk as <-; try done.
  - rewrite (thread_read_step env_secret u todoId _ i d) in Hrun by done.
    injection Hrun as <- <-. tu_case 1.
  - rewrite (thread_update_step _ d) in Hrun by done.
    injection Hrun as <- <-. rewrite set_todos_at_clock. tu_case 2.
  - rewrite (thread_write_step env_secret i d _ d) in Hrun by done.
    injection Hrun as <- <-. rewrite set_todos_at_clock. tu_case 5.
  - rewrite (thread_update_step _ d) in Hrun by done.
    injection Hrun as <- <-. rewrite set_todos_at_clock. tu_case 3.
  - rewrite (thread_read_step env_secret u todoId _ i (upd t1)) in Hrun
      by (done || apply lookup_set_todos_insert || by rewrite <- Hu).
    injection Hrun as <- <-. tu_case 4.
  - rewrite (thread_write_step env_secret i d _ (upd t1)) in Hrun
      by (done || apply lookup_set_todos_insert).
    injection Hrun as <- <-. rewrite set_todos_at_clock, set_todos_insert_insert. tu_case 6.
  - rewrite (thread_write_step env_secret i (upd t1) _ (upd t1)) in Hrun
      by (exact Hv2 || apply lookup_set_todos_insert).
    injection Hrun as <- <-. rewrite set_todos_at_clock, set_todos_insert_insert. tu_case 6.
  - rewrite (thread_update_step _ (flip_completed d t1)) in Hrun
      by (done || apply lookup_set_todos_insert || by rewrite <- Hu).
    injection Hrun as <- <-. rewrite set_todos_at_clock, set_todos_insert_insert.
    rewrite (patch_flip_comm (db_clock s)). tu_case 6.
Qed.

Lemma toggle_update_reach c :
  rtc (cstep env_secret) (s, [TT; TU]) c -> toggle_update_configs c.
Proof.
  intros Hr. cut (toggle_update_configs (s, [TT; TU])); [|left; exists (db_clock s); by destruct s].
  induction Hr as [c0|c0 c1 c2 Hstep _ IH]; [done|].
  intros Hc0. apply IH. by apply (toggle_update_step c0).
Qed.

(** C31: a toggle and an update of the same valid todo, whose update
    keeps it valid, serialise however their round trips interleave and
    however much time passes between them: [findOneAndUpdate] is atomic
    and the [save()] of the toggle validates its snapshot and sends
    only the modified [completed] path, so every complete run ends in
    the database that running the two requests one after the other
    gives, in either order (the update's fields with the flag
    flipped), up to the clock and the [updatedAt] stamp. *)
Theorem toggle_update_serializable s' o1 o2 :
  rtc (cstep env_secret) (s, [TT; TU]) (s', [TDone o1; TDone o2]) ->
  db_equiv s' (snd (updateTodoService u todoId title existing urgency description
                      (snd (toggleCompletion u todoId s)))) /\
  db_equiv s' (snd (toggleCompletion u todoId
                      (snd (updateTodoService u todoId title existing urgency description s)))).
Proof.
  intros Hr. apply toggle_update_reach in Hr.
  assert (Hs' : exists t2 k, s' = at_clock (set_todos (insert i (flip_completed d2 t2)) s) k).
  { destruct Hr as [(?&Hc)|[(?&Hc)|[(?&?&Hc)|[(?&?&Hc)|[(?&?&Hc)|[(?&?&?&Hc)|(?&?&t2&k&Hc)]]]]]];
      simplify_eq; eauto. }
  destruct Hs' as (t2 & k & ->).
  rewrite (toggleCompletion_owner u todoId s i d) by done.
  rewrite (updateTodoService_spec u todoId title existing urgency description s),
    Hti, Hde, Hid, Hp, (scoped_owner s i u d) by done.
  simpl. rewrite updateTodoService_spec, Hti, Hde, Hid, Hp.
  rewrite (scoped_owner _ i u (flip_completed d (db_clock s))) by
    (apply lookup_set_todos_insert || done).
  rewrite (toggleCompletion_owner u todoId _ i d2) by
    (done || apply lookup_set_todos_insert || exact Hv2).
  simpl. rewrite !set_todos_insert_insert, (patch_flip_comm (db_clock s)).
  split; apply db_equiv_restamp.
Qed.
End ToggleUpdate.

(** ** Two signups of the same name *)

Section SignupRace.
Context `{Bcrypt} `{Jwt} `{DateParser}.
Context (env_secret : option string).

Lemma signup_check_spec username s :
  signup_check username s =
  match cast_string "username" username with
  | inl e => (inl e, s)
  | inr v =>
      match find_one (username_is (username_set v)) (db_users s) with
      | Some _ => (inl ErrUsernameTaken, s)
      | None => (inr tt, s)
      end
  end.
Proof.
  unfold signup_check. st_unfold. rewrite user_findOne_spec.
  destruct (cast_string _ _); [done|]. by destruct (find_one _ _).
Qed.

Lemma signup_commit_spec username fullname p s :
  signup_commit env_secret username fullname (JStr p) s =
  match user_build (db_clock s) username (bcrypt_hash (db_salt s) p) fullname with
  | inl e => (inl e, db_bump_salt s)
  | inr u =>
      match find_one (username_is (u_username u)) (db_users s) with
      | Some _ => (inl (ErrDuplicateKey "username"), db_bump_salt s)
      | None => loginService env_secret username (JStr p) (db_add_user (db_bump_salt s) u)
      end
  end.
Proof.
  unfold signup_commit, generatePassword, fresh_salt. st_unfold. simpl.
  fold (db_bump_salt s). rewrite user_create_spec. cbn [db_bump_salt db_clock db_users].
  destruct (user_build _ _ _ _) as [e|u]; [done|].
  by destruct (find_one (username_is (u_username u)) _).
Qed.

(** The login that closes a signup which stored [u] succeeds. *)
Lemma login_after_create username p s u v :
  cast_string "username" username = inr v -> u_username u = username_set v ->
  u_password u = bcrypt_hash (db_salt s) p ->
  find_one (username_is (u_username u)) (db_users s) = None ->
  exists a, loginService env_secret username (JStr p) (db_add_user (db_bump_salt s) u)
            = (inr a, db_add_user (db_bump_salt s) u).
Proof.
  intros Hv Hu Hpw Hfree. rewrite loginService_spec, Hv, <- Hu.
  rewrite (find_one_add_user (db_bump_salt s) u) by exact Hfree.
  simpl. rewrite Hpw, bcrypt_compare_hash, bool_decide_true by done. eauto.
Qed.

(** C20: two signups for a free name that both pass the [findOne]
    check before either creates the user: the first succeeds, the
    second is rejected by the unique index with MongoDB's
    ["E11000 duplicate key error"], not with the service's
    ["Username already taken"], which is what the same second signup
    gets when it starts after the first has finished. *)
Theorem concurrent_signups_duplicate_key s username fn1 fn2 p1 p2 v f1 f2 :
  cast_string "username" username = inr v -> username_set v <> "" ->
  find_one (username_is (username_set v)) (db_users s) = None ->
  cast_string "fullname" fn1 = inr f1 -> js_trim f1 <> "" ->
  cast_string "fullname" fn2 = inr f2 -> js_trim f2 <> "" ->
  exists s' a,
    rtc (cstep env_secret)
        (s, [TSignup username fn1 (JStr p1); TSignup username fn2 (JStr p2)])
        (s', [TDone (OSignedUp (inr a));
              TDone (OSignedUp (inl (ErrDuplicateKey "username")))]) /\
    signupService env_secret username fn2 (JStr p2) (snd (signupService env_secret username fn1 (JStr p1) s))
      = (inl ErrUsernameTaken, snd (signupService env_secret username fn1 (JStr p1) s)).
Proof.
  intros Hv Hne Hfree Hf1 Hfne1 Hf2 Hfne2.
  set (u1 := mk_user (username_set v) (bcrypt_hash (db_salt s) p1) (js_trim f1)
               (db_clock s) (db_clock s)).
  set (s1 := db_add_user (db_bump_salt s) u1).
  assert (Hb1 : user_build (db_clock s) username (bcrypt_hash (db_salt s) p1) fn1 = inr u1)
    by (apply user_build_accepts; auto using bcrypt_hash_length).
  destruct (login_after_create username p1 s u1 v) as [a Ha]; [done..|].
  assert (Hcommit1 : signup_commit env_secret username fn1 (JStr p1) s = (inr a, s1)).
  { rewrite signup_commit_spec, Hb1. cbn [u1 u_username]. by rewrite Hfree. }
  exists (db_bump_salt s1), a. split.
  - eapply rtc_l.
    { apply (cstep_run env_secret s _ 0 (TSignup username fn1 (JStr p1))); [done|done|].
      simpl. by rewrite phase_spec, signup_check_spec, Hv, Hfree. }
    eapply rtc_l.
    { apply (cstep_run env_secret s _ 1 (TSignup username fn2 (JStr p2))); [done|done|].
      simpl. by rewrite phase_spec, signup_check_spec, Hv, Hfree. }
    eapply rtc_l.
    { apply (cstep_run env_secret s _ 0 (TSignupCommit username fn1 (JStr p1))); [done|done|].
      unfold thread_step. by rewrite phase_spec, Hcommit1. }
    eapply rtc_l.
    { apply (cstep_run env_secret s1 _ 1 (TSignupCommit username fn2 (JStr p2)));
        [done|done|].
      unfold thread_step. rewrite phase_spec, signup_commit_spec.
      rewrite (user_build_accepts _ _ _ _ v f2) by auto using bcrypt_hash_length.
      cbn [u_username].
      destruct (find_one_username_Some (db_users s1) (username_set v) (db_next (db_bump_salt s)) u1)
        as [r ->]; [apply db_add_user_lookup|done|done]. }
    apply rtc_refl.
  - assert (Hs1 : signupService env_secret username fn1 (JStr p1) s = (inr a, s1)).
    { rewrite signup_split. unfold st_bind. rewrite signup_check_spec, Hv, Hfree.
      exact Hcommit1. }
    rewrite Hs1. simpl. rewrite signupService_spec, Hv.
    destruct (find_one_username_Some (db_users s1) (username_set v) (db_next (db_bump_salt s)) u1)
      as [r ->]; [apply db_add_user_lookup|done|done].
Qed.
End SignupRace.

(** ** The invariant under every interleaving *)

Lemma phase_changes {A} (m : M A) next fail :
  changes_ok m -> changes_ok (phase m next fail).
Proof.
  intros Hm s. rewrite phase_spec. specialize (Hm s). by destruct (m s) as [[e|a] s'].
Qed.

Lemma toggle_read_changes u i : changes_ok (toggle_read u i).
Proof.
  intros s. rewrite toggle_read_spec. destruct (cast_oid i); [constructor|].
  apply scoped_changes. constructor.
Qed.

Lemma toggle_write_changes r : changes_ok (toggle_write r).
Proof.
  intros s. destruct r as [k d].
  destruct (todo_validate d) eqn:Hval; [|destruct (db_todos s !! k) as [cur|] eqn:Hk].
  - unfold toggle_write, todo_save_completed. st_unfold.
    rewrite (todo_validate_same d), Hval by done. constructor.
  - rewrite (toggle_write_spec k d s cur) by (done || by apply todo_validate_None).
    apply ch_set_todo. eauto.
  - unfold toggle_write, todo_save_completed, clock. st_unfold.
    rewrite (todo_validate_same d), Hval by done. simpl. rewrite Hk. constructor.
Qed.

Section InterleavingSafety.
Context `{Bcrypt} `{Jwt} `{DateParser}.
Context (env_secret : option string).

Lemma signup_check_changes un : changes_ok (signup_check un).
Proof.
  intros s. rewrite signup_check_spec.
  destruct (cast_string _ _); [constructor|]. destruct (find_one _ _); constructor.
Qed.

Lemma signup_commit_changes un fn pw : changes_ok (signup_commit env_secret un fn pw).
Proof.
  intros s. destruct pw as [| | | |p|];
    try (unfold signup_commit, generatePassword; st_unfold; constructor).
  rewrite signup_commit_spec.
  destruct (user_build _ _ _ _) as [|u] eqn:Hb; [constructor|].
  destruct (find_one _ _) eqn:Hfree; [constructor|].
  destruct (loginService _ _ _ _) as [r s'] eqn:E.
  apply loginService_readonly in E as ->.
  apply ch_add_user; [by apply user_build_user_ok in Hb|done].
Qed.

Lemma thread_step_changes t : changes_ok (thread_step env_secret t).
Proof.
  destruct t; simpl; auto using phase_changes, toggle_read_changes,
    toggle_write_changes, updateTodoService_changes, signup_check_changes,
    signup_commit_changes, changes_ok_ret.
Qed.

(** C21: however the round trips of concurrent toggles, updates and signups
    interleave, and however time passes between them, the database stays
    well formed: the unique index keeps
    usernames unique even when two signups pass the name check
    together, and no write invents an ObjectId. *)
Theorem interleavings_keep_wf c c' :
  db_wf c.1 -> rtc (cstep env_secret) c c' -> db_wf c'.1.
Proof.
  intros Hwf Hr. revert Hwf. induction Hr as [c|c c2 c3 Hstep _ IH]; [done|].
  intros Hwf. apply IH.
  destruct Hstep as [s ts i t t' s' _ _ Hrun|s ts dt _]; simpl in *; [|by apply tick_wf].
  apply (db_change_wf s); [done|].
  pose proof (thread_step_changes t s) as Hc. by rewrite Hrun in Hc.
Qed.
End InterleavingSafety.
