(* ===== verification/Client.v ===== *)
(** * The client's copy of the todo list ([src/frontend/src/contexts/TodoContext.tsx])

    [TodoProvider] keeps [todos], the list the dashboard shows, and
    mirrors every server operation into it when the answer carries no
    [error]: [fetchTodos] replaces the list with [json.data], [addTodo]
    appends the created todo, [updateTodo] and [toggleTodo] replace the
    todo whose [id] matches with [json.data], [deleteTodo] filters it
    out.  Each operation does nothing without a token.  A client
    operation here is the request sent through [Server.handle] followed
    by the state update; a todo in the list is the [{ id, ... }] object
    of the answer, an ObjectId with its document. *)

From S2P Require Import Prelude Runtime Crypto ObjectId UserModel TodoModel Db TodoService AuthService Session Controllers Server.
Local Open Scope todo_scope.

Record cstate := mk_cstate {
  cs_token : option string;              (** [user?.token] *)
  cs_todos : list (oid * todo)           (** [todos] *)
}.

Definition with_todos (cs : cstate) (l : list (oid * todo)) : cstate :=
  mk_cstate (cs_token cs) l.

(** [`Bearer ${user.token}`]. *)
Definition auth_header (tok : string) : option string := Some (bearer_prefix +:+ tok).

(** [todo.id === id]: the [id] of the JSON object is the hex string of
    the ObjectId. *)
Definition same_id (id : string) (t : oid * todo) : bool :=
  String.eqb (oid_to_string t.1) id.

(** The state updates, on the parsed answer [json]. *)
Definition on_fetch (b : body) (prev : list (oid * todo)) : list (oid * todo) :=
  match b with
  | BError _ => prev
  | BData (PTodos l) => l
  | _ => []                              (** [json.data || []] *)
  end.

Definition on_add (b : body) (prev : list (oid * todo)) : list (oid * todo) :=
  match b with
  | BData (PTodo k d) => prev ++ [(k, d)]
  | _ => prev
  end.

Definition on_replace (id : string) (b : body) (prev : list (oid * todo))
  : list (oid * todo) :=
  match b with
  | BData (PTodo k d) => map (fun t => if same_id id t then (k, d) else t) prev
  | _ => prev
  end.

Definition on_delete (id : string) (b : body) (prev : list (oid * todo))
  : list (oid * todo) :=
  match b with
  | BError _ => prev
  | _ => filter (fun t => same_id id t = false) prev
  end.

(** The operations of [TodoProvider]. *)
Module TodoProvider.

Section ClientOps.
Context `{Bcrypt} `{Jwt} `{DateParser}.
Context (env_secret : option string).

(** Send a request with the user's token and apply [upd] to the answer;
  [if (!user?.token) return]; a failed request is caught and logged,
  leaving the list. *)
Definition client_call (req : option string -> request)
  (upd : body -> list (oid * todo) -> list (oid * todo)) (cs : cstate) : M cstate :=
match cs_token cs with
| None => st_ret cs
| Some tok =>
    st_catch (let* b := handle env_secret (req (auth_header tok)) in
              st_ret (with_todos cs (upd b (cs_todos cs))))
             (fun _ => st_ret cs)
end.

Definition fetchTodos : cstate -> M cstate := client_call GetTodos on_fetch.

Definition addTodo (title description urgency dueDate : jsval) : cstate -> M cstate :=
client_call (fun h => PostCreate h title description urgency dueDate) on_add.

Definition updateTodo (id : string) (title description urgency dueDate : jsval)
: cstate -> M cstate :=
client_call (fun h => PutUpdate h (JStr id) title description urgency dueDate)
            (on_replace id).

Definition deleteTodo (id : string) : cstate -> M cstate :=
client_call (fun h => DeleteTodo h (JStr id)) (on_delete id).

Definition toggleTodo (id : string) : cstate -> M cstate :=
client_call (fun h => PatchToggle h (JStr id)) (on_replace id).
End ClientOps.

End TodoProvider.
Import TodoProvider.

(** ** The server's list under the writes of one request *)

Lemma owner_is_true u k d : t_username d = u -> owner_is u k d = true.
Proof. intros <-. apply String.eqb_refl. Qed.

Lemma find_all_insert_fresh (m : gmap oid todo) u k d :
  m !! k = None -> t_username d = u ->
  find_all (owner_is u) (<[k:=d]> m) ≡ₚ find_all (owner_is u) m ++ [(k, d)].
Proof.
  intros Hk Hu. unfold find_all. rewrite map_to_list_insert by done.
  rewrite filter_cons_True by (simpl; by apply owner_is_true).
  apply Permutation_cons_append.
Qed.

(** A stored todo of [u] splits off the list of [u]'s todos. *)
Lemma find_all_split (m : gmap oid todo) u k d :
  m !! k = Some d -> t_username d = u ->
  find_all (owner_is u) m ≡ₚ (k, d) :: find_all (owner_is u) (delete k m).
Proof.
  intros Hk Hu. rewrite <- (fin_maps.insert_delete_id m k d) at 1 by done.
  rewrite find_all_insert_fresh by (done || apply lookup_delete_eq).
  symmetry. apply Permutation_cons_append.
Qed.

(** No todo of [find_all] carries a key outside the map. *)
Lemma find_all_lookup (m : gmap oid todo) p t :
  t ∈ find_all p m -> m !! t.1 = Some t.2.
Proof. destruct t as [k d]. rewrite elem_of_find_all. by intros []. Qed.

(** The hex strings of two ObjectIds below [16^24] are equal only when
    the ObjectIds are. *)
Lemma oid_to_string_inj a b :
  (a < 16 ^ 24)%N -> (b < 16 ^ 24)%N -> oid_to_string a = oid_to_string b -> a = b.
Proof.
  intros Ha Hb Heq. pose proof (oid_roundtrip a Ha) as Ra.
  pose proof (oid_roundtrip b Hb) as Rb. rewrite Heq in Ra. congruence.
Qed.

Lemma map_replace_absent (id : string) (x : oid * todo) (R : list (oid * todo)) :
  (forall t, t ∈ R -> same_id id t = false) ->
  map (fun t => if same_id id t then x else t) R = R.
Proof.
  induction R as [|t R IH]; intros Hn; simpl; [done|].
  rewrite (Hn t) by left. f_equal. apply IH. intros t' Ht'. apply Hn. by right.
Qed.

Lemma filter_keep_absent (id : string) (R : list (oid * todo)) :
  (forall t, t ∈ R -> same_id id t = false) ->
  filter (fun t => same_id id t = false) R = R.
Proof.
  induction R as [|t R IH]; intros Hn; [done|].
  rewrite filter_cons_True by (apply Hn; left). f_equal. apply IH.
  intros t' Ht'. apply Hn. by right.
Qed.

(** ** What the server answers inside a session *)

Section Answers.
Context `{Bcrypt} `{Jwt} `{DateParser}.
Context (env_secret : option string).
Context (tok : string) (c : claims).
Hypothesis Hsession : verifyToken (JWT_SECRET env_secret) (auth_header tok) = Some c.

Lemma with_user_session (k : claims -> M body) :
  with_user env_secret (auth_header tok) k = k c.
Proof. unfold with_user. by rewrite Hsession. Qed.

Lemma fetch_answer s :
  cl_username c <> "" ->
  handle env_secret (GetTodos (auth_header tok)) s
  = (inr (BData (PTodos (find_all (owner_is (cl_username c)) (db_todos s)))), s).
Proof.
  intros Hu. simpl. rewrite with_user_session. unfold getTodos.
  apply String.eqb_neq in Hu. simpl. rewrite Hu. simpl. by rewrite respond_spec.
Qed.

Lemma create_answer ti de ur du s b s' :
  handle env_secret (PostCreate (auth_header tok) ti de ur du) s = (inr b, s') ->
  (s' = s /\ exists m, b = BError m) \/
  (exists d, b = BData (PTodo (db_next s) d) /\ s' = db_add_todo s d /\
             t_username d = cl_username c).
Proof.
  simpl. rewrite with_user_session. unfold createTodo.
  destruct (negb (truthy ti) || negb (truthy ur) || negb (truthy du));
    [intros [= <- <-]; eauto|].
  rewrite respond_spec, createTodoService_spec.
  destruct (call_trim _ ti); [intros [= <- <-]; eauto|].
  destruct (trim_description de); [intros [= <- <-]; eauto|].
  destruct (todo_build _ _ _ _ _ _) as [e|d] eqn:Hb; [intros [= <- <-]; eauto|].
  intros [= <- <-]. right. exists d. split; [done|]. split; [done|].
  by apply todo_build_valid in Hb as (_ & _ & ->).
Qed.

(** An answer that replaces one todo: the update or the toggle of a todo
    of the caller, or an error that changed nothing. *)
Definition replaced (id : string) (s : db) (b : body) (s' : db) : Prop :=
  (s' = s /\ exists m, b = BError m) \/
  (exists i d d', cast_oid (JStr id) = inr i /\ db_todos s !! i = Some d /\
     t_username d = cl_username c /\ t_username d' = cl_username c /\
     b = BData (PTodo i d') /\ s' = set_todos (insert i d') s).

Lemma update_answer id ti de ur du s b s' :
  handle env_secret (PutUpdate (auth_header tok) (JStr id) ti de ur du) s = (inr b, s') ->
  replaced id s b s'.
Proof.
  unfold replaced. cbn [handle]. rewrite with_user_session. unfold TodoController.updateTodo.
  destruct (negb (truthy (JStr id)) || negb (truthy ti) || negb (truthy ur)
            || negb (truthy du)); [intros [= <- <-]; eauto|].
  rewrite respond_spec, updateTodoService_spec.
  destruct (call_trim _ ti); [intros [= <- <-]; eauto|].
  destruct (trim_description de); [intros [= <- <-]; eauto|].
  destruct (cast_oid (JStr id)) as [|i] eqn:Hi; [intros [= <- <-]; eauto|].
  destruct (todo_cast_update _) as [|p]; [intros [= <- <-]; eauto|].
  unfold scoped. destruct (db_todos s !! i) as [d|] eqn:Hd; [|intros [= <- <-]; eauto].
  destruct (String.eqb_spec (t_username d) (cl_username c)); [|intros [= <- <-]; eauto].
  intros [= <- <-]. right. by exists i, d, (todo_patch_apply (db_clock s) p d).
Qed.

Lemma toggle_answer id s b s' :
  handle env_secret (PatchToggle (auth_header tok) (JStr id)) s = (inr b, s') ->
  replaced id s b s'.
Proof.
  unfold replaced. cbn [handle]. rewrite with_user_session. unfold toggleTodoCompletion.
  destruct (negb (truthy (JStr id))); [intros [= <- <-]; eauto|].
  rewrite respond_spec, toggleCompletion_spec.
  destruct (cast_oid (JStr id)) as [|i] eqn:Hi; [intros [= <- <-]; eauto|].
  unfold scoped. destruct (db_todos s !! i) as [d|] eqn:Hd; [|intros [= <- <-]; eauto].
  destruct (String.eqb_spec (t_username d) (cl_username c)); [|intros [= <- <-]; eauto].
  destruct (todo_validate d); [intros [= <- <-]; eauto|].
  intros [= <- <-]. right. by exists i, d, (flip_completed d (db_clock s)).
Qed.

Lemma delete_answer id s b s' :
  handle env_secret (DeleteTodo (auth_header tok) (JStr id)) s = (inr b, s') ->
  (s' = s /\ exists m, b = BError m) \/
  (exists i d, cast_oid (JStr id) = inr i /\ db_todos s !! i = Some d /\
     t_username d = cl_username c /\ b = BSuccess /\ s' = set_todos (delete i) s).
Proof.
  cbn [handle]. rewrite with_user_session. unfold TodoController.deleteTodo.
  destruct (negb (truthy (JStr id))); [intros [= <- <-]; eauto|].
  unfold st_catch. st_unfold. rewrite deleteTodoService_spec.
  destruct (cast_oid (JStr id)) as [|i]; [intros [= <- <-]; eauto|].
  unfold scoped. destruct (db_todos s !! i) as [d|] eqn:Hd; [|intros [= <- <-]; eauto].
  destruct (String.eqb_spec (t_username d) (cl_username c)); [|intros [= <- <-]; eauto].
  intros [= <- <-]. right. by exists i, d.
Qed.
End Answers.

(** ** The client's list mirrors the server's *)

(** The client's list holds the caller's todos, in some order. *)
Definition mirrors (u : string) (s : db) (cs : cstate) : Prop :=
  cs_todos cs ≡ₚ find_all (owner_is u) (db_todos s).

(** Every key of the map below the ObjectId bound. *)
Definition keys_bounded (m : gmap oid todo) : Prop :=
  map_Forall (fun k _ => (k < 16 ^ 24)%N) m.

Lemma same_id_rest (m : gmap oid todo) u i :
  keys_bounded m -> (i < 16 ^ 24)%N ->
  forall t, t ∈ find_all (owner_is u) (delete i m) -> same_id (oid_to_string i) t = false.
Proof.
  intros Hb Hi [k x] Ht. apply find_all_lookup in Ht. simpl in Ht.
  destruct (decide (k = i)) as [->|Hne]; [by rewrite lookup_delete_eq in Ht|].
  rewrite lookup_delete_ne in Ht by congruence.
  apply String.eqb_neq. intros Heq. apply Hne.
  apply oid_to_string_inj; [exact (Hb _ _ Ht)|exact Hi|exact Heq].
Qed.

Lemma cache_after_replace (l : list (oid * todo)) u m i d d' :
  l ≡ₚ find_all (owner_is u) m -> keys_bounded m -> m !! i = Some d ->
  t_username d = u -> t_username d' = u ->
  map (fun t => if same_id (oid_to_string i) t then (i, d') else t) l
    ≡ₚ find_all (owner_is u) (<[i:=d']> m).
Proof.
  intros Hl Hb Hi Hd Hd'. pose proof (Hb i d Hi) as Hib.
  etrans; [apply Permutation_map; etrans; [exact Hl|exact (find_all_split m u i d Hi Hd)]|].
  cbn [map]. unfold same_id at 1. cbn [fst]. rewrite String.eqb_refl.
  rewrite map_replace_absent by (apply same_id_rest; done).
  symmetry. etrans; [exact (find_all_split (<[i:=d']> m) u i d' (lookup_insert_eq _ _ _) Hd')|].
  by rewrite delete_insert_eq.
Qed.

Lemma cache_after_delete (l : list (oid * todo)) u m i d :
  l ≡ₚ find_all (owner_is u) m -> keys_bounded m -> m !! i = Some d -> t_username d = u ->
  filter (fun t => same_id (oid_to_string i) t = false) l
    ≡ₚ find_all (owner_is u) (delete i m).
Proof.
  intros Hl Hb Hi Hd. pose proof (Hb i d Hi) as Hib.
  etrans; [apply filter_Permutation; etrans; [exact Hl|exact (find_all_split m u i d Hi Hd)]|].
  rewrite filter_cons_False by (unfold same_id; cbn [fst]; by rewrite String.eqb_refl).
  rewrite filter_keep_absent by (apply same_id_rest; done). done.
Qed.

(** The operations of [TodoProvider]. *)
Inductive client_action :=
| CFetch
| CAdd (title description urgency dueDate : jsval)
| CUpdate (id : string) (title description urgency dueDate : jsval)
| CDelete (id : string)
| CToggle (id : string).

Section Mirror.
Context `{Bcrypt} `{Jwt} `{DateParser}.
Context (env_secret : option string).

Definition run_client (a : client_action) : cstate -> M cstate :=
  match a with
  | CFetch => fetchTodos env_secret
  | CAdd ti de ur du => addTodo env_secret ti de ur du
  | CUpdate id ti de ur du => updateTodo env_secret id ti de ur du
  | CDelete id => deleteTodo env_secret id
  | CToggle id => toggleTodo env_secret id
  end.

(** The id an action names is the [id] of a todo the server sent: the
    hex string of an ObjectId. *)
Definition sent_ids (a : client_action) : Prop :=
  match a with
  | CUpdate id _ _ _ _ | CDelete id | CToggle id =>
      exists k, (k < 16 ^ 24)%N /\ id = oid_to_string k
  | _ => True
  end.

Lemma client_call_run req upd cs tok s cs' s' :
  cs_token cs = Some tok ->
  client_call env_secret req upd cs s = (inr cs', s') ->
  exists b, handle env_secret (req (auth_header tok)) s = (inr b, s') /\
            cs' = with_todos cs (upd b (cs_todos cs)).
Proof.
  intros Htok. unfold client_call, st_catch. rewrite Htok. st_unfold.
  destruct (handle_answers env_secret (req (auth_header tok)) s) as [b0 Hb0].
  destruct (handle _ _ s) as [[e|b] s1]; [done|]. intros [= <- <-]. eauto.
Qed.
End Mirror.

Lemma keys_bounded_wf s : db_wf s -> (db_next s <= 16 ^ 24)%N -> keys_bounded (db_todos s).
Proof. intros (_ & _ & _ & Hk) Hn k x Hx. specialize (Hk k x Hx). simpl in Hk. lia. Qed.

Lemma next_fresh s : db_wf s -> db_todos s !! db_next s = None.
Proof.
  intros (_ & _ & _ & Hk). destruct (db_todos s !! db_next s) as [x|] eqn:Hx; [|done].
  specialize (Hk _ x Hx). simpl in Hk. lia.
Qed.

Lemma cast_sent_id k : (k < 16 ^ 24)%N -> cast_oid (JStr (oid_to_string k)) = inr k.
Proof. intros Hk. unfold cast_oid. by rewrite oid_roundtrip. Qed.

Section MirrorTheorem.
Context `{Bcrypt} `{Jwt} `{DateParser}.
Context (env_secret : option string).

(** C22: the client's copy refines the server: if the list a signed-in
    client holds is, up to order, the list of the caller's todos on
    the server, it still is after any operation of [TodoProvider]
    (fetch, add, update, delete, toggle), whether the server accepts
    the request or answers an error. *)
Theorem client_mirrors_server a tok c s cs cs' s' :
  cs_token cs = Some tok ->
  verifyToken (JWT_SECRET env_secret) (auth_header tok) = Some c ->
  cl_username c <> "" -> db_wf s -> (db_next s < 16 ^ 24)%N -> sent_ids a ->
  mirrors (cl_username c) s cs ->
  run_client env_secret a cs s = (inr cs', s') ->
  mirrors (cl_username c) s' cs'.
Proof.
  intros Htok Hsess Hu Hwf Hnext Hids Hm Hrun. unfold mirrors in *.
  pose proof (keys_bounded_wf s Hwf ltac:(lia)) as Hkb.
  destruct a as [|ti de ur du|id ti de ur du|id|id];
    unfold run_client, fetchTodos, addTodo, updateTodo, deleteTodo, toggleTodo in Hrun;
    destruct (client_call_run env_secret _ _ cs tok s cs' s' Htok Hrun) as (b & Hh & ->);
    cbn [with_todos cs_todos].
  - rewrite (fetch_answer env_secret tok c Hsess s Hu) in Hh. by injection Hh as <- <-.
  - apply (create_answer env_secret tok c Hsess) in Hh
      as [[-> [m ->]]|(d & -> & -> & Hd)]; [done|].
    cbn [on_add db_add_todo db_todos].
    rewrite find_all_insert_fresh by (done || by apply next_fresh).
    by apply Permutation_app_tail.
  - destruct Hids as (k & Hk & ->).
    apply (update_answer env_secret tok c Hsess) in Hh
      as [[-> [m ->]]|(i & d & d' & Hi & Hd & Hdu & Hd'u & -> & ->)]; [done|].
    rewrite cast_sent_id in Hi by done. injection Hi as <-.
    by apply (cache_after_replace _ _ _ k d d').
  - destruct Hids as (k & Hk & ->).
    apply (delete_answer env_secret tok c Hsess) in Hh
      as [[-> [m ->]]|(i & d & Hi & Hd & Hdu & -> & ->)]; [done|].
    rewrite cast_sent_id in Hi by done. injection Hi as <-.
    by apply (cache_after_delete _ _ _ k d).
  - destruct Hids as (k & Hk & ->).
    apply (toggle_answer env_secret tok c Hsess) in Hh
      as [[-> [m ->]]|(i & d & d' & Hi & Hd & Hdu & Hd'u & -> & ->)]; [done|].
    rewrite cast_sent_id in Hi by done. injection Hi as <-.
    by apply (cache_after_replace _ _ _ k d d').
Qed.
End MirrorTheorem.
