(* ===== verification/AuthClient.v ===== *)
(** * The client's session ([src/frontend/src/contexts/AuthContext.tsx])

    [AuthProvider] keeps the signed-in [user] in React state and its
    token in [localStorage] under the key ["token"].  On mount it reads
    the stored token back and asks [GET /v1/auth/info] who it belongs
    to; [login] and [signup] post the credentials and, on a [data]
    answer, set the user and store the token; [logout] clears both.  A
    page reload drops the React state and keeps [localStorage].  The
    requests go through [Server.handle]; the combined system is the
    server and one browser, stepping by a request of any client or by an
    operation of this provider. *)

From S2P Require Import Prelude Runtime Crypto ObjectId UserModel TodoModel Db TodoService AuthService Session Controllers Server.
Local Open Scope todo_scope.

Module AuthProvider.

(** [interface User { id; username; fullname; token }]. *)
Record cuser := mk_cuser {
  cu_id : oid;
  cu_username : string;
  cu_fullname : string;
  cu_token : string
}.

Record astate := mk_astate {
  as_user : option cuser;        (** [user] *)
  as_storage : option string     (** [localStorage.getItem("token")] *)
}.

(** [isAuthenticated: !!user]. *)
Definition isAuthenticated (a : astate) : bool :=
  match as_user a with Some _ => true | None => false end.

(** [logout]: [setUser(null); localStorage.removeItem("token")]. *)
Definition logout (a : astate) : astate := mk_astate None None.

(** A page reload: React state is lost, [localStorage] is kept. *)
Definition reload (a : astate) : astate := mk_astate None (as_storage a).

(** The user object built from an auth answer
    ([{ id, username, fullname, token }]). *)
Definition cuser_of_auth (au : auth_user) : cuser :=
  mk_cuser (au_id au) (au_username au) (au_fullname au) (au_token au).

Section Ops.
Context `{Bcrypt} `{Jwt} `{DateParser}.
Context (env_secret : option string).

(** The mount effect: with a stored token ([if (token)]), ask
    [/v1/auth/info] and, on [json.data], set [{...json.data, token}];
    an [error] answer is logged and a failed request is caught
    ([.catch]), both leaving the state.  The info route answers a
    profile or an error, the only answers matched here. *)
Definition restore (a : astate) : M astate :=
  match as_storage a with
  | None => st_ret a
  | Some tok =>
      if String.eqb tok "" then st_ret a
      else st_catch
             (let* b := handle env_secret (GetInfo (Some (bearer_prefix +:+ tok))) in
              match b with
              | BData (PProfile p) =>
                  st_ret (mk_astate (Some (mk_cuser (pr_id p) (pr_username p)
                                                     (pr_fullname p) tok))
                                    (as_storage a))
              | _ => st_ret a
              end)
             (fun _ => st_ret a)
  end.

(** [login(username, password)]: on [json?.data] set the user, store
    its token and answer [true]; otherwise answer [false].  The login
    route's [data] is always an auth payload ([PAuth]); no other payload
    comes from it. *)
Definition login (username password : string) (a : astate) : M (bool * astate) :=
  let* b := handle env_secret (PostLogin (JStr username) (JStr password)) in
  match b with
  | BData (PAuth au) =>
      st_ret (true, mk_astate (Some (cuser_of_auth au)) (Some (au_token au)))
  | _ => st_ret (false, a)
  end.

(** [signup(fullname, username, password)]: on [json?.error] answer
    [false]; otherwise read [json.data] as the new user, which throws
    a [TypeError] when the answer has no [data].  The signup route
    answers an auth payload or an error (an empty message would be
    falsy); other payloads do not come from it and are treated as a
    missing [data]. *)
Definition signup (fullname username password : string) (a : astate)
  : M (bool * astate) :=
  let* b := handle env_secret
              (PostSignup (JStr username) (JStr password) (JStr fullname)) in
  match b with
  | BError m =>
      if String.eqb m "" then st_throw (ErrTypeError "newUser.id")
      else st_ret (false, a)
  | BData (PAuth au) =>
      st_ret (true, mk_astate (Some (cuser_of_auth au)) (Some (au_token au)))
  | _ => st_throw (ErrTypeError "newUser.id")
  end.

(** What the user does with the provider. *)
Inductive auth_action :=
| ALogin (username password : string)
| ASignup (fullname username password : string)
| ALogout
| AReload
| ARestore.

Definition auth_run (act : auth_action) (a : astate) : M astate :=
  match act with
  | ALogin u p => let* r := login u p a in st_ret r.2
  | ASignup f u p => let* r := signup f u p a in st_ret r.2
  | ALogout => st_ret (logout a)
  | AReload => st_ret (reload a)
  | ARestore => restore a
  end.

(** The server and one browser: a request of any client, time
    passing, or an operation of the provider (a rejected promise
    leaves the provider's state). *)
Inductive sys_step : db * astate -> db * astate -> Prop :=
| sys_server s s' a : server_step env_secret s s' -> sys_step (s, a) (s', a)
| sys_client act s a a' s' :
    auth_run act a s = (inr a', s') -> sys_step (s, a) (s', a')
| sys_client_err act s a e s' :
    auth_run act a s = (inl e, s') -> sys_step (s, a) (s', a).
End Ops.

(** ** The server side of a session *)

(** A client user whose ObjectId, name and full name are those of a
    stored user and whose token is signed for them under the server's
    secret. *)
Definition user_session `{Jwt} (env_secret : option string) (s : db) (u : cuser)
  : Prop :=
  exists usr t, db_users s !! cu_id u = Some usr /\ u_username usr = cu_username u /\
    u_fullname usr = cu_fullname u /\
    cu_token u = jwt_sign (JWT_SECRET env_secret) (mk_claims (cu_id u) (cu_username u) t).

(** The provider's invariant: a stored token is a session, and the
    user in state is a session whose token is the stored one. *)
Definition client_ok `{Jwt} (env_secret : option string) (s : db) (a : astate) : Prop :=
  (forall tok, as_storage a = Some tok ->
     exists k un fn, user_session env_secret s (mk_cuser k un fn tok)) /\
  (forall u, as_user a = Some u ->
     as_storage a = Some (cu_token u) /\ user_session env_secret s u).

(** A request never removes or rewrites a stored user. *)
Lemma db_change_users s s' k x :
  db_wf s -> db_change s s' -> db_users s !! k = Some x -> db_users s' !! k = Some x.
Proof.
  intros (_ & _ & Hku & _) Hc Hk. destruct Hc; try done.
  cbn [db_add_user db_bump_salt db_users db_next].
  rewrite lookup_insert_ne; [done|]. specialize (Hku k x Hk). simpl in *. lia.
Qed.

Section Server.
Context `{Bcrypt} `{Jwt} `{DateParser}.
Context (env_secret : option string).

Lemma server_step_users s s' k x :
  db_wf s -> server_step env_secret s s' ->
  db_users s !! k = Some x -> db_users s' !! k = Some x.
Proof.
  intros Hwf Hstep. inversion Hstep as [req s0 b s1 Hh|s0 dt Hdt]; subst; [|done].
  apply db_change_users; [done|]. pose proof (handle_changes env_secret req s) as Hc.
  by rewrite Hh in Hc.
Qed.

Lemma user_session_step s s' u :
  db_wf s -> server_step env_secret s s' ->
  user_session env_secret s u -> user_session env_secret s' u.
Proof.
  intros Hwf Hstep (usr & t & Hk & Hrest). exists usr, t. split; [|done].
  by apply (server_step_users s).
Qed.

(** [GET /v1/auth/info] with the token of a session answers the
    session's profile and changes nothing. *)
Lemma session_info s u :
  db_wf s -> user_session env_secret s u ->
  handle env_secret (GetInfo (Some (bearer_prefix +:+ cu_token u))) s
  = (inr (BData (PProfile (mk_profile (cu_id u) (cu_username u) (cu_fullname u)))), s).
Proof.
  intros (Huniq & Hok & _) (usr & t & Hk & Hn & Hf & ->).
  destruct (Hok _ usr Hk) as [Hne Hset]. rewrite Hn in Hne, Hset.
  simpl. unfold with_user. rewrite verifyToken_sign. unfold getUser. cbn [cl_username].
  apply String.eqb_neq in Hne. simpl. rewrite Hne. simpl.
  rewrite respond_spec, getUserService_spec. simpl.
  rewrite Hset, (find_one_username _ _ (cu_id u) usr) by (done || congruence).
  simpl. by rewrite Hn, Hf.
Qed.

(** A successful login hands out a session. *)
Lemma session_of_login un pw s s' au :
  loginService env_secret un pw s = (inr au, s') ->
  user_session env_secret s (cuser_of_auth au).
Proof.
  rewrite loginService_spec.
  destruct (cast_string _ _); [done|].
  destruct (find_one _ _) as [[k usr]|] eqn:Hf; [|done].
  destruct (verifyPassword _ _) as [|[]]; [done| |done].
  intros [= <- _]. apply find_one_Some in Hf as [Hk _].
  by exists usr, (db_clock s / 1000)%Z.
Qed.

(** What the login and signup routes answer with a user. *)
Lemma login_answer un pw s s' au :
  handle env_secret (PostLogin (JStr un) (JStr pw)) s = (inr (BData (PAuth au)), s') ->
  loginService env_secret (JStr un) (JStr pw) s = (inr au, s) /\ s' = s.
Proof.
  simpl. unfold AuthController.login.
  destruct (negb _); [done|]. destruct (negb _); [done|].
  rewrite respond_spec. destruct (loginService _ _ _ _) as [[e|x] s1] eqn:E; [done|].
  intros [= -> ->]. by pose proof (loginService_readonly _ _ _ _ _ _ E) as ->.
Qed.

Lemma signup_answer un pw fn s s' au :
  handle env_secret (PostSignup (JStr un) (JStr pw) (JStr fn)) s
    = (inr (BData (PAuth au)), s') ->
  loginService env_secret (JStr un) (JStr pw) s' = (inr au, s').
Proof.
  simpl. unfold AuthController.signup.
  do 3 (destruct (negb _); [done|]).
  rewrite respond_spec. destruct (signupService _ _ _ _ _) as [[e|x] s1] eqn:E; [done|].
  intros [= -> <-]. apply signupService_success in E as (v & p & u & Hrest).
  by destruct Hrest as (_ & [= <-] & _ & _ & _ & _ & ?).
Qed.

Lemma client_ok_change s s' a :
  db_wf s -> db_change s s' -> client_ok env_secret s a -> client_ok env_secret s' a.
Proof.
  intros Hwf Hc [Hst Hus].
  assert (Hm : forall u, user_session env_secret s u -> user_session env_secret s' u).
  { intros u (usr & t & Hk & Hrest). exists usr, t. split; [|done].
    by apply (db_change_users s). }
  split.
  - intros tok Htok. destruct (Hst tok Htok) as (k & un & fn & ?). eauto.
  - intros u Hu. destruct (Hus u Hu). eauto.
Qed.

Lemma client_ok_set s u :
  user_session env_secret s u ->
  client_ok env_secret s (mk_astate (Some u) (Some (cu_token u))).
Proof.
  intros Hs. split; cbn [as_storage as_user].
  - intros tok [= <-]. destruct u. eauto.
  - by intros u' [= <-].
Qed.

(** The provider's operations change the database only through the
    requests they send. *)
Lemma auth_run_changes act a : changes_ok (auth_run env_secret act a).
Proof.
  intros s. destruct act as [u p|f u p| | |]; cbn [auth_run];
    try exact (ch_same s);
    unfold login, signup, restore, st_catch; st_unfold;
    try (destruct (as_storage a) as [tok|]; [destruct (String.eqb tok "")|]);
    try exact (ch_same s);
    match goal with
    | |- context [handle env_secret ?req s] =>
        pose proof (handle_changes env_secret req s) as Hc;
        destruct (handle env_secret req s) as [[e|b] s1]; simpl in *; [done|];
        repeat case_match; simplify_eq/=; done
    end.
Qed.

(** Each operation of the provider keeps its invariant. *)
Lemma auth_run_ok act a s a' s' :
  db_wf s -> client_ok env_secret s a ->
  auth_run env_secret act a s = (inr a', s') -> client_ok env_secret s' a'.
Proof.
  intros Hwf Hok Hrun.
  assert (Hc : db_change s s').
  { pose proof (auth_run_changes act a s) as Hc. by rewrite Hrun in Hc. }
  destruct act as [u p|f u p| | |]; cbn [auth_run] in Hrun.
  - unfold login in Hrun. st_unfold.
    destruct (handle _ _ s) as [[e|b] s1] eqn:Hh; [done|].
    destruct b as [[au| | |]| |]; injection Hrun as <- <-;
      try by apply (client_ok_change s).
    apply login_answer in Hh as [Hl ->]. apply client_ok_set.
    by apply (session_of_login (JStr u) (JStr p) s s).
  - unfold signup in Hrun. st_unfold.
    destruct (handle _ _ s) as [[e|b] s1] eqn:Hh; [done|].
    destruct b as [[au| | |]|m|]; try done;
      [| destruct (String.eqb m ""); [done|]];
      injection Hrun as <- <-; [|by apply (client_ok_change s)].
    apply signup_answer in Hh. apply client_ok_set.
    eapply session_of_login. exact Hh.
  - injection Hrun as <- <-. split; done.
  - injection Hrun as <- <-. destruct Hok as [Hst _]. split; [done|]. done.
  - unfold restore, st_catch in Hrun. st_unfold.
    destruct (as_storage a) as [tok|] eqn:Hstor; [|by injection Hrun as <- <-].
    destruct (String.eqb tok "") ; [by injection Hrun as <- <-|].
    destruct Hok as [Hst Hus]. destruct (Hst tok Hstor) as (k & un & fn & Hsess).
    pose proof (session_info s _ Hwf Hsess) as Hi. cbn [cu_token] in Hi.
    rewrite Hi in Hrun. simpl in Hrun. injection Hrun as <- <-.
    by apply (client_ok_set s (mk_cuser k un fn tok)).
Qed.

(** A [true] answer of [login] or [signup] sets a user that the
    server has just authenticated. *)
Lemma login_true un pw a s a' s' :
  login env_secret un pw a s = (inr (true, a'), s') ->
  exists au, a' = mk_astate (Some (cuser_of_auth au)) (Some (au_token au)) /\
    loginService env_secret (JStr un) (JStr pw) s' = (inr au, s') /\ s' = s.
Proof.
  unfold login. st_unfold.
  destruct (handle _ _ s) as [[e|b] s1] eqn:Hh; [done|].
  destruct b as [[au| | |]| |]; try done. intros [= <- <-].
  apply login_answer in Hh as [Hl ->]. eauto.
Qed.

Lemma signup_true fn un pw a s a' s' :
  signup env_secret fn un pw a s = (inr (true, a'), s') ->
  exists au, a' = mk_astate (Some (cuser_of_auth au)) (Some (au_token au)) /\
    loginService env_secret (JStr un) (JStr pw) s' = (inr au, s').
Proof.
  unfold signup. st_unfold.
  destruct (handle _ _ s) as [[e|b] s1] eqn:Hh; [done|].
  destruct b as [[au| | |]|m|]; try done; [|by destruct (String.eqb m "")].
  intros [= <- <-]. apply signup_answer in Hh. eauto.
Qed.

(** [restore] brings back the user of a session stored in
    [localStorage]: a session token is never empty. *)
Lemma restore_session s u :
  db_wf s -> user_session env_secret s u ->
  restore env_secret (reload (mk_astate (Some u) (Some (cu_token u)))) s
  = (inr (mk_astate (Some u) (Some (cu_token u))), s).
Proof.
  intros Hwf Hs. unfold restore. cbn [reload as_storage].
  destruct (String.eqb (cu_token u) "") eqn:He.
  { destruct Hs as (? & ? & _ & _ & _ & Ht). apply String.eqb_eq in He.
    rewrite Ht in He. by apply jwt_sign_nonempty in He. }
  unfold st_catch. st_unfold. rewrite (session_info s u) by done. simpl. by destruct u.
Qed.

(** Users are kept by a step of the server or of the provider, so
    the invariant is. *)
Lemma client_ok_mono s s' a :
  (forall k x, db_users s !! k = Some x -> db_users s' !! k = Some x) ->
  client_ok env_secret s a -> client_ok env_secret s' a.
Proof.
  intros Hm [Hst Hus].
  assert (Hm' : forall u, user_session env_secret s u -> user_session env_secret s' u).
  { intros u (usr & t & Hk & Hrest). exists usr, t. split; [by apply Hm|done]. }
  split.
  - intros tok Htok. destruct (Hst tok Htok) as (k & un & fn & ?). eauto.
  - intros u Hu. destruct (Hus u Hu). eauto.
Qed.

Lemma auth_run_change act a s :
  db_change s (snd (auth_run env_secret act a s)).
Proof. apply auth_run_changes. Qed.

Lemma sys_step_ok c c' :
  db_wf c.1 -> client_ok env_secret c.1 c.2 -> sys_step env_secret c c' ->
  db_wf c'.1 /\ client_ok env_secret c'.1 c'.2.
Proof.
  intros Hwf Hok Hstep.
  destruct Hstep as [s s' a Hs|act s a a' s' Hrun|act s a e s' Hrun]; cbn [fst snd] in *.
  - split; [by apply (server_step_wf env_secret s)|].
    apply (client_ok_mono s); [|done]. intros k x. by apply (server_step_users s).
  - pose proof (auth_run_change act a s) as Hc. rewrite Hrun in Hc.
    split; [by apply (db_change_wf s)|]. by apply (auth_run_ok act a s).
  - pose proof (auth_run_change act a s) as Hc. rewrite Hrun in Hc.
    split; [by apply (db_change_wf s)|].
    apply (client_ok_mono s); [|done]. intros k x. by apply db_change_users.
Qed.

Lemma sys_reachable_ok c c' :
  db_wf c.1 -> client_ok env_secret c.1 c.2 -> rtc (sys_step env_secret) c c' ->
  db_wf c'.1 /\ client_ok env_secret c'.1 c'.2.
Proof.
  intros Hwf Hok Hr. revert Hwf Hok.
  induction Hr as [c|c c1 c' Hstep _ IH]; [done|].
  intros Hwf Hok. destruct (sys_step_ok c c1 Hwf Hok Hstep). by apply IH.
Qed.

(** C17: sessions never expire and the provider's state stays
    consistent: in every state of the server and one browser reached
    from an empty database and a signed-out browser, by requests of
    any client, time passing and the provider's operations, a user in
    React state has its token in [localStorage], and
    [GET /v1/auth/info] with it still answers that user's profile. *)
Theorem session_never_expires t s a u :
  rtc (sys_step env_secret) (db_empty t, mk_astate None None) (s, a) ->
  as_user a = Some u ->
  as_storage a = Some (cu_token u) /\
  handle env_secret (GetInfo (Some (bearer_prefix +:+ cu_token u))) s
  = (inr (BData (PProfile (mk_profile (cu_id u) (cu_username u) (cu_fullname u)))), s).
Proof.
  intros Hr Hu.
  apply sys_reachable_ok in Hr as [Hwf [_ Hus]]; [|apply db_empty_wf|by split].
  cbn [fst snd] in *. destruct (Hus u Hu) as [Hst Hs].
  split; [done|]. by apply session_info.
Qed.

(** C27: a sign-in survives a page reload: after [login] or [signup]
    answers [true], reloading the page and running the mount effect
    gives back the same provider state, user and token. *)
Theorem session_survives_reload s a a' s' un pw fn :
  db_wf s ->
  (login env_secret un pw a s = (inr (true, a'), s') -> restore env_secret (reload a') s' = (inr a', s')) /\
  (signup env_secret fn un pw a s = (inr (true, a'), s') -> restore env_secret (reload a') s' = (inr a', s')).
Proof.
  intros Hwf. split.
  - intros Hl. destruct (login_true _ _ _ _ _ _ Hl) as (au & -> & Hs & ->).
    apply restore_session; [done|]. by apply (session_of_login _ _ _ _ _ Hs).
  - intros Hl. destruct (signup_true _ _ _ _ _ _ _ Hl) as (au & -> & Hs).
    assert (Hwf' : db_wf s').
    { apply (db_change_wf s); [done|].
      pose proof (auth_run_change (ASignup fn un pw) a s) as Hc.
      cbn [auth_run] in Hc. st_unfold. by rewrite Hl in Hc. }
    apply restore_session; [done|]. by apply (session_of_login _ _ _ _ _ Hs).
Qed.
End Server.

End AuthProvider.
