(* ===== verification/TodoList.v ===== *)
(** * The dashboard's list ([src/frontend/src/components/TodoList.tsx])

    [TodoList] shows [sortedTodos], a copy of the provider's [todos]
    sorted by [Array.prototype.sort] with a comparator that puts
    incomplete todos first, then higher [priorityOrder] first, then the
    earlier due date first.  Each row marks a todo [isExpired] when it is
    incomplete and due before now.  The comparator's result is a
    JavaScript number, [NaN] included: [priorityOrder] has no entry for
    an urgency outside the enum, and a missing due date is an invalid
    date.  The sort is modelled as a stable insertion sort: ECMAScript
    requires a stable sort and fixes its result whenever the comparator
    is consistent; for an inconsistent one the order is
    implementation-defined and the insertion sort gives one of the
    allowed orders. *)

From S2P Require Import Prelude Runtime ObjectId UserModel TodoModel.
From Stdlib Require Import Sorting.Sorted.
Local Open Scope todo_scope.

(** A JavaScript number: [None] is [NaN]. *)
Definition js_sub (x y : option Z) : option Z :=
  match x, y with
  | Some a, Some b => Some (a - b)%Z
  | _, _ => None
  end.

(** [priorityOrder[urgency]], [undefined] (so [NaN] in arithmetic)
    outside the table. *)
Definition priorityOrder (u : option string) : option Z :=
  match u with
  | Some s =>
      if String.eqb s "important" then Some 3%Z
      else if String.eqb s "normal" then Some 2%Z
      else if String.eqb s "not important" then Some 1%Z
      else None
  | None => None
  end.

(** [new Date(todo.dueDate).getTime()]: the time value of the date,
    [NaN] when the field is absent. *)
Definition getTime (d : option Z) : option Z := d.

(** The comparator of [sortedTodos]. *)
Definition todo_compare (a b : todo) : option Z :=
  if negb (Bool.eqb (t_completed a) (t_completed b)) then
    Some (if t_completed a then 1%Z else (-1)%Z)
  else
    match js_sub (priorityOrder (t_urgency b)) (priorityOrder (t_urgency a)) with
    | Some 0%Z => js_sub (getTime (t_dueDate a)) (getTime (t_dueDate b))
    | r => r                                  (** [priorityDiff !== 0], [NaN] included *)
    end.

(** [SortCompare]: [b] goes before [a] when the comparator is positive;
    [NaN] counts as [+0]. *)
Definition sort_gt (a b : oid * todo) : bool :=
  match todo_compare a.2 b.2 with
  | Some z => (0 <? z)%Z
  | None => false
  end.

(** Stable insertion: [x] goes before the first element greater than
    it, after every element it does not precede. *)
Fixpoint sort_insert (x : oid * todo) (l : list (oid * todo)) : list (oid * todo) :=
  match l with
  | [] => [x]
  | y :: l' => if sort_gt y x then x :: y :: l' else y :: sort_insert x l'
  end.

Definition js_sort (l : list (oid * todo)) : list (oid * todo) :=
  fold_left (fun acc x => sort_insert x acc) l [].

(** [sortedTodos = [...todos].sort(...)]. *)
Definition sortedTodos (todos : list (oid * todo)) : list (oid * todo) := js_sort todos.

(** [isExpired(dueDate, completed)]: [new Date(dueDate) < new Date()];
    a comparison with [NaN] is false. *)
Definition isExpired (dueDate : option Z) (completed : bool) (now : Z) : bool :=
  if completed then false
  else match getTime dueDate with
       | Some t => (t <? now)%Z
       | None => false
       end.

(** [getUrgencyColor] and [getUrgencyBadge]: the class and badge of a
    row, ["priority-normal"] and ["default"] outside the enum. *)
Definition getUrgencyColor (u : string) : string :=
  if String.eqb u "important" then "priority-high"
  else if String.eqb u "normal" then "priority-normal"
  else if String.eqb u "not important" then "priority-low"
  else "priority-normal".

Definition getUrgencyBadge (u : string) : string :=
  if String.eqb u "important" then "destructive"
  else if String.eqb u "normal" then "default"
  else if String.eqb u "not important" then "secondary"
  else "default".

(** ** The sort keeps every todo *)

Lemma sort_insert_perm x l : sort_insert x l ≡ₚ x :: l.
Proof.
  induction l as [|y l IH]; simpl; [done|].
  destruct (sort_gt y x); [done|]. rewrite IH. apply perm_swap.
Qed.

Lemma js_sort_acc_perm l acc :
  fold_left (fun acc x => sort_insert x acc) l acc ≡ₚ l ++ acc.
Proof.
  revert acc. induction l as [|x l IH]; intros acc; simpl; [done|].
  rewrite IH, sort_insert_perm. symmetry. apply Permutation_middle.
Qed.

Lemma js_sort_perm l : js_sort l ≡ₚ l.
Proof. unfold js_sort. by rewrite js_sort_acc_perm, app_nil_r. Qed.

(** ** The sort orders by any relation the comparator decides

    If, on the elements satisfying [P], [R] holds of [x, y] whenever the
    comparator puts [y] after [x], and of [y, x] whenever it does not,
    the insertion sort of a list of such elements returns a list whose
    neighbours are in [R]; if [R] is also transitive on them, every pair
    is. *)

Section Ordered.
Variable P : oid * todo -> Prop.
Variable R : oid * todo -> oid * todo -> Prop.
Hypothesis R_gt : forall x y, P x -> P y -> sort_gt y x = true -> R x y.
Hypothesis R_not_gt : forall x y, P x -> P y -> sort_gt y x = false -> R y x.

Lemma sort_insert_hd y x l :
  P x -> P y -> HdRel R y l -> R y x -> HdRel R y (sort_insert x l).
Proof.
  intros Px Py Hd Hyx. destruct l as [|z l]; simpl; [by constructor|].
  destruct (sort_gt z x); constructor; [done|]. by inversion Hd.
Qed.

Lemma sort_insert_sorted x l :
  P x -> Forall P l -> Sorted R l -> Sorted R (sort_insert x l).
Proof.
  intros Px HP Hs. induction Hs as [|y l Hl IH Hd]; simpl; [by repeat constructor|].
  apply Forall_cons in HP as [Py HP].
  destruct (sort_gt y x) eqn:Hg.
  - constructor; [by constructor|]. constructor. by apply R_gt.
  - constructor; [by apply IH|]. apply sort_insert_hd; [done..|]. by apply R_not_gt.
Qed.

Lemma js_sort_sorted l : Forall P l -> Sorted R (js_sort l).
Proof.
  unfold js_sort. cut (forall acc, Forall P l -> Forall P acc -> Sorted R acc ->
    Sorted R (fold_left (fun acc x => sort_insert x acc) l acc)).
  { intros H HP. apply H; [done|constructor|constructor]. }
  induction l as [|x l IH]; intros acc HPl HPacc Hacc; simpl; [done|].
  apply Forall_cons in HPl as [Px HPl].
  apply IH; [done| |by apply sort_insert_sorted].
  rewrite sort_insert_perm. by constructor.
Qed.

Hypothesis R_trans : forall x y z, P x -> P y -> P z -> R x y -> R y z -> R x z.

Lemma sorted_hd_forall x l :
  P x -> Forall P l -> Sorted R l -> HdRel R x l -> Forall (R x) l.
Proof.
  intros Px HP Hs. revert x Px. induction Hs as [|y l Hl IH Hd]; intros x Px Hx; [done|].
  apply Forall_cons in HP as [Py HP]. inversion Hx as [|? ? Hxy]; subst.
  constructor; [done|]. pose proof (IH HP y Py Hd) as Hy.
  apply Forall_forall. intros z Hz. rewrite Forall_forall in Hy, HP.
  apply (R_trans x y z); auto.
Qed.

Lemma Sorted_StronglySorted_on l : Forall P l -> Sorted R l -> StronglySorted R l.
Proof.
  intros HP Hs. induction Hs as [|x l Hl IH Hd]; [constructor|].
  apply Forall_cons in HP as [Px HP]. constructor; [by apply IH|].
  by apply sorted_hd_forall.
Qed.
End Ordered.
(** Pairs of a strongly sorted list are in the relation. *)
Lemma StronglySorted_lookup {A} (R : A -> A -> Prop) l i j a b :
  StronglySorted R l -> i < j -> l !! i = Some a -> l !! j = Some b -> R a b.
Proof.
  intros Hs. revert i j. induction Hs as [|x l Hs IH Hall]; intros i j Hij Ha Hb; [done|].
  destruct i as [|i], j as [|j]; simpl in *; try lia.
  - injection Ha as <-. rewrite Forall_forall in Hall. apply Hall.
    by apply list_elem_of_lookup_2 in Hb.
  - apply (IH i j); [lia|done|done].
Qed.

(** ** The orders the comparator implements *)

(** Completed todos after incomplete ones. *)
Definition done_le (a b : oid * todo) : Prop :=
  t_completed a.2 = true -> t_completed b.2 = true.

Lemma sort_gt_done x y : sort_gt y x = true -> done_le x y.
Proof.
  unfold sort_gt, todo_compare, done_le.
  destruct (t_completed x.2), (t_completed y.2); simpl; done.
Qed.

Lemma sort_not_gt_done x y : sort_gt y x = false -> done_le y x.
Proof.
  unfold sort_gt, todo_compare, done_le.
  destruct (t_completed x.2), (t_completed y.2); simpl; done.
Qed.

(** A row the comparator orders by numbers: its urgency is in the
    table and its due date is a valid date. *)
Definition valid_row (t : oid * todo) : Prop :=
  is_Some (priorityOrder (t_urgency t.2)) /\ is_Some (t_dueDate t.2).

#[export] Instance valid_row_dec t : Decision (valid_row t).
Proof. unfold valid_row. apply _. Defined.

(** The order the dashboard is meant to show: incomplete first, then
    higher priority, then earlier due date. *)
Definition todo_key (d : todo) : Z * Z * Z :=
  ((if t_completed d then 1 else 0)%Z,
   (- default 0 (priorityOrder (t_urgency d)))%Z,
   default 0%Z (t_dueDate d)).

Definition key_le (k1 k2 : Z * Z * Z) : Prop :=
  (k1.1.1 < k2.1.1 \/
   k1.1.1 = k2.1.1 /\ (k1.1.2 < k2.1.2 \/ k1.1.2 = k2.1.2 /\ k1.2 <= k2.2))%Z.

Lemma key_le_total k1 k2 : ~ key_le k1 k2 -> key_le k2 k1.
Proof. unfold key_le. lia. Qed.

Lemma key_le_trans k1 k2 k3 : key_le k1 k2 -> key_le k2 k3 -> key_le k1 k3.
Proof. unfold key_le. lia. Qed.

(** On valid rows the comparator is a number whose sign is the key
    order. *)
Lemma todo_compare_key a b :
  valid_row a -> valid_row b ->
  exists z, todo_compare a.2 b.2 = Some z /\
            ((z <= 0)%Z <-> key_le (todo_key a.2) (todo_key b.2)).
Proof.
  intros [[pa Hpa] [da Hda]] [[pb Hpb] [db Hdb]].
  unfold todo_compare, todo_key, key_le, getTime. rewrite Hpa, Hpb, Hda, Hdb.
  cbn [js_sub default fst snd].
  destruct (t_completed a.2), (t_completed b.2); simpl;
    [|eexists; split; [reflexivity|lia]..|];
    destruct (pb - pa)%Z eqn:E; (eexists; split; [reflexivity|lia]).
Qed.

Lemma sort_gt_key x y :
  valid_row x -> valid_row y -> sort_gt y x = true ->
  key_le (todo_key x.2) (todo_key y.2).
Proof.
  intros Hx Hy. unfold sort_gt. destruct (todo_compare_key y x Hy Hx) as (z & -> & Hz).
  intros Hlt. apply key_le_total. rewrite <- Hz. lia.
Qed.

Lemma sort_not_gt_key x y :
  valid_row x -> valid_row y -> sort_gt y x = false ->
  key_le (todo_key y.2) (todo_key x.2).
Proof.
  intros Hx Hy. unfold sort_gt. destruct (todo_compare_key y x Hy Hx) as (z & -> & Hz).
  intros Hge. apply Hz. lia.
Qed.

(** ** Consistency of the comparator *)

(** [SortCompare]'s view of the comparator: [a =C b] when it returns
    [+0], [-0] or [NaN]. *)
Definition cmp_zero (a b : todo) : bool :=
  match todo_compare a b with Some z => Z.eqb z 0 | None => true end.

(** Part of ECMAScript's consistent comparator on the values [l] being
    sorted: [a =C b] and [b =C c] imply [a =C c]. *)
Definition consistent_on (l : list todo) : Prop :=
  forall a b c, a ∈ l -> b ∈ l -> c ∈ l ->
    cmp_zero a b = true -> cmp_zero b c = true -> cmp_zero a c = true.

Lemma priorityOrder_outside s : s ∉ urgency_enum -> priorityOrder (Some s) = None.
Proof.
  intros Hs. unfold priorityOrder.
  destruct (String.eqb_spec s "important"), (String.eqb_spec s "normal"),
    (String.eqb_spec s "not important"); subst; try done; exfalso; apply Hs; set_solver.
Qed.

(** Two different urgencies of the enum have different priorities. *)
Lemma priorityOrder_inside ua ub :
  ua ∈ urgency_enum -> ub ∈ urgency_enum -> ua <> ub ->
  exists pa pb, priorityOrder (Some ua) = Some pa /\ priorityOrder (Some ub) = Some pb /\
    pa <> pb.
Proof.
  unfold urgency_enum. rewrite !list_elem_of_In. simpl.
  intros [<-|[<-|[<-|[]]]] [<-|[<-|[<-|[]]]] Hne; try done; do 2 eexists; split_and!;
    try reflexivity; lia.
Qed.

(** ** Properties of the dashboard's list *)

(** C28: the dashboard shows every todo of the provider exactly once
    (the sorted list is a permutation of [todos]), and no completed todo
    is shown above an incomplete one, whatever the urgencies and dates,
    [NaN] comparisons included. *)
Theorem sortedTodos_incomplete_first l :
  sortedTodos l ≡ₚ l /\
  forall i j a b, i < j -> sortedTodos l !! i = Some a -> sortedTodos l !! j = Some b ->
    t_completed a.2 = true -> t_completed b.2 = true.
Proof.
  split; [apply js_sort_perm|]. intros i j a b Hij Ha Hb.
  apply (StronglySorted_lookup done_le (sortedTodos l) i j); [|done..].
  apply (Sorted_StronglySorted_on (fun _ => True)).
  - intros x y z _ _ _. unfold done_le. auto.
  - by apply Forall_true.
  - apply (js_sort_sorted (fun _ => True)).
    + intros x y _ _. apply sort_gt_done.
    + intros x y _ _. apply sort_not_gt_done.
    + by apply Forall_true.
Qed.

(** C29: when every urgency is in the enum and every due date is a
    valid date, the comparator sort implements the intended order: any
    todo shown above another is incomplete while the other is completed,
    or has the same status and a higher priority, or the same status and
    priority and a due date no later. *)
Theorem sortedTodos_key_order l :
  Forall valid_row l ->
  forall i j a b, i < j -> sortedTodos l !! i = Some a -> sortedTodos l !! j = Some b ->
    key_le (todo_key a.2) (todo_key b.2).
Proof.
  intros Hl i j a b Hij Ha Hb.
  set (R := fun x y : oid * todo => key_le (todo_key x.2) (todo_key y.2)).
  apply (StronglySorted_lookup R (sortedTodos l) i j); [|done..].
  apply (Sorted_StronglySorted_on valid_row).
  - intros x y z _ _ _. apply key_le_trans.
  - by rewrite js_sort_perm.
  - apply (js_sort_sorted valid_row); [apply sort_gt_key|apply sort_not_gt_key|done].
Qed.

(** C30: outside the enum the comparator is not consistent: a todo [x]
    whose urgency is outside the enum (which [updateTodoService] can
    store, C7) compares as equal ([NaN], read as [+0]) with every todo
    of its status, in both orders; so for any two todos [a] and [b] of
    that status with different urgencies of the enum, [a =C x] and
    [x =C b] while [a] and [b] compare as different, and the comparator
    breaks ECMAScript's consistency requirement on [[a; x; b]], which
    leaves the order of [sortedTodos] implementation-defined. *)
Theorem compare_inconsistent_outside_enum a b x s ua ub :
  t_urgency x = Some s -> s ∉ urgency_enum ->
  t_urgency a = Some ua -> t_urgency b = Some ub -> ua ∈ urgency_enum -> ub ∈ urgency_enum ->
  ua <> ub -> t_completed a = t_completed x -> t_completed b = t_completed x ->
  (forall y, t_completed y = t_completed x -> todo_compare x y = None /\ todo_compare y x = None) /\
  cmp_zero a x = true /\ cmp_zero x b = true /\ cmp_zero a b = false /\
  ~ consistent_on [a; x; b].
Proof.
  intros Hx Hs Ha Hb Hua Hub Hne Hca Hcb.
  assert (Hall : forall y, t_completed y = t_completed x ->
            todo_compare x y = None /\ todo_compare y x = None).
  { intros y Hy. unfold todo_compare. rewrite Hy, Hx, priorityOrder_outside by done.
    rewrite eqb_reflx. by destruct (priorityOrder (t_urgency y)). }
  assert (Hab : cmp_zero a b = false).
  { unfold cmp_zero, todo_compare. rewrite Hca, Hcb, eqb_reflx, Ha, Hb. cbn [negb].
    destruct (priorityOrder_inside ua ub Hua Hub Hne) as (pa & pb & -> & -> & Hp).
    cbn [js_sub]. destruct (Z.eqb_spec (pb - pa) 0); [lia|]. by destruct (pb - pa)%Z. }
  assert (Hax : cmp_zero a x = true) by (unfold cmp_zero; by rewrite (proj2 (Hall a Hca))).
  assert (Hxb : cmp_zero x b = true) by (unfold cmp_zero; by rewrite (proj1 (Hall b Hcb))).
  split; [done|]. split; [done|]. split; [done|]. split; [done|].
  intros Hcons. rewrite (Hcons a x b) in Hab; [done|by repeat constructor..|done|done].
Qed.

(** An incomplete todo of urgency [u]. *)
Definition row_u (u : string) : todo := mk_todo "t" "" (Some u) (Some 0%Z) false "alice" 0 0.

Lemma compare_inconsistent_outside_enum_witness :
  ~ consistent_on [row_u "important"; row_u "urgent"; row_u "normal"].
Proof.
  refine (proj2 (proj2 (proj2 (proj2 (compare_inconsistent_outside_enum
            (row_u "important") (row_u "normal") (row_u "urgent") "urgent" "important" "normal"
            eq_refl _ eq_refl eq_refl _ _ _ eq_refl eq_refl)))));
    [decide_by_compute..|discriminate].
Defined.

(** Three rows as the provider may hold them: a completed important
    todo, an incomplete normal one and an incomplete important one. *)
Definition rows : list (oid * todo) :=
  [(0%N, mk_todo "Pay rent" "" (Some "important") (Some 30%Z) true "alice" 0 0);
   (1%N, mk_todo "Buy milk" "" (Some "normal") (Some 10%Z) false "alice" 0 0);
   (2%N, mk_todo "Call mom" "" (Some "important") (Some 20%Z) false "alice" 0 0)].

Lemma sortedTodos_key_order_witness :
  key_le (todo_key (mk_todo "Call mom" "" (Some "important") (Some 20%Z) false "alice" 0 0))
         (todo_key (mk_todo "Buy milk" "" (Some "normal") (Some 10%Z) false "alice" 0 0)).
Proof.
  apply (sortedTodos_key_order rows ltac:(decide_by_compute) 0 1
           (2%N, mk_todo "Call mom" "" (Some "important") (Some 20%Z) false "alice" 0 0)
           (1%N, mk_todo "Buy milk" "" (Some "normal") (Some 10%Z) false "alice" 0 0));
    [lia|vm_compute; reflexivity..].
Defined.
