(* ===== verification/Forms.v ===== *)
(** * The forms and panels of the dashboard
    ([src/frontend/src/components/TodoForm.tsx], [TodoEditForm.tsx],
    [SignupPage.tsx], [Dashboard.tsx], [Header.tsx], [pages/Index.tsx])

    Each form keeps its fields in React state and, on submit, checks
    them, shows a toast and calls the provider: [TodoForm] calls
    [addTodo] with the trimmed fields and [dueDate.toISOString()],
    [TodoEditForm] calls [updateTodo], [SignupPage] calls the session's
    [signup].  A submit is modelled as the checks, the provider call run
    to its end through the server model, and the toast and form state
    that follow.  [Dashboard] counts the completed, pending and overdue
    todos; [Header]'s logout is the session's [logout]; [Index] chooses
    the page from [isAuthenticated].  [Date] is a time value in
    milliseconds; [toISOString] and the server's date parser agree on
    the range of valid dates, the law of the class [IsoDate]. *)

From S2P Require Import Prelude Runtime Crypto ObjectId UserModel TodoModel Db TodoService AuthService Session Controllers Server Client AuthClient TodoList.
From Stdlib Require Import Ascii.
Local Open Scope todo_scope.

(** [Date.prototype.toISOString], read back by [new Date(string)] on
    the server for every date in the range of JavaScript dates from the
    epoch on. *)
Class IsoDate `{DateParser} := {
  toISOString : Z -> string;
  toISOString_parse : forall t, (0 <= t <= 8640000000000000)%Z ->
    date_parse (toISOString t) = Some t;
  toISOString_nonempty : forall t, toISOString t <> ""
}.

(** A reference instance: the decimal digits of the time value, which
    the reference parser [RefDate] reads back. *)
Module RefIso.
Import RefDate.

Fixpoint dec_go (fuel : nat) (n : Z) (acc : string) : string :=
  match fuel with
  | O => acc
  | S f =>
      let acc' := String (ascii_of_nat (48 + Z.to_nat (n mod 10))) acc in
      if (n <? 10)%Z then acc' else dec_go f (n / 10) acc'
  end.

Definition iso (t : Z) : string := dec_go 16 t "".

Lemma digits_digit n acc a :
  (0 <= n < 10)%Z ->
  digits (String (ascii_of_nat (48 + Z.to_nat n)) acc) a = digits acc (a * 10 + n)%Z.
Proof.
  intros Hn. cbn [digits]. rewrite nat_ascii_embedding by lia.
  replace (48 <=? 48 + Z.to_nat n) with true by (symmetry; apply Nat.leb_le; lia).
  replace (48 + Z.to_nat n <=? 57) with true by (symmetry; apply Nat.leb_le; lia).
  cbn [andb]. f_equal. lia.
Qed.

Lemma digits_dec_go f n acc :
  (0 <= n < 10 ^ Z.of_nat f)%Z -> digits (dec_go f n acc) 0 = digits acc n.
Proof.
  revert n acc. induction f as [|f IH]; intros n acc Hn; cbn [dec_go].
  - replace n with 0%Z by lia. done.
  - assert (Hm : (0 <= n mod 10 < 10)%Z) by (apply Z.mod_pos_bound; lia).
    destruct (Z.ltb_spec n 10).
    + rewrite digits_digit by done. f_equal. rewrite Z.mod_small by lia. lia.
    + rewrite IH.
      * rewrite digits_digit by done. f_equal. pose proof (Z.div_mod n 10). lia.
      * rewrite Nat2Z.inj_succ, Z.pow_succ_r in Hn by lia.
        split; [apply Z.div_pos; lia|]. apply Z.div_lt_upper_bound; lia.
Qed.

Lemma dec_go_succ f n acc :
  dec_go (S f) n acc =
  let acc' := String (ascii_of_nat (48 + Z.to_nat (n mod 10))) acc in
  if (n <? 10)%Z then acc' else dec_go f (n / 10) acc'.
Proof. reflexivity. Qed.

Lemma dec_go_nonempty f n acc : acc <> "" -> dec_go f n acc <> "".
Proof.
  revert n acc. induction f as [|f IH]; intros n acc Hacc; [done|].
  rewrite dec_go_succ. cbv zeta. destruct (n <? 10)%Z; [discriminate|]. by apply IH.
Qed.

Lemma iso_nonempty t : iso t <> "".
Proof.
  unfold iso. rewrite dec_go_succ. cbv zeta.
  destruct (t <? 10)%Z; [discriminate|]. by apply dec_go_nonempty.
Qed.

Lemma iso_parse t :
  (0 <= t <= 8640000000000000)%Z -> date_parse (iso t) = Some t.
Proof.
  intros Ht. unfold date_parse, date_parser.
  pose proof (iso_nonempty t) as Hne.
  destruct (String.eqb_spec (iso t) "") as [E|_]; [done|].
  unfold iso. rewrite digits_dec_go; [done|]. change (Z.of_nat 16) with 16%Z. lia.
Qed.

#[export] Instance iso_date : IsoDate :=
  {| toISOString := iso; toISOString_parse := iso_parse;
     toISOString_nonempty := iso_nonempty |}.
End RefIso.

(** ** The forms' state *)

(** The [Select] of the forms offers exactly the three urgencies. *)
Inductive urgency_choice := Important | Normal | NotImportant.

Definition urgency_value (u : urgency_choice) : string :=
  match u with
  | Important => "important"
  | Normal => "normal"
  | NotImportant => "not important"
  end.

(** [TodoForm]'s fields: [dueDate] is [undefined] until a day is
    picked. *)
Record todo_form := mk_todo_form {
  tf_title : string;
  tf_description : string;
  tf_urgency : urgency_choice;
  tf_dueDate : option Z
}.

(** The initial state, and the state [// Reset form] restores. *)
Definition todo_form_init : todo_form := mk_todo_form "" "" Normal None.

(** [TodoEditForm]'s fields, initialised from the todo: its urgency is
    whatever the server stored ([null] included), its date
    [parseISO(todo.dueDate)]; the calendar can deselect the day
    ([None]).  Every stored todo has a due date, since both handlers
    that write one require a truthy [dueDate] that casts to a date, so
    [parseISO] always gives a valid date here; a todo without one,
    which no request can store, would give an Invalid Date, on which
    [toISOString] throws, and is not modelled. *)
Record edit_form := mk_edit_form {
  ef_title : string;
  ef_description : string;
  ef_urgency : option string;
  ef_dueDate : option Z
}.

Definition edit_form_init (d : todo) : edit_form :=
  mk_edit_form (t_title d) (t_description d) (t_urgency d) (t_dueDate d).

(** A [toast]: the destructive variant for errors. *)
Inductive toast := ToastError (description : string) | ToastDone (description : string).

(** The JSON value of a string-or-null field. *)
Definition json_of_option (o : option string) : jsval :=
  match o with Some s => JStr s | None => JNull end.

Section Submits.
Context `{Bcrypt} `{Jwt} `{DateParser} `{!IsoDate}.
Context (env_secret : option string).

(** [TodoForm.handleSubmit]: the title and date checks, then
    [addTodo({ title: title.trim(), description: description.trim(),
    urgency, dueDate: dueDate.toISOString() })], the success toast and
    the reset.  [addTodo] is not awaited; it never rejects (its [catch]
    logs), so running it to its end first changes no outcome. *)
Definition todoForm_submit (f : todo_form) (cs : cstate)
  : M (toast * todo_form * cstate) :=
  if String.eqb (js_trim (tf_title f)) "" then
    st_ret (ToastError "Please enter a title for your task", f, cs)
  else match tf_dueDate f with
  | None => st_ret (ToastError "Please select a due date", f, cs)
  | Some t =>
      let* cs' := TodoProvider.addTodo env_secret (JStr (js_trim (tf_title f)))
                    (JStr (js_trim (tf_description f)))
                    (JStr (urgency_value (tf_urgency f))) (JStr (toISOString t)) cs in
      st_ret (ToastDone "Your task has been added successfully", todo_form_init, cs')
  end.

(** [TodoEditForm.handleSubmit] for the todo [id]. *)
Definition editForm_submit (id : string) (f : edit_form) (cs : cstate)
  : M (toast * cstate) :=
  if String.eqb (js_trim (ef_title f)) "" then
    st_ret (ToastError "Please enter a title for your task", cs)
  else match ef_dueDate f with
  | None => st_ret (ToastError "Please select a due date", cs)
  | Some t =>
      let* cs' := TodoProvider.updateTodo env_secret id (JStr (js_trim (ef_title f)))
                    (JStr (js_trim (ef_description f))) (json_of_option (ef_urgency f))
                    (JStr (toISOString t)) cs in
      st_ret (ToastDone "Your task has been updated successfully", cs')
  end.

(** [SignupPage.handleSubmit]: [!fullName || !username || !password],
    the length check, then [await signup(fullName, username, password)]
    inside [try]/[catch]; a [false] answer is reported as a taken
    username. *)
Definition signupPage_submit (fullName username password : string)
    (a : AuthProvider.astate) : M (toast * AuthProvider.astate) :=
  if String.eqb fullName "" || String.eqb username "" || String.eqb password "" then
    st_ret (ToastError "Please fill in all fields", a)
  else if String.length password <? 6 then
    st_ret (ToastError "Password must be at least 6 characters", a)
  else
    st_catch
      (let* r := AuthProvider.signup env_secret fullName username password a in
       st_ret (if r.1 then ToastDone "Welcome to TaskFlow!"
               else ToastError "Username already exists", r.2))
      (fun _ => st_ret (ToastError "An error occurred during signup", a)).
End Submits.

(** ** The dashboard's counters, the header and the page *)

Definition completedTasks (todos : list (oid * todo)) : nat :=
  length (filter (fun t => t_completed t.2 = true) todos).

Definition pendingTasks (todos : list (oid * todo)) : nat :=
  length (filter (fun t => t_completed t.2 = false) todos).

(** [!todo.completed && new Date(todo.dueDate) < new Date()]. *)
Definition overdue (now : Z) (t : oid * todo) : bool :=
  negb (t_completed t.2) &&
  match getTime (t_dueDate t.2) with Some d => (d <? now)%Z | None => false end.

Definition overdueTasks (todos : list (oid * todo)) (now : Z) : nat :=
  length (filter (fun t => overdue now t = true) todos).

(** [Header.handleLogout]: the session's [logout] (and the menu closes). *)
Definition handleLogout (a : AuthProvider.astate) : AuthProvider.astate :=
  AuthProvider.logout a.

(** [Index]: the dashboard when signed in, else the page of [authMode]. *)
Inductive auth_mode := ModeLogin | ModeSignup.
Inductive page := PageLogin | PageSignup | PageDashboard.

Definition index_page (a : AuthProvider.astate) (mode : auth_mode) : page :=
  if AuthProvider.isAuthenticated a then PageDashboard
  else match mode with ModeLogin => PageLogin | ModeSignup => PageSignup end.

(** ** Lemmas *)

Lemma urgency_value_in_enum u : in_enum (urgency_value u) = true.
Proof. by destruct u. Qed.

Lemma truthy_urgency_value u : truthy (JStr (urgency_value u)) = true.
Proof. by destruct u. Qed.

Lemma truthy_nonempty s : s <> "" -> truthy (JStr s) = true.
Proof. apply truthy_str. Qed.

#[export] Hint Resolve urgency_value_in_enum truthy_urgency_value truthy_nonempty : todo.

Section FormLemmas.
Context `{DateParser} `{!IsoDate}.

Lemma cast_date_iso t :
  (0 <= t <= 8640000000000000)%Z -> cast_date (JStr (toISOString t)) = inr (Some t).
Proof. intros Ht. simpl. by rewrite toISOString_parse. Qed.

(** What [Todo.create] stores for a submitted form. *)
Lemma todo_build_form now u ti de ur t :
  js_trim ti <> "" -> u <> "" -> (0 <= t <= 8640000000000000)%Z ->
  todo_build now u (JStr (js_trim ti)) (JStr (js_trim de)) (JStr (urgency_value ur))
    (JStr (toISOString t))
  = inr (mk_todo (js_trim ti) (js_trim de) (Some (urgency_value ur)) (Some t) false u now now).
Proof.
  intros Hti Hu Ht. unfold todo_build, build_path, required_string. simpl.
  rewrite !js_trim_idem. apply String.eqb_neq in Hti, Hu. rewrite Hti. simpl.
  rewrite urgency_value_in_enum, toISOString_parse by done. simpl. by rewrite Hu.
Qed.
(** An update cast from a non-blank title and an urgency of the enum
    keeps a valid todo valid. *)
Lemma patch_valid now ti de u du p d :
  todo_cast_update (mk_update (JStr ti) (JStr de) (JStr u) du) = inr p ->
  js_trim ti <> "" -> u ∈ urgency_enum -> todo_valid d -> todo_valid (todo_patch_apply now p d).
Proof.
  unfold todo_cast_update. cbn [up_title up_description up_urgency up_dueDate patch_string
    patch_urgency cast_string].
  destruct (patch_date du); [done|]. intros [= <-] Hti Hu (_ & Hun & _).
  unfold todo_valid. by cbn.
Qed.
End FormLemmas.

Lemma bcrypt_hash_nonempty `{Bcrypt} salt p : bcrypt_hash salt p <> "".
Proof. pose proof (bcrypt_hash_length salt p) as Hl. intros He. rewrite He in Hl. simpl in Hl. lia. Qed.

(** [User.create] refuses a full name of blanks, after the username and
    the password hash have passed. *)
Lemma user_build_blank_fullname now un hash fn :
  username_set un <> "" -> hash <> "" -> 6 <= String.length hash -> js_trim fn = "" ->
  user_build now (JStr un) hash (JStr fn) = inl (ErrValidation "fullname").
Proof.
  intros Hun Hh Hl Hfn. unfold user_build, build_path, required_string. cbn [cast_string].
  apply String.eqb_neq in Hun, Hh. rewrite Hun, Hh. cbn [negb orb].
  replace (String.length hash <? 6) with false by (symmetry; apply Nat.ltb_ge; lia).
  by rewrite Hfn.
Qed.

(** ** Properties of the forms *)

(** A branch that answers without changing the database. *)
Ltac unchanged := let H := fresh in intros H; cbn in H; injection H as _ <-; done.

(** The provider's calls never reject: a server error or an exception
    of the request is caught and leaves the list as it was. *)
Lemma client_call_answers `{Bcrypt} `{Jwt} `{DateParser} env_secret req upd cs s :
  exists cs' s', TodoProvider.client_call env_secret req upd cs s = (inr cs', s').
Proof.
  unfold TodoProvider.client_call, st_catch. st_unfold.
  destruct (cs_token cs) as [tok|]; [|eauto].
  destruct (handle env_secret _ s) as [[e|b] s']; eauto.
Qed.

Section FormProps.
Context `{Bcrypt} `{Jwt} `{DateParser} `{!IsoDate}.
Context (env_secret : option string).

(** C36: a [TodoForm] submission the form accepts goes through every
    layer: with a session, a non-blank title and a picked date, the
    server's field check, the cast and the validators all pass, the
    database gains the todo with the trimmed title and description, the
    chosen urgency, the date and [completed = false] under the caller's
    name at the next ObjectId, the provider's list gains the same todo
    at its end, the success toast shows and the form is reset; the
    stored todo satisfies the schema's invariant. *)
Theorem todo_form_creates f cs s tok c t :
  cs_token cs = Some tok ->
  verifyToken (JWT_SECRET env_secret) (auth_header tok) = Some c ->
  cl_username c <> "" ->
  js_trim (tf_title f) <> "" -> tf_dueDate f = Some t -> (0 <= t <= 8640000000000000)%Z ->
  let d := mk_todo (js_trim (tf_title f)) (js_trim (tf_description f))
             (Some (urgency_value (tf_urgency f))) (Some t) false (cl_username c)
             (db_clock s) (db_clock s) in
  todoForm_submit env_secret f cs s =
    (inr (ToastDone "Your task has been added successfully", todo_form_init,
          with_todos cs (cs_todos cs ++ [(db_next s, d)])),
     db_add_todo s d) /\
  todo_valid d.
Proof.
  intros Htok Hsess Hu Hti Hdue Ht d. split.
  - unfold todoForm_submit. pose proof Hti as Hti'. apply String.eqb_neq in Hti'.
    rewrite Hti', Hdue. unfold TodoProvider.addTodo, TodoProvider.client_call, st_catch.
    rewrite Htok. st_unfold. cbn [handle]. rewrite (with_user_session env_secret tok c Hsess).
    unfold TodoController.createTodo.
    rewrite truthy_nonempty, truthy_urgency_value, truthy_nonempty
      by (done || apply toISOString_nonempty). cbn [negb orb].
    rewrite respond_spec, createTodoService_spec. cbn [call_trim trim_description].
    rewrite js_trim_idem, js_trim_idem.
    rewrite (todo_build_form _ _ (tf_title f) (tf_description f)) by done. done.
  - unfold d, todo_valid. cbn. split; [done|]. split; [done|].
    apply (bool_decide_unpack _). pose proof (urgency_value_in_enum (tf_urgency f)) as He.
    unfold in_enum in He. by rewrite He.
Qed.
(** C37: editing through [TodoEditForm] keeps every stored todo valid:
    its [Select] only offers the three urgencies and its title check
    refuses a blank title, so the update that [findOneAndUpdate] stores
    without validation (C7) is valid, or the server refuses it, changing
    nothing. *)
Theorem edit_form_keeps_valid id f cs s r s' :
  todos_valid s ->
  match ef_urgency f with Some u => u ∈ urgency_enum | None => True end ->
  editForm_submit env_secret id f cs s = (r, s') -> todos_valid s'.
Proof.
  intros Hs Hu. unfold editForm_submit.
  destruct (String.eqb_spec (js_trim (ef_title f)) "") as [|Hti]; [unchanged|].
  destruct (ef_dueDate f) as [t|]; [|unchanged].
  unfold TodoProvider.updateTodo, TodoProvider.client_call, st_catch. st_unfold.
  destruct (cs_token cs) as [tok|]; [|unchanged].
  cbn [handle]. unfold with_user. destruct (verifyToken _ _) as [c|]; [|unchanged].
  unfold TodoController.updateTodo.
  destruct (ef_urgency f) as [u|]; cbn [json_of_option];
    [|rewrite !orb_true_r; unchanged].
  destruct (_ || _ || _ || _); [unchanged|].
  rewrite respond_spec, updateTodoService_spec. cbn [call_trim trim_description].
  destruct (cast_oid _) as [e|i]; [unchanged|].
  destruct (todo_cast_update _) as [e|p] eqn:Hp; [unchanged|].
  unfold scoped. destruct (db_todos s !! i) as [d|] eqn:Hd; [|unchanged].
  destruct (String.eqb (t_username d) _); [|unchanged].
  intros [= _ <-]. apply todos_valid_insert; [done|].
  apply (patch_valid _ _ _ _ _ _ _ Hp); [by rewrite !js_trim_idem|done|by apply Hs in Hd].
Qed.
(** C38: [SignupPage] reports every refused signup as a taken
    username: a full name of blanks passes the page's check ([!fullName]
    is false for ["   "]) but fails the schema's [required] after
    [trim], and the page then says ["Username already exists"] although
    the name is free; the session is left signed out. *)
Theorem signup_page_blames_username fn un pw a s :
  fn <> "" -> js_trim fn = "" -> username_set un <> "" -> 6 <= String.length pw ->
  find_one (username_is (username_set un)) (db_users s) = None ->
  signupPage_submit env_secret fn un pw a s
  = (inr (ToastError "Username already exists", a), db_bump_salt s).
Proof.
  intros Hfn Hblank Hun Hpw Hfree.
  assert (Hun' : un <> "") by (intros ->; done).
  assert (Hpw' : pw <> "") by (intros ->; simpl in Hpw; lia).
  unfold signupPage_submit.
  apply String.eqb_neq in Hfn as Efn, Hun' as Eun, Hpw' as Epw. rewrite Efn, Eun, Epw.
  replace (String.length pw <? 6) with false by (symmetry; apply Nat.ltb_ge; lia).
  cbn [orb]. unfold st_catch, AuthProvider.signup. st_unfold. cbn [handle].
  unfold AuthController.signup. rewrite !truthy_nonempty by done. cbn [negb].
  rewrite respond_spec, signupService_spec. cbn [cast_string]. rewrite Hfree.
  rewrite user_build_blank_fullname by
    (done || apply bcrypt_hash_nonempty || apply bcrypt_hash_length).
  done.
Qed.
(** C40: [TodoForm] reports success unconditionally: every submission
    that passes the form's two checks shows "Your task has been added
    successfully" and resets the form, whatever the server answers, and
    a signed-out submission shows it with nothing stored at all, because
    [addTodo] is not awaited and swallows every failure. *)
Theorem todo_form_toast_unconditional f cs s t :
  js_trim (tf_title f) <> "" -> tf_dueDate f = Some t ->
  (exists cs' s', todoForm_submit env_secret f cs s =
     (inr (ToastDone "Your task has been added successfully", todo_form_init, cs'), s')) /\
  (cs_token cs = None -> todoForm_submit env_secret f cs s =
     (inr (ToastDone "Your task has been added successfully", todo_form_init, cs), s)).
Proof.
  intros Hti Hdue. unfold todoForm_submit.
  apply String.eqb_neq in Hti as ->. rewrite Hdue. split.
  - unfold TodoProvider.addTodo. st_unfold.
    edestruct (client_call_answers env_secret) as (cs' & s' & ->). eauto.
  - intros Htok. unfold TodoProvider.addTodo, TodoProvider.client_call.
    rewrite Htok. done.
Qed.
End FormProps.

(** ** The dashboard's counters *)

Lemma filter_complement_length {A} (P : A -> bool) (l : list A) :
  length (filter (fun x => P x = true) l) + length (filter (fun x => P x = false) l)
  = length l.
Proof.
  induction l as [|x l IH]; [done|]. rewrite !filter_cons.
  destruct (P x) eqn:E; simpl; rewrite ?decide_True, ?decide_False by congruence;
    simpl; lia.
Qed.

Lemma filter_length_mono {A} (P Q : A -> bool) (l : list A) :
  (forall x, P x = true -> Q x = true) ->
  length (filter (fun x => P x = true) l) <= length (filter (fun x => Q x = true) l).
Proof.
  intros HPQ. induction l as [|x l IH]; [done|]. rewrite !filter_cons.
  destruct (P x) eqn:Ep; [rewrite (HPQ x Ep)|]; destruct (Q x);
    repeat case_decide; simpl; try lia; congruence.
Qed.

Lemma overdue_isExpired now t :
  overdue now t = isExpired (t_dueDate t.2) (t_completed t.2) now.
Proof. unfold overdue, isExpired. by destruct (t_completed t.2). Qed.

(** C39: the dashboard's counters add up and agree with the list: the
    completed and pending counts sum to the number of todos, the overdue
    count is at most the pending count, and it is the number of rows
    [TodoList] marks expired in its sorted list. *)
Theorem dashboard_counts todos now :
  completedTasks todos + pendingTasks todos = length todos /\
  overdueTasks todos now <= pendingTasks todos /\
  overdueTasks todos now =
    length (filter (fun t => isExpired (t_dueDate t.2) (t_completed t.2) now = true)
              (sortedTodos todos)).
Proof.
  split; [apply (filter_complement_length (fun t => t_completed t.2))|]. split.
  - unfold overdueTasks, pendingTasks.
    rewrite (filter_length_mono (overdue now) (fun t => negb (t_completed t.2))).
    + apply Nat.eq_le_incl. f_equal. apply list_filter_iff. intros t. destruct (t_completed t.2); naive_solver.
    + intros t. unfold overdue. by destruct (t_completed t.2).
  - unfold overdueTasks. apply Permutation_length. symmetry.
    rewrite (filter_Permutation _ _ _ (js_sort_perm todos)).
    apply Permutation_refl', list_filter_iff. intros t. by rewrite overdue_isExpired.
Qed.
