(* ===== verification/Chat.v ===== *)
(** * The assistant: [components/ChatBot.tsx] and the [/v1/llm] route
    ([routes/chatbot-route.js], [controllers/llm-controller.js],
    [services/LLM-chatbot.js])

    [ChatBot] keeps the conversation in React state and, on send, posts
    the user's todos and the last five messages of the conversation to
    [/v1/llm/chat] behind [verifyToken]; the controller checks that both
    fields are arrays and calls [processConversation], which builds a
    LangChain [ChatPromptTemplate] from a system template and the
    messages and sends it to the language model.  The language model is
    the class [ChatModel] (an answer or a failure) and [JSON.stringify]
    of the todo list the class [TodoJson]; both are external.  The
    templates are LangChain's f-strings: every message text is parsed as
    a template ([fmt_go]), so [{name}] is a variable, [{{] and [}}] are
    escapes, and a lone brace is an error.  The route keeps no state, so
    it is a function of the request. *)

From S2P Require Import Prelude Runtime Crypto ObjectId UserModel TodoModel Db TodoService AuthService Session Controllers Server Client AuthClient.
From Stdlib Require Import Ascii.
Local Open Scope todo_scope.

(** ** The external services *)

Inductive chat_role := RSystem | RHuman | RAi.

#[export] Instance chat_role_eq_dec : EqDecision chat_role.
Proof. solve_decision. Defined.

(** [chain.invoke]: the model's [res.content], or a rejection (network,
    key, quota). *)
Class ChatModel := { llm_invoke : list (chat_role * string) -> option string }.

(** [JSON.stringify(todoList, null, 2)]. *)
Class TodoJson := { todos_json : list (oid * todo) -> string }.

(** ** LangChain's f-string templates

    A template is scanned left to right: [{{] and [}}] stand for one
    brace, [{name}] for the value of the variable [name] (everything up
    to the next [}]), a [{] without a [}] after it and a [}] alone are
    errors, and a variable without a value is an error when the prompt is
    formatted.  [inside] is [Some name] while the scanner is between a
    [{] and its [}]. *)

Definition brace_open : ascii := "{"%char.
Definition brace_close : ascii := "}"%char.

(** The error messages of [@langchain/core]. *)
Definition err_unclosed : string := "Unclosed '{' in template.".
Definition err_single : string := "Single '}' in template.".
Definition err_missing (name : string) : string :=
  "Missing value for input variable `" +:+ name +:+ "`".

(** The value given for a variable: [name in values]. *)
Fixpoint var_value (name : string) (vars : list (string * string)) : option string :=
  match vars with
  | [] => None
  | (k, v) :: rest => if String.eqb k name then Some v else var_value name rest
  end.

Definition sum_prefix (p : string) (r : string + string) : string + string :=
  match r with inr t => inr (p +:+ t) | inl e => inl e end.

Fixpoint fmt_go (vars : list (string * string)) (s : string) (inside : option string)
    : string + string :=
  match inside with
  | Some name =>
      match s with
      | EmptyString => inl err_unclosed
      | String c r =>
          if Ascii.eqb c brace_close then
            match var_value name vars with
            | Some v => sum_prefix v (fmt_go vars r None)
            | None => inl (err_missing name)
            end
          else fmt_go vars r (Some (name +:+ String c EmptyString))
      end
  | None =>
      match s with
      | EmptyString => inr EmptyString
      | String c r =>
          if Ascii.eqb c brace_open then
            match r with
            | String c' r' =>
                if Ascii.eqb c' brace_open then sum_prefix (String c EmptyString) (fmt_go vars r' None)
                else fmt_go vars r (Some EmptyString)
            | EmptyString => fmt_go vars r (Some EmptyString)
            end
          else if Ascii.eqb c brace_close then
            match r with
            | String c' r' =>
                if Ascii.eqb c' brace_close then sum_prefix (String c EmptyString) (fmt_go vars r' None)
                else inl err_single
            | EmptyString => inl err_single
            end
          else sum_prefix (String c EmptyString) (fmt_go vars r None)
      end
  end.

Definition fmt (vars : list (string * string)) (s : string) : string + string :=
  fmt_go vars s None.

(** A text without braces is its own template. *)
Fixpoint brace_free (s : string) : bool :=
  match s with
  | EmptyString => true
  | String c r => negb (Ascii.eqb c brace_open) && negb (Ascii.eqb c brace_close) && brace_free r
  end.

(** ** [services/LLM-chatbot.js] *)

Definition dq : string := String "034"%char EmptyString.
Definition nl : string := String "010"%char EmptyString.
Definition rsquo : string :=
  String "226"%char (String "128"%char (String "153"%char EmptyString)).

(** The system message, up to and after its one variable. *)
Definition system_pre : string :=
  "You are an AI assistant that helps users manage their time effectively by analyzing their todo list. " +:+ nl +:+
  "Your goal is to guide users on how to prioritize tasks based on urgency, due dates, and task descriptions." +:+ nl +:+ nl +:+
  "The user" +:+ rsquo +:+ "s todo list is provided as a JSON object under the variable: ".

Definition system_post : string :=
  "." +:+ nl +:+
  "Each task includes: title, description, urgency (" +:+ dq +:+ "important" +:+ dq +:+ ", " +:+
  dq +:+ "normal" +:+ dq +:+ ", " +:+ dq +:+ "not important" +:+ dq +:+
  "), due date (ISO format), and whether it is completed." +:+ nl +:+ nl +:+
  "Respond to user queries by:" +:+ nl +:+
  "- Suggesting which tasks to focus on first" +:+ nl +:+
  "- Highlighting overdue or soon-due tasks" +:+ nl +:+
  "- Helping plan realistic schedules based on priorities" +:+ nl +:+
  "- Answering UI-related queries (e.g., how to use buttons like Add, Delete, Check, Update)" +:+ nl +:+
  "- Noting color meanings: red = important, green = normal, no color = not important, red alert = overdue" +:+ nl +:+ nl +:+
  "Be polite, supportive, and concise. Assume the user wants helpful advice about their tasks or UI." +:+ nl.

Definition system_template : string :=
  system_pre +:+ "{todoListJsonString}" +:+ system_post.

(** An element of [chats]: [{ isHuman, text }]. *)
Record chat_item := mk_chat_item { isHuman : bool; text : string }.

(** [data.isHuman ? ["human", data.text] : ["ai", data.text]]. *)
Definition role_of (d : chat_item) : chat_role := if isHuman d then RHuman else RAi.

(** [prompt(chats)]: the system template, then one template per
    message. *)
Definition prompt (chats : list chat_item) : list (chat_role * string) :=
  (RSystem, system_template) :: map (fun d => (role_of d, text d)) chats.

(** The system message with the todos' JSON in place of the variable. *)
Definition system_text (json : string) : string := system_pre +:+ json +:+ system_post.

(** The prompt with its texts taken verbatim. *)
Definition prompt_text (json : string) (chats : list chat_item) : list (chat_role * string) :=
  (RSystem, system_text json) :: map (fun d => (role_of d, text d)) chats.

(** Formatting every template of the prompt, in order; the first error
    rejects. *)
Fixpoint format_messages (vars : list (string * string)) (ms : list (chat_role * string))
    : string + list (chat_role * string) :=
  match ms with
  | [] => inr []
  | (ro, t) :: rest =>
      match fmt vars t with
      | inl e => inl e
      | inr t' => match format_messages vars rest with
                  | inl e => inl e
                  | inr rest' => inr ((ro, t') :: rest')
                  end
      end
  end.

Definition err_llm : string := "The model request failed".

(** A request field is an array or some other JSON value. *)
Inductive jarray (A : Type) := JArray (l : list A) | JNotArray (v : jsval).
Arguments JArray {A} l.
Arguments JNotArray {A} v.

(** The answer: [{ data: chatbotResponse }] or [{ error }]. *)
Inductive chat_body := CData (reply : string) | CError (msg : string).

Section Service.
Context `{ChatModel} `{TodoJson}.

(** [processConversation(todoList, chats)]: the variable
    [todoListJsonString] is the list's JSON. *)
Definition processConversation (todoList : list (oid * todo)) (chats : list chat_item)
    : string + string :=
  match format_messages [("todoListJsonString", todos_json todoList)] (prompt chats) with
  | inl e => inl e
  | inr msgs => match llm_invoke msgs with Some r => inr r | None => inl err_llm end
  end.

(** ** [controllers/llm-controller.js] and the route *)

Definition chatbotMessagesProcessing (todoList : jarray (oid * todo))
    (chats : jarray chat_item) : chat_body :=
  match todoList, chats with
  | JArray tl, JArray cs =>
      match processConversation tl cs with
      | inr r => CData r
      | inl _ => CError "Internal server error"
      end
  | _, _ => CError "Invalid format: todoList and chats must be arrays"
  end.

(** [chatBotRouter.post("/chat", verifyToken, chatbotMessagesProcessing)]
    mounted at [/v1/llm]. *)
Definition chat_route `{Jwt} (env_secret : option string) (auth : option string)
    (todoList : jarray (oid * todo)) (chats : jarray chat_item) : chat_body :=
  match verifyToken (JWT_SECRET env_secret) auth with
  | None => CError "Unauthorized"
  | Some _ => chatbotMessagesProcessing todoList chats
  end.
End Service.

(** ** [components/ChatBot.tsx] *)

(** A message of the conversation: [{ text, isBot }]. *)
Record chat_msg := mk_chat_msg { m_text : string; isBot : bool }.

(** The component's state: [messages], [input] and [loading]
    ([isOpen] only shows the window). *)
Record chat_state := mk_chat_state {
  messages : list chat_msg;
  input : string;
  loading : bool
}.

Definition greeting : chat_msg :=
  mk_chat_msg "Hi! I'm your TaskFlow assistant. How can I help you today?" true.

Definition chat_init : chat_state := mk_chat_state [greeting] EmptyString false.

(** What the window renders: each message as a bubble on the bot's or
    the user's side, and the "Typing..." bubble while [loading]. *)
Inductive bubble_side := BotSide | UserSide.

Definition chat_view (st : chat_state) : list (bubble_side * string) * bool :=
  (map (fun m => (if isBot m then BotSide else UserSide, m_text m)) (messages st), loading st).

Definition reply_fallback : string := "Sorry, cannot process that.".
Definition reply_unreachable : string := "Error: Unable to reach server.".

(** [Array.prototype.slice(-n)]: the last [n] elements. *)
Definition slice_last {A} (n : nat) (l : list A) : list A := drop (length l - n) l.

(** [{ isHuman: !msg.isBot, text: msg.text }]. *)
Definition to_item (m : chat_msg) : chat_item := mk_chat_item (negb (isBot m)) (m_text m).

(** The [chats] of the request: the conversation so far and the new
    message, of which the last five. *)
Definition chat_request (msgs : list chat_msg) (userMessage : string) : list chat_item :=
  slice_last 5 (map to_item msgs ++ [mk_chat_item true userMessage]).

(** What the assistant is meant to see of a conversation: the system
    message with the todos, then the last five messages of the history
    and the new question, the bot's as [ai] and the user's as [human],
    verbatim. *)
Definition last_n {A} (n : nat) (l : list A) : list A := rev (take n (rev l)).

Definition msg_role (m : chat_msg) : chat_role := if isBot m then RAi else RHuman.

Definition conversation (json : string) (history : list chat_msg) (question : string)
    : list (chat_role * string) :=
  (RSystem, system_text json) ::
  map (fun m => (msg_role m, m_text m)) (last_n 5 (history ++ [mk_chat_msg question false])).

(** [json?.data || "Sorry, cannot process that."]. *)
Definition reply_of (b : chat_body) : string :=
  match b with
  | CData r => if String.eqb r EmptyString then reply_fallback else r
  | CError _ => reply_fallback
  end.

(** A request in flight: the session and todos of the render that sent
    it and its [chats]. *)
Record inflight := mk_inflight {
  if_user : AuthProvider.cuser;
  if_todos : list (oid * todo);
  if_chats : list chat_item
}.

Section Client.
Context `{ChatModel} `{TodoJson} `{Jwt}.
Context (env_secret : option string).

(** [handleSendMessage] up to its [await]: a blank input does nothing;
    otherwise the trimmed input is appended, the input cleared and
    [loading] set, and the request leaves with the conversation of the
    render ([messages] of the closure).  On a signed-out session
    [user.token] throws a [TypeError] before the [await], and the
    [catch] and [finally] run at once. *)
Definition send_start (a : AuthProvider.astate) (todos : list (oid * todo))
    (st : chat_state) : option (chat_state * option inflight) :=
  if String.eqb (js_trim (input st)) EmptyString then None
  else
    let userMessage := js_trim (input st) in
    let msgs := messages st ++ [mk_chat_msg userMessage false] in
    match AuthProvider.as_user a with
    | None =>
        Some (mk_chat_state (msgs ++ [mk_chat_msg reply_unreachable true]) EmptyString false, None)
    | Some u =>
        Some (mk_chat_state msgs EmptyString true,
              Some (mk_inflight u todos (chat_request (messages st) userMessage)))
    end.

(** What the server answers to a request in flight. *)
Definition answer (f : inflight) : string :=
  reply_of (chat_route env_secret (Some (bearer_prefix +:+ AuthProvider.cu_token (if_user f)))
              (JArray (if_todos f)) (JArray (if_chats f))).

(** After the [await]: the answer is appended to the messages of that
    moment ([setMessages(prev => ...)]) and [finally] clears
    [loading]. *)
Definition send_finish (st : chat_state) (f : inflight) : chat_state :=
  mk_chat_state (messages st ++ [mk_chat_msg (answer f) true]) (input st) false.

(** One send run to its end before anything else happens. *)
Definition handleSendMessage (a : AuthProvider.astate) (todos : list (oid * todo))
    (st : chat_state) : chat_state :=
  match send_start a todos st with
  | None => st
  | Some (st', None) => st'
  | Some (st', Some f) => send_finish st' f
  end.

(** The component with its requests in flight.  The send button is not
    disabled while [loading], so requests overlap and their answers
    arrive in any order. *)
Inductive chat_step : chat_state * list inflight -> chat_state * list inflight -> Prop :=
| chat_typed st fl s :
    chat_step (st, fl) (mk_chat_state (messages st) s (loading st), fl)
| chat_send_done st fl a todos st' :
    send_start a todos st = Some (st', None) -> chat_step (st, fl) (st', fl)
| chat_send_wait st fl a todos st' f :
    send_start a todos st = Some (st', Some f) -> chat_step (st, fl) (st', fl ++ [f])
| chat_answer st fl i f :
    fl !! i = Some f -> chat_step (st, fl) (send_finish st f, delete i fl).
End Client.

(** ** Lemmas on templates *)

(** [String.append] does not unfold by [simpl] under stdpp; its
    equations are stated here. *)
Lemma string_app_cons x (a b : string) : String x a +:+ b = String x (a +:+ b).
Proof. reflexivity. Qed.

Lemma string_app_assoc (a b c : string) : a +:+ (b +:+ c) = (a +:+ b) +:+ c.
Proof. induction a as [|x a IH]; [done|]. by rewrite !string_app_cons, IH. Qed.

Lemma string_app_nil_r (a : string) : a +:+ EmptyString = a.
Proof. induction a as [|x a IH]; [done|]. by rewrite string_app_cons, IH. Qed.

Lemma sum_prefix_app p q r : sum_prefix p (sum_prefix q r) = sum_prefix (p +:+ q) r.
Proof. destruct r; simpl; [done|]. by rewrite string_app_assoc. Qed.

Lemma brace_free_cons c s :
  brace_free (String c s) = true <->
  Ascii.eqb c brace_open = false /\ Ascii.eqb c brace_close = false /\ brace_free s = true.
Proof.
  simpl. rewrite !andb_true_iff, !negb_true_iff. tauto.
Qed.

(** A brace-free prefix is copied as it is. *)
Lemma fmt_go_brace_free vars p s :
  brace_free p = true -> fmt_go vars (p +:+ s) None = sum_prefix p (fmt_go vars s None).
Proof.
  induction p as [|c p IH]; intros Hb.
  - change (EmptyString +:+ s) with s. by destruct (fmt_go vars s None).
  - apply brace_free_cons in Hb as (Ho & Hc & Hp).
    rewrite string_app_cons. cbn [fmt_go]. rewrite Ho, Hc, IH by done.
    by rewrite sum_prefix_app.
Qed.

Lemma fmt_brace_free vars s : brace_free s = true -> fmt vars s = inr s.
Proof.
  intros Hb. unfold fmt. rewrite <- (string_app_nil_r s) at 1.
  rewrite fmt_go_brace_free by done. simpl. by rewrite string_app_nil_r.
Qed.

(** Between a [{] and its [}] the scanner collects the name. *)
Lemma fmt_go_inside vars acc name s :
  brace_free name = true ->
  fmt_go vars (name +:+ String brace_close s) (Some acc) =
  match var_value (acc +:+ name) vars with
  | Some v => sum_prefix v (fmt_go vars s None)
  | None => inl (err_missing (acc +:+ name))
  end.
Proof.
  revert acc. induction name as [|c name IH]; intros acc Hb.
  - change (EmptyString +:+ String brace_close s) with (String brace_close s).
    cbn [fmt_go]. by rewrite Ascii.eqb_refl, string_app_nil_r.
  - apply brace_free_cons in Hb as (_ & Hc & Hn).
    rewrite string_app_cons. cbn [fmt_go]. rewrite Hc, IH by done.
    by rewrite <- string_app_assoc.
Qed.

(** A variable [{name}] with a value is replaced by it. *)
Lemma fmt_go_var vars c name s v :
  Ascii.eqb c brace_open = false -> brace_free (String c name) = true ->
  var_value (String c name) vars = Some v ->
  fmt_go vars (String brace_open (String c name +:+ String brace_close s)) None
  = sum_prefix v (fmt_go vars s None).
Proof.
  intros Ho Hb Hv. pose proof Hb as Hb'. apply brace_free_cons in Hb' as (_ & Hc & Hn).
  rewrite string_app_cons. cbn [fmt_go]. rewrite Ascii.eqb_refl, Ho, Hc. cbv iota.
  rewrite fmt_go_inside by done.
  change ((EmptyString +:+ String c EmptyString) +:+ name) with (String c name).
  by rewrite Hv.
Qed.

(** The system template has the one variable [todoListJsonString]. *)
Lemma fmt_system json :
  fmt [("todoListJsonString", json)] system_template = inr (system_text json).
Proof.
  unfold fmt, system_text.
  change system_template with
    (system_pre +:+ String brace_open (String "t" "odoListJsonString"
                                       +:+ String brace_close system_post)).
  rewrite fmt_go_brace_free, (fmt_go_var _ _ _ _ json) by (vm_compute; reflexivity).
  pose proof (fmt_brace_free [("todoListJsonString", json)] system_post) as Hp.
  unfold fmt in Hp. rewrite Hp by (vm_compute; reflexivity). done.
Qed.

Lemma format_messages_brace_free vars cs :
  Forall (fun d => brace_free (text d) = true) cs ->
  format_messages vars (map (fun d => (role_of d, text d)) cs)
  = inr (map (fun d => (role_of d, text d)) cs).
Proof.
  induction 1 as [|d cs Hd _ IH]; [done|]. cbn [map format_messages].
  by rewrite fmt_brace_free, IH.
Qed.

Lemma format_messages_error vars ms ro t e :
  (ro, t) ∈ ms -> fmt vars t = inl e -> exists e', format_messages vars ms = inl e'.
Proof.
  intros Hin Ht. induction ms as [|[ro' t'] ms IH]; [by apply not_elem_of_nil in Hin|].
  simpl. apply elem_of_cons in Hin as [[= -> ->]|Hin]; [rewrite Ht; eauto|].
  destruct (fmt vars t'); [eauto|]. destruct IH as [e' ->]; eauto.
Qed.

Section ServiceLemmas.
Context `{ChatModel} `{TodoJson}.

Lemma process_brace_free tl cs :
  Forall (fun d => brace_free (text d) = true) cs ->
  processConversation tl cs =
    match llm_invoke (prompt_text (todos_json tl) cs) with
    | Some r => inr r | None => inl err_llm end.
Proof.
  intros Hcs. unfold processConversation, prompt. cbn [format_messages].
  by rewrite fmt_system, format_messages_brace_free.
Qed.

Lemma process_template_error tl cs d e :
  d ∈ cs -> fmt [("todoListJsonString", todos_json tl)] (text d) = inl e ->
  exists e', processConversation tl cs = inl e'.
Proof.
  intros Hd He. unfold processConversation.
  destruct (format_messages_error [("todoListJsonString", todos_json tl)] (prompt cs)
              (role_of d) (text d) e) as [e' ->]; [|done|eauto].
  apply elem_of_cons. right. apply list_elem_of_fmap. eauto.
Qed.
End ServiceLemmas.

(** ** The component *)

(** The messages a send appends: the question, then the answer. *)
Definition exchange (userMessage reply : string) : list chat_msg :=
  [mk_chat_msg userMessage false; mk_chat_msg reply true].

Lemma slice_last_map {A B} (f : A -> B) n l : slice_last n (map f l) = map f (slice_last n l).
Proof. unfold slice_last. by rewrite length_map, skipn_map. Qed.

Lemma slice_last_last_n {A} n (l : list A) : slice_last n l = last_n n l.
Proof. unfold slice_last, last_n. by rewrite firstn_rev, rev_involutive. Qed.

(** The request holds the last five messages. *)
Lemma chat_request_last h um :
  chat_request h um = map to_item (last_n 5 (h ++ [mk_chat_msg um false])).
Proof.
  unfold chat_request. rewrite <- slice_last_last_n, <- slice_last_map, map_app. done.
Qed.

Lemma prompt_text_request json h um :
  prompt_text json (chat_request h um) = conversation json h um.
Proof.
  unfold prompt_text, conversation. rewrite chat_request_last, map_map. f_equal.
  apply map_ext. intros [t b]. by destruct b.
Qed.

Lemma chat_request_free h um :
  Forall (fun m => brace_free (m_text m) = true) (last_n 5 (h ++ [mk_chat_msg um false])) ->
  Forall (fun d => brace_free (text d) = true) (chat_request h um).
Proof. rewrite chat_request_last, Forall_map. done. Qed.

Lemma chat_request_elem h um m :
  m ∈ last_n 5 (h ++ [mk_chat_msg um false]) -> to_item m ∈ chat_request h um.
Proof. rewrite chat_request_last. apply list_elem_of_fmap_2. Qed.

Section ClientLemmas.
Context `{ChatModel} `{TodoJson} `{Jwt}.
Context (env_secret : option string).

Lemma handleSendMessage_exchange a todos st :
  js_trim (input st) <> "" ->
  handleSendMessage env_secret a todos st =
    mk_chat_state (messages st ++ exchange (js_trim (input st))
      (match AuthProvider.as_user a with
       | None => reply_unreachable
       | Some u => answer env_secret (mk_inflight u todos
                     (chat_request (messages st) (js_trim (input st))))
       end)) EmptyString false.
Proof.
  intros Hin. unfold handleSendMessage, send_start.
  apply String.eqb_neq in Hin as ->.
  destruct (AuthProvider.as_user a); unfold send_finish; cbn [messages input];
    by rewrite <- app_assoc.
Qed.

Lemma answer_template_error u todos cs d e :
  d ∈ cs -> fmt [("todoListJsonString", todos_json todos)] (text d) = inl e ->
  answer env_secret (mk_inflight u todos cs) = reply_fallback.
Proof.
  intros Hd He. unfold answer, chat_route. cbn [if_user if_todos if_chats].
  destruct (verifyToken _ _); [|done]. unfold chatbotMessagesProcessing.
  destruct (process_template_error todos cs d e Hd He) as [e' ->]. done.
Qed.
End ClientLemmas.

(** The configuration after one send or one answer, for runs. *)
Definition send_next (a : AuthProvider.astate) (todos : list (oid * todo))
    (c : chat_state * list inflight) : chat_state * list inflight :=
  match send_start a todos c.1 with
  | Some (st', None) => (st', c.2)
  | Some (st', Some f) => (st', c.2 ++ [f])
  | None => c
  end.

Definition answer_next `{ChatModel} `{TodoJson} `{Jwt} (env_secret : option string) (i : nat)
    (c : chat_state * list inflight) : chat_state * list inflight :=
  match c.2 !! i with
  | Some f => (send_finish env_secret c.1 f, delete i c.2)
  | None => c
  end.

Section Runs.
Context `{ChatModel} `{TodoJson} `{Jwt}.
Context (env_secret : option string).

Lemma send_next_step a todos c :
  is_Some (send_start a todos c.1) -> chat_step env_secret c (send_next a todos c).
Proof.
  destruct c as [st fl]. unfold send_next. cbn [fst snd].
  intros [[st' [f|]] Hs]; rewrite Hs; [by eapply chat_send_wait|by eapply chat_send_done].
Qed.

Lemma answer_next_step i c :
  is_Some (c.2 !! i) -> chat_step env_secret c (answer_next env_secret i c).
Proof.
  destruct c as [st fl]. unfold answer_next. cbn [fst snd].
  intros [f Hf]. rewrite Hf. by apply chat_answer.
Qed.
End Runs.

(** The component's invariant: the greeting comes first, every question
    is a trimmed non-blank text, and every question has its one answer
    or a request in flight. *)
Definition count_bot (l : list chat_msg) : nat := length (filter (fun m => isBot m = true) l).
Definition count_user (l : list chat_msg) : nat := length (filter (fun m => isBot m = false) l).

Definition chat_wf (c : chat_state * list inflight) : Prop :=
  head (messages c.1) = Some greeting /\
  count_user (messages c.1) + 1 = count_bot (messages c.1) + length c.2 /\
  Forall (fun m => isBot m = false -> m_text m <> "" /\ js_trim (m_text m) = m_text m)
    (messages c.1).

Lemma head_app_some {A} (l k : list A) x : head l = Some x -> head (l ++ k) = Some x.
Proof. by destruct l. Qed.

Lemma count_app_msg l m :
  count_user (l ++ [m]) = count_user l + (if isBot m then 0 else 1) /\
  count_bot (l ++ [m]) = count_bot l + (if isBot m then 1 else 0).
Proof.
  unfold count_user, count_bot. rewrite !filter_app, !length_app, !filter_cons, !filter_nil.
  destruct (isBot m); repeat case_decide; try congruence; simpl; lia.
Qed.

Section ChatProps.
Context `{ChatModel} `{TodoJson} `{Jwt}.
Context (env_secret : option string).

Lemma send_start_msgs a todos st st' fo :
  send_start a todos st = Some (st', fo) ->
  exists um, um <> "" /\ js_trim um = um /\
    messages st' = messages st ++ [mk_chat_msg um false] ++
      match fo with None => [mk_chat_msg reply_unreachable true] | Some _ => [] end.
Proof.
  unfold send_start. destruct (String.eqb_spec (js_trim (input st)) "") as [|Hin]; [done|].
  intros Hs. exists (js_trim (input st)). rewrite js_trim_idem.
  destruct (AuthProvider.as_user a); injection Hs as <- <-; cbn [messages];
    rewrite ?app_nil_r, ?app_assoc; done.
Qed.

(** C4: whatever the session, the todos and the order in which answers
    arrive, the conversation starts with the greeting, every question
    shown is a trimmed non-blank text, and the questions are exactly
    the answers shown but the greeting plus the requests in flight:
    every send gets one answer, none is lost or doubled. *)
Theorem chat_reachable_wf c :
  rtc (chat_step env_secret) (chat_init, []) c -> chat_wf c.
Proof.
  intros Hr. cut (forall x y, rtc (chat_step env_secret) x y -> chat_wf x -> chat_wf y).
  { intros Hc. apply (Hc _ _ Hr). split; [done|]. split; [done|]. by repeat constructor. }
  clear. intros x y Hr. induction Hr as [x|x z y Hs _ IH]; [done|].
  intros Hx. apply IH. clear IH y.
  destruct Hx as (Hh & Hcnt & Hf).
  inversion Hs as [st fl s|st fl a todos st' Hst|st fl a todos st' f Hst|st fl i f Hi];
    subst; unfold chat_wf; cbn [fst snd] in *.
  - done.
  - apply send_start_msgs in Hst as (um & Hne & Htr & ->).
    destruct (count_app_msg (messages st ++ [mk_chat_msg um false])
                (mk_chat_msg reply_unreachable true)) as [Hu2 Hb2].
    destruct (count_app_msg (messages st) (mk_chat_msg um false)) as [Hu1 Hb1].
    rewrite app_assoc. split; [by do 2 apply head_app_some|]. split.
    + rewrite Hu2, Hb2, Hu1, Hb1. cbn. lia.
    + apply Forall_app. split; [apply Forall_app; split; [done|]|]; repeat constructor; done.
  - apply send_start_msgs in Hst as (um & Hne & Htr & ->).
    destruct (count_app_msg (messages st) (mk_chat_msg um false)) as [Hu1 Hb1].
    rewrite app_nil_r. split; [by apply head_app_some|]. split.
    + rewrite Hu1, Hb1, length_app. cbn. lia.
    + apply Forall_app. split; [done|]. by repeat constructor.
  - unfold send_finish. cbn [messages].
    destruct (count_app_msg (messages st) (mk_chat_msg (answer env_secret f) true)) as [Hu Hb].
    split; [by apply head_app_some|]. split.
    + rewrite Hu, Hb, length_delete by eauto. cbn.
      apply lookup_lt_Some in Hi. lia.
    + apply Forall_app. split; [done|]. constructor; [|done]. cbn. discriminate.
Qed.

(** C15: a send refines the conversation it is meant to have: signed in
    with a token the server accepts, and with messages that are plain
    text, the model receives the system message with the todos' JSON in
    place of its variable followed by the last five messages of the
    history and the new question, the bot's as [ai] and the user's as
    [human] ([conversation]); the conversation then shows the trimmed
    question followed by the model's answer. *)
Theorem chat_send_refines a todos st u c r :
  let um := js_trim (input st) in
  AuthProvider.as_user a = Some u ->
  verifyToken (JWT_SECRET env_secret) (Some (bearer_prefix +:+ AuthProvider.cu_token u)) = Some c ->
  um <> "" ->
  Forall (fun m => brace_free (m_text m) = true) (last_n 5 (messages st ++ [mk_chat_msg um false])) ->
  llm_invoke (conversation (todos_json todos) (messages st) um) = Some r ->
  r <> "" ->
  handleSendMessage env_secret a todos st =
    mk_chat_state (messages st ++ exchange um r) "" false.
Proof.
  intros um Hu Hc Hin Hfree Hllm Hr. unfold um in *.
  rewrite handleSendMessage_exchange, Hu by done. do 3 f_equal.
  unfold answer, chat_route. cbn [if_user if_todos if_chats]. rewrite Hc.
  unfold chatbotMessagesProcessing.
  rewrite process_brace_free by (by apply chat_request_free).
  rewrite prompt_text_request, Hllm. cbn. by apply String.eqb_neq in Hr as ->.
Qed.

(** C16: every failure is shown as an answer: a send signed out shows
    "Error: Unable to reach server."; signed in, a message among the
    last five that LangChain cannot format (a lone brace, or [{name}]
    for any name but [todoListJsonString]) or a model that fails or
    answers nothing shows "Sorry, cannot process that.", the same text
    a refused token gets.  A question with a brace thus also spoils the
    next four questions, while it is among the last five messages. *)
Theorem chat_errors_shown a todos st :
  js_trim (input st) <> "" ->
  let um := js_trim (input st) in
  let window := last_n 5 (messages st ++ [mk_chat_msg um false]) in
  (AuthProvider.as_user a = None ->
   handleSendMessage env_secret a todos st =
     mk_chat_state (messages st ++ exchange um reply_unreachable) "" false) /\
  (AuthProvider.as_user a <> None ->
   (exists m e, m ∈ window /\ fmt [("todoListJsonString", todos_json todos)] (m_text m) = inl e) \/
   (Forall (fun m => brace_free (m_text m) = true) window /\
    llm_invoke (conversation (todos_json todos) (messages st) um) ∈ [None; Some ""]) ->
   handleSendMessage env_secret a todos st =
     mk_chat_state (messages st ++ exchange um reply_fallback) "" false).
Proof.
  intros Hin um window. unfold window, um in *. split.
  - intros Hnone. by rewrite handleSendMessage_exchange, Hnone.
  - intros Hsome Hfail. rewrite handleSendMessage_exchange by done.
    destruct (AuthProvider.as_user a) as [u|]; [|done]. do 3 f_equal.
    destruct Hfail as [(m & e & Hm & He)|[Hfree Hllm]].
    + apply (answer_template_error env_secret u todos _ (to_item m) e); [|done].
      by apply chat_request_elem.
    + unfold answer, chat_route. cbn [if_user if_todos if_chats].
      destruct (verifyToken _ _); [|done]. unfold chatbotMessagesProcessing.
      rewrite process_brace_free by (by apply chat_request_free).
      rewrite prompt_text_request.
      apply elem_of_cons in Hllm as [->|Hllm]; [done|].
      apply list_elem_of_singleton in Hllm as ->. done.
Qed.
End ChatProps.
