(* ===== verification/TodoListView.v ===== *)
(** * The list on the dashboard: [components/TodoList.tsx] as a view

    [TodoList] renders nothing but an empty-state panel when the
    provider's list is empty, and otherwise one row per todo of
    [sortedTodos] ([TodoList]): its classes, the checkbox, the title
    struck through when completed, the description when it is truthy,
    the warning icon when expired and the urgency badge.  Its one piece
    of state is [editingTodo], the todo whose [TodoEditForm] is open.
    A row's checkbox calls [toggleTodo(todo.id)], its trash button
    [deleteTodo(todo.id)], its pencil opens the dialog on the row's todo,
    and the dialog submits through [TodoEditForm.handleSubmit] and
    closes on success.  The theorem of the file is the round trip of
    the edit dialog: opening it on a stored todo and saving without a
    change stores the same todo, only [updatedAt] moving. *)

From S2P Require Import Prelude Runtime Crypto ObjectId UserModel TodoModel Db TodoService AuthService Session Controllers Server Client AuthClient TodoList Forms.
Local Open Scope todo_scope.

(** ** Rows *)

(** What a row shows. *)
Record row := mk_row {
  row_id : oid;
  row_classes : list string;
  row_checked : bool;
  row_title : string;
  row_struck : bool;
  row_description : option string;
  row_expired : bool;
  row_badge : string;
  row_urgency : option string
}.

(** [cn("...", getUrgencyColor(todo.urgency), { "task-expired": expired,
    "task-completed": todo.completed, "opacity-75": todo.completed })];
    [getUrgencyColor(null)] takes the [default] of its [switch], as [""]
    does. *)
Definition row_classes_of (expired completed : bool) (u : option string) : list string :=
  getUrgencyColor (default "" u) ::
  (if expired then ["task-expired"] else []) ++
  (if completed then ["task-completed"; "opacity-75"] else []).

Definition row_of (now : Z) (t : oid * todo) : row :=
  let d := t.2 in
  let expired := isExpired (t_dueDate d) (t_completed d) now in
  mk_row t.1 (row_classes_of expired (t_completed d) (t_urgency d)) (t_completed d)
    (t_title d) (t_completed d)
    (if truthy (JStr (t_description d)) then Some (t_description d) else None)
    expired (getUrgencyBadge (default "" (t_urgency d))) (t_urgency d).

(** [editingTodo] and the fields of the [TodoEditForm] mounted for it
    (initialised from the todo when it mounts).  The dialog would be
    unmounted if the list became empty while it is open, but the list
    only changes through the actions of this page, which the modal
    dialog covers. *)
Record editing := mk_editing { ed_todo : oid * todo; ed_form : edit_form }.

(** The rendered list: the empty state, or the rows and the open
    dialog. *)
Inductive list_view :=
| ViewEmpty
| ViewRows (rows : list row) (dialog : option edit_form).

Definition todoList_view (todos : list (oid * todo)) (ed : option editing)
    (now : Z) : list_view :=
  if Nat.eqb (length todos) 0 then ViewEmpty
  else ViewRows (map (row_of now) (sortedTodos todos)) (option_map ed_form ed).

(** ** Actions *)

(** The buttons of row [k] of the sorted list, and the dialog's
    controls: its inputs, the [Select], the [Calendar], Cancel and
    submit. *)
Inductive list_action :=
| AToggle (k : nat)
| ADelete (k : nat)
| AEdit (k : nat)
| ETitle (s : string)
| EDescription (s : string)
| EUrgency (u : urgency_choice)
| EDueDate (d : option Z)
| AClose
| ASubmit.

(** A field of the open dialog changes. *)
Definition edit_field (a : list_action) (f : edit_form) : edit_form :=
  match a with
  | ETitle s => mk_edit_form s (ef_description f) (ef_urgency f) (ef_dueDate f)
  | EDescription s => mk_edit_form (ef_title f) s (ef_urgency f) (ef_dueDate f)
  | EUrgency u => mk_edit_form (ef_title f) (ef_description f) (Some (urgency_value u)) (ef_dueDate f)
  | EDueDate d => mk_edit_form (ef_title f) (ef_description f) (ef_urgency f) d
  | _ => f
  end.

Section Actions.
Context `{Bcrypt} `{Jwt} `{DateParser} `{!IsoDate}.
Context (env_secret : option string).

(** One action, with the provider's state [cs] and [editingTodo]; the
    toast the dialog shows, if any. *)
Definition list_act (a : list_action) (cs : cstate) (ed : option editing)
    : M (cstate * option editing * option toast) :=
  match a with
  | AToggle k =>
      match sortedTodos (cs_todos cs) !! k with
      | Some t => let* cs' := TodoProvider.toggleTodo env_secret (oid_to_string t.1) cs in
                  st_ret (cs', ed, None)
      | None => st_ret (cs, ed, None)
      end
  | ADelete k =>
      match sortedTodos (cs_todos cs) !! k with
      | Some t => let* cs' := TodoProvider.deleteTodo env_secret (oid_to_string t.1) cs in
                  st_ret (cs', ed, None)
      | None => st_ret (cs, ed, None)
      end
  | AEdit k =>
      st_ret (cs, option_map (fun t => mk_editing t (edit_form_init t.2))
                    (sortedTodos (cs_todos cs) !! k), None)
  | ETitle _ | EDescription _ | EUrgency _ | EDueDate _ =>
      st_ret (cs, option_map (fun e => mk_editing (ed_todo e) (edit_field a (ed_form e))) ed, None)
  | AClose => st_ret (cs, None, None)
  | ASubmit =>
      match ed with
      | Some e =>
          let* r := editForm_submit env_secret (oid_to_string (ed_todo e).1) (ed_form e) cs in
          match r.1 with
          | ToastDone _ => st_ret (r.2, None, Some r.1)
          | ToastError _ => st_ret (r.2, ed, Some r.1)
          end
      | None => st_ret (cs, None, None)
      end
  end.
End Actions.

(** ** The round trip of the edit dialog *)

Lemma oid_to_string_nonempty k : oid_to_string k <> "".
Proof.
  intros He. pose proof (hex_show_length 24 k "") as Hl.
  unfold oid_to_string in He. rewrite He in Hl. simpl in Hl. lia.
Qed.

(** The todo [d] with its [updatedAt] stamp moved to [now]. *)
Definition touched (d : todo) (now : Z) : todo :=
  mk_todo (t_title d) (t_description d) (t_urgency d) (t_dueDate d) (t_completed d)
    (t_username d) (t_createdAt d) now.

Section RoundTrip.
Context `{Bcrypt} `{Jwt} `{DateParser} `{!IsoDate}.
Context (env_secret : option string).

(** The update cast of an unchanged form. *)
Lemma cast_unchanged d u t :
  js_trim (t_title d) = t_title d -> js_trim (t_description d) = t_description d ->
  (0 <= t <= 8640000000000000)%Z ->
  todo_cast_update (mk_update (JStr (t_title d)) (JStr (t_description d)) (JStr u)
                      (JStr (toISOString t)))
  = inr (mk_patch (Some (t_title d)) (Some (t_description d)) (Some (Some u)) (Some (Some t))).
Proof.
  intros Hti Hde Ht. unfold todo_cast_update. cbn [up_title up_description up_urgency
    up_dueDate patch_string patch_urgency patch_date cast_string].
  rewrite cast_date_iso by done. by rewrite Hti, Hde.
Qed.

(** C33: opening the dialog on a stored todo of the signed-in user and saving
    it without a change stores the same todo, only [updatedAt] set to
    the clock, and the provider's list gets that todo in place: the
    form's initial values, the [trim]s of the form and of the service,
    [toISOString] and the cast of the date cancel out. *)
Theorem edit_unchanged_roundtrip cs s tok c i d u t :
  cs_token cs = Some tok ->
  verifyToken (JWT_SECRET env_secret) (auth_header tok) = Some c ->
  db_todos s !! i = Some d -> t_username d = cl_username c -> (i < 16 ^ 24)%N ->
  t_title d <> "" -> js_trim (t_title d) = t_title d ->
  js_trim (t_description d) = t_description d ->
  t_urgency d = Some u -> u <> "" ->
  t_dueDate d = Some t -> (0 <= t <= 8640000000000000)%Z ->
  editForm_submit env_secret (oid_to_string i) (edit_form_init d) cs s =
    (inr (ToastDone "Your task has been updated successfully",
          with_todos cs (on_replace (oid_to_string i)
                           (BData (PTodo i (touched d (db_clock s)))) (cs_todos cs))),
     set_todos (insert i (touched d (db_clock s))) s).
Proof.
  intros Htok Hsess Hd Hown Hi Hne Hti Hde Hu Hune Hdue Ht.
  unfold editForm_submit, edit_form_init. cbn [ef_title ef_description ef_urgency ef_dueDate].
  rewrite Hti, Hu, Hdue. apply String.eqb_neq in Hne as Ene. rewrite Ene.
  unfold TodoProvider.updateTodo, TodoProvider.client_call, st_catch.
  rewrite Htok. st_unfold. cbn [handle]. rewrite (with_user_session env_secret tok c Hsess).
  unfold TodoController.updateTodo. cbn [json_of_option].
  rewrite !truthy_nonempty by (done || apply oid_to_string_nonempty || apply toISOString_nonempty).
  cbn [negb orb]. rewrite respond_spec, updateTodoService_spec.
  cbn [call_trim trim_description]. rewrite ?Hti, !Hde.
  rewrite cast_sent_id, cast_unchanged by done.
  unfold scoped. cbv beta iota.
  lazymatch goal with
  | |- context [match ?x with Some _ => _ | None => _ end] =>
      replace x with (Some d) by (symmetry; exact Hd)
  end.
  rewrite Hown, String.eqb_refl.
  unfold todo_patch_apply, touched. cbn. by rewrite <- Hu, <- Hdue.
Qed.
End RoundTrip.
