(* ===== verification/Browser.v ===== *)
(** * One browser: the two contexts together
    ([contexts/AuthContext.tsx], [contexts/TodoContext.tsx])

    [TodoProvider] sits above the pages and reads [user] from
    [AuthProvider]; its effect on [[user]] fetches [/v1/user/todo/my]
    with the user's token whenever the [user] object changes, and on an
    answer without [error] replaces the list.  The effect neither clears
    the list when the user signs out nor ignores a fetch that answers
    after the user changed again.  [browser] holds the session, the list
    and the tokens of the fetches in flight; [br_step] is one step of
    the server, of the session (login, signup, logout, reload, the mount
    effect), of the list (an operation of the provider) or the answer of
    one fetch in flight, in any order. *)

From S2P Require Import Prelude Runtime Crypto ObjectId UserModel TodoModel Db TodoService AuthService Session Controllers Server Client AuthClient Forms.
Local Open Scope todo_scope.

#[export] Instance cuser_eq_dec : EqDecision AuthProvider.cuser.
Proof. solve_decision. Defined.

Record browser := mk_browser {
  br_auth : AuthProvider.astate;
  br_todos : list (oid * todo);     (** [todos] of [TodoProvider] *)
  br_fetches : list string          (** tokens of the fetches in flight *)
}.

(** [user?.token]. *)
Definition user_token (a : AuthProvider.astate) : option string :=
  option_map AuthProvider.cu_token (AuthProvider.as_user a).

(** The provider's state as [TodoContext] sees it. *)
Definition br_cstate (b : browser) : cstate := mk_cstate (user_token (br_auth b)) (br_todos b).

(** The effect on [[user]] after [user] changed to the one of [a]:
    [if (!user?.token) return;] or a fetch with the token. *)
Definition user_effect (a : AuthProvider.astate) (fl : list string) : list string :=
  match user_token a with Some tok => fl ++ [tok] | None => fl end.

Section Steps.
Context `{Bcrypt} `{Jwt} `{DateParser}.
Context (env_secret : option string).

Inductive br_step : db * browser -> db * browser -> Prop :=
| br_server s s' b :
    server_step env_secret s s' -> br_step (s, b) (s', b)
| br_login un pw s b r a' s' :
    AuthProvider.login env_secret un pw (br_auth b) s = (inr (r, a'), s') ->
    br_step (s, b) (s', mk_browser a' (br_todos b)
                          (if r then user_effect a' (br_fetches b) else br_fetches b))
| br_signup fn un pw s b r a' s' :
    AuthProvider.signup env_secret fn un pw (br_auth b) s = (inr (r, a'), s') ->
    br_step (s, b) (s', mk_browser a' (br_todos b)
                          (if r then user_effect a' (br_fetches b) else br_fetches b))
| br_signup_err fn un pw s b e s' :
    AuthProvider.signup env_secret fn un pw (br_auth b) s = (inl e, s') ->
    br_step (s, b) (s', b)
| br_logout s b :
    br_step (s, b) (s, mk_browser (AuthProvider.logout (br_auth b)) (br_todos b) (br_fetches b))
| br_reload s b :
    br_step (s, b) (s, mk_browser (AuthProvider.reload (br_auth b)) [] [])
| br_restore s b a' s' :
    AuthProvider.restore env_secret (br_auth b) s = (inr a', s') ->
    br_step (s, b) (s', mk_browser a' (br_todos b)
                          (if decide (AuthProvider.as_user a' = AuthProvider.as_user (br_auth b))
                           then br_fetches b else user_effect a' (br_fetches b)))
| br_fetched s b i tok cs' s' :
    br_fetches b !! i = Some tok ->
    TodoProvider.fetchTodos env_secret (mk_cstate (Some tok) (br_todos b)) s = (inr cs', s') ->
    br_step (s, b) (s', mk_browser (br_auth b) (cs_todos cs') (delete i (br_fetches b)))
| br_todo act s b cs' s' :
    run_client env_secret act (br_cstate b) s = (inr cs', s') ->
    br_step (s, b) (s', mk_browser (br_auth b) (cs_todos cs') (br_fetches b)).
End Steps.

(** ** Runs

    The state after one operation of the session or of the list, for
    concrete runs; each is a step. *)

Section Runs.
Context `{Bcrypt} `{Jwt} `{DateParser}.
Context (env_secret : option string).

Definition signup_next (fn un pw : string) (c : db * browser) : db * browser :=
  match AuthProvider.signup env_secret fn un pw (br_auth c.2) c.1 with
  | (inr (r, a'), s') =>
      (s', mk_browser a' (br_todos c.2) (if r then user_effect a' (br_fetches c.2) else br_fetches c.2))
  | (inl _, s') => (s', c.2)
  end.

Definition fetched_next (i : nat) (c : db * browser) : db * browser :=
  match br_fetches c.2 !! i with
  | Some tok =>
      match TodoProvider.fetchTodos env_secret (mk_cstate (Some tok) (br_todos c.2)) c.1 with
      | (inr cs', s') => (s', mk_browser (br_auth c.2) (cs_todos cs') (delete i (br_fetches c.2)))
      | (inl _, _) => c
      end
  | None => c
  end.

Definition todo_next (act : client_action) (c : db * browser) : db * browser :=
  match run_client env_secret act (br_cstate c.2) c.1 with
  | (inr cs', s') => (s', mk_browser (br_auth c.2) (cs_todos cs') (br_fetches c.2))
  | (inl _, _) => c
  end.

Lemma run_client_answers act cs s : exists cs' s', run_client env_secret act cs s = (inr cs', s').
Proof. destruct act; apply client_call_answers. Qed.

Lemma signup_next_step fn un pw c : br_step env_secret c (signup_next fn un pw c).
Proof.
  destruct c as [s b]. unfold signup_next. cbn [fst snd].
  destruct (AuthProvider.signup env_secret fn un pw (br_auth b) s) as [[e|[r a']] s'] eqn:E.
  - by eapply br_signup_err.
  - by eapply br_signup.
Qed.

Lemma fetched_next_step i c :
  is_Some (br_fetches c.2 !! i) -> br_step env_secret c (fetched_next i c).
Proof.
  destruct c as [s b]. unfold fetched_next. cbn [fst snd]. intros [tok Htok]. rewrite Htok.
  destruct (client_call_answers env_secret GetTodos on_fetch (mk_cstate (Some tok) (br_todos b)) s)
    as (cs' & s' & E).
  unfold TodoProvider.fetchTodos. rewrite E. by eapply br_fetched.
Qed.

Lemma todo_next_step act c : br_step env_secret c (todo_next act c).
Proof.
  destruct c as [s b]. unfold todo_next. cbn [fst snd].
  destruct (run_client_answers act (br_cstate b) s) as (cs' & s' & E). rewrite E.
  by eapply br_todo.
Qed.
End Runs.

(** ** Lists of earlier sessions *)

Section Stale.
Context `{Bcrypt} `{Jwt} `{DateParser}.
Context (env_secret : option string).

(** A fetch answers the list of the token's user, whoever is signed in
    by then. *)
Lemma fetch_with_token s tok c l :
  verifyToken (JWT_SECRET env_secret) (auth_header tok) = Some c -> cl_username c <> "" ->
  TodoProvider.fetchTodos env_secret (mk_cstate (Some tok) l) s
  = (inr (mk_cstate (Some tok) (find_all (owner_is (cl_username c)) (db_todos s))), s).
Proof.
  intros Hsess Hu. unfold TodoProvider.fetchTodos, TodoProvider.client_call, st_catch.
  cbn [cs_token]. st_unfold. by rewrite (fetch_answer env_secret tok c Hsess s Hu).
Qed.

(** C26: the list on the dashboard can be another user's.  No step that
    signs a new user in touches the list, so after a logout and a login
    the previous user's todos are shown until a fetch answers; and a
    fetch in flight answers the list of the user it was sent for, so a
    fetch of the previous session that answers last replaces the list
    with that user's todos while the new user is signed in. *)
Theorem stale_list_shown :
  (forall s b s' b',
     br_step env_secret (s, b) (s', b') ->
     user_token (br_auth b') <> user_token (br_auth b) -> user_token (br_auth b') <> None ->
     br_todos b' = br_todos b) /\
  (forall s b i tok c,
     br_fetches b !! i = Some tok ->
     verifyToken (JWT_SECRET env_secret) (auth_header tok) = Some c -> cl_username c <> "" ->
     br_step env_secret (s, b)
       (s, mk_browser (br_auth b) (find_all (owner_is (cl_username c)) (db_todos s))
             (delete i (br_fetches b)))).
Proof.
  split.
  - intros s b s' b' Hstep Hchg Hin.
    inversion Hstep; subst; cbn [br_auth br_todos] in *; done.
  - intros s b i tok c Hi Hsess Hu.
    apply (br_fetched env_secret s b i tok
             (mk_cstate (Some tok) (find_all (owner_is (cl_username c)) (db_todos s))) s);
      [done|]. by apply fetch_with_token.
Qed.
End Stale.
