(* ===== verification/Pages.v ===== *)
(** * The pages and their controls ([pages/Index.tsx],
    [components/Dashboard.tsx], [TodoForm.tsx], [Header.tsx],
    [SignupPage.tsx])

    The state a component keeps in [useState] and the events of its
    controls: [Dashboard] holds [showTodoForm] and, through the always
    mounted [TodoForm] (which renders [null] when closed), the draft of
    the form; [Header] holds [showUserMenu]; [SignupPage] its fields,
    [showPassword] and [loading]; [Index] the [authMode].  A submit runs
    the handler of [Forms] to its end.  [Index] mounts the dashboard
    when a user is signed in and the page of [authMode] otherwise; a
    component that is unmounted loses its state, so [app_mount] resets
    the state of every component the new page does not show. *)

From S2P Require Import Prelude Runtime Crypto ObjectId UserModel TodoModel Db TodoService AuthService Session Controllers Server Client AuthClient TodoList Forms TodoListView.
Local Open Scope todo_scope.

(** ** [Dashboard] and [TodoForm] *)

Record dashboard := mk_dashboard {
  showTodoForm : bool;
  draft : todo_form          (** [TodoForm]'s fields *)
}.

Definition dashboard_init : dashboard := mk_dashboard false todo_form_init.

(** The controls: the "Add Task" button, the form's inputs ([onChange],
    [onValueChange] of the [Select], [onSelect] of the [Calendar], which
    deselects a day picked again), its Cancel and close buttons, and
    its submit. *)
Inductive dashboard_event :=
| DAddTask
| DTitle (s : string)
| DDescription (s : string)
| DUrgency (u : urgency_choice)
| DDueDate (d : option Z)
| DClose
| DSubmit.

Definition set_draft (f : todo_form) (d : dashboard) : dashboard := mk_dashboard (showTodoForm d) f.

Section Dashboard.
Context `{Bcrypt} `{Jwt} `{DateParser} `{!IsoDate}.
Context (env_secret : option string).

(** One event; the form's controls exist only while it is open
    ([if (!isOpen) return null]).  [onClose] hides the form and keeps
    the draft; a submit the form accepts resets it and closes. *)
Definition dashboard_handle (ev : dashboard_event) (d : dashboard) (cs : cstate)
    : M (dashboard * cstate * option toast) :=
  match ev with
  | DAddTask => st_ret (mk_dashboard true (draft d), cs, None)
  | _ =>
    if negb (showTodoForm d) then st_ret (d, cs, None)
    else
      let f := draft d in
      match ev with
      | DTitle s => st_ret (set_draft (mk_todo_form s (tf_description f) (tf_urgency f) (tf_dueDate f)) d, cs, None)
      | DDescription s => st_ret (set_draft (mk_todo_form (tf_title f) s (tf_urgency f) (tf_dueDate f)) d, cs, None)
      | DUrgency u => st_ret (set_draft (mk_todo_form (tf_title f) (tf_description f) u (tf_dueDate f)) d, cs, None)
      | DDueDate t => st_ret (set_draft (mk_todo_form (tf_title f) (tf_description f) (tf_urgency f) t) d, cs, None)
      | DClose => st_ret (mk_dashboard false f, cs, None)
      | DSubmit =>
          let* r := todoForm_submit env_secret f cs in
          match r with
          | (ToastDone m, f', cs') => st_ret (mk_dashboard false f', cs', Some (ToastDone m))
          | (t, f', cs') => st_ret (mk_dashboard true f', cs', Some t)
          end
      | DAddTask => st_ret (d, cs, None)
      end
  end.
End Dashboard.

(** What the dashboard renders: the three counters, the list (with its
    dialog) and whether the form is open. *)
Record dashboard_view := mk_dashboard_view {
  dv_completed : nat;
  dv_pending : nat;
  dv_overdue : nat;
  dv_list : list_view;
  dv_form_open : bool
}.

Definition render_dashboard (d : dashboard) (todos : list (oid * todo)) (ed : option editing)
    (now : Z) : dashboard_view :=
  mk_dashboard_view (completedTasks todos) (pendingTasks todos) (overdueTasks todos now)
    (todoList_view todos ed now) (showTodoForm d).

(** ** [Header] *)

Inductive header_event := HMenu | HLogout.

(** [setShowUserMenu(!showUserMenu)], and [handleLogout]: the session's
    [logout], then the menu closes. *)
Definition header_handle (ev : header_event) (menu : bool) (a : AuthProvider.astate)
    : bool * AuthProvider.astate :=
  match ev with
  | HMenu => (negb menu, a)
  | HLogout => (false, handleLogout a)
  end.

(** The names the header shows: [user?.fullname] on the button and, in
    the open menu, the full name and [@username]. *)
Definition header_names (menu : bool) (a : AuthProvider.astate) : list string :=
  match AuthProvider.as_user a with
  | Some u => AuthProvider.cu_fullname u ::
              (if menu then [AuthProvider.cu_fullname u; "@" +:+ AuthProvider.cu_username u] else [])
  | None => if menu then [""; "@"] else [""]
  end.

(** ** [SignupPage] *)

Record signup_page := mk_signup_page {
  sp_fullName : string;
  sp_username : string;
  sp_password : string;
  sp_showPassword : bool;
  sp_loading : bool
}.

Definition signup_page_init : signup_page := mk_signup_page "" "" "" false false.

Inductive signup_event :=
| SFullName (s : string)
| SUsername (s : string)
| SPassword (s : string)
| SShowPassword
| SSubmit.

(** [type={showPassword ? 'text' : 'password'}]. *)
Definition password_input_type (p : signup_page) : string :=
  if sp_showPassword p then "text" else "password".

Section Signup.
Context `{Bcrypt} `{Jwt} `{DateParser}.
Context (env_secret : option string).

(** One event: the inputs are [disabled={loading}]; a submit sets
    [loading], awaits the page's handler and clears [loading] in
    [finally]; the page keeps what was typed. *)
Definition signup_handle (ev : signup_event) (p : signup_page) (a : AuthProvider.astate)
    : M (signup_page * AuthProvider.astate * option toast) :=
  if sp_loading p then st_ret (p, a, None)
  else match ev with
  | SFullName s => st_ret (mk_signup_page s (sp_username p) (sp_password p) (sp_showPassword p) false, a, None)
  | SUsername s => st_ret (mk_signup_page (sp_fullName p) s (sp_password p) (sp_showPassword p) false, a, None)
  | SPassword s => st_ret (mk_signup_page (sp_fullName p) (sp_username p) s (sp_showPassword p) false, a, None)
  | SShowPassword => st_ret (mk_signup_page (sp_fullName p) (sp_username p) (sp_password p) (negb (sp_showPassword p)) false, a, None)
  | SSubmit =>
      let* r := signupPage_submit env_secret (sp_fullName p) (sp_username p) (sp_password p) a in
      st_ret (p, r.2, Some r.1)
  end.
End Signup.

(** ** [Index]: which components are mounted *)

Record app := mk_app {
  app_auth : AuthProvider.astate;
  app_mode : auth_mode;
  app_dashboard : dashboard;
  app_menu : bool;
  app_signup : signup_page
}.

(** The state of the components the shown page does not mount is
    their initial state: the dashboard and the header under a signed-in
    user, the signup page under [authMode = 'signup'] otherwise. *)
Definition app_mount (x : app) : app :=
  match index_page (app_auth x) (app_mode x) with
  | PageDashboard => mk_app (app_auth x) (app_mode x) (app_dashboard x) (app_menu x) signup_page_init
  | PageSignup => mk_app (app_auth x) (app_mode x) dashboard_init false (app_signup x)
  | PageLogin => mk_app (app_auth x) (app_mode x) dashboard_init false signup_page_init
  end.

(** The events of the shown page. *)
Inductive app_event :=
| EvDashboard (ev : dashboard_event)
| EvHeader (ev : header_event)
| EvSignup (ev : signup_event)
| EvSwitch.                       (** [onSwitchToSignup] / [onSwitchToLogin] *)

Section App.
Context `{Bcrypt} `{Jwt} `{DateParser} `{!IsoDate}.
Context (env_secret : option string).

Definition app_handle (ev : app_event) (x : app) (cs : cstate) : M (app * cstate) :=
  match index_page (app_auth x) (app_mode x), ev with
  | PageDashboard, EvDashboard e =>
      let* r := dashboard_handle env_secret e (app_dashboard x) cs in
      st_ret (app_mount (mk_app (app_auth x) (app_mode x) r.1.1 (app_menu x) (app_signup x)), r.1.2)
  | PageDashboard, EvHeader e =>
      let r := header_handle e (app_menu x) (app_auth x) in
      st_ret (app_mount (mk_app r.2 (app_mode x) (app_dashboard x) r.1 (app_signup x)), cs)
  | PageSignup, EvSignup e =>
      let* r := signup_handle env_secret e (app_signup x) (app_auth x) in
      st_ret (app_mount (mk_app r.1.2 (app_mode x) (app_dashboard x) (app_menu x) r.1.1), cs)
  | PageSignup, EvSwitch =>
      st_ret (app_mount (mk_app (app_auth x) ModeLogin (app_dashboard x) (app_menu x) (app_signup x)), cs)
  | PageLogin, EvSwitch =>
      st_ret (app_mount (mk_app (app_auth x) ModeSignup (app_dashboard x) (app_menu x) (app_signup x)), cs)
  | _, _ => st_ret (x, cs)
  end.
End App.

(** ** Mounting *)

(** An app state is consistent with the page it shows when the
    components that page does not mount are at their initial state. *)
Definition mounted (x : app) : Prop := app_mount x = x.

Lemma app_mount_idem x : app_mount (app_mount x) = app_mount x.
Proof.
  destruct x as [a m d menu p]. unfold app_mount. cbn [app_auth app_mode].
  destruct (index_page a m) eqn:E; cbn [app_auth app_mode]; by rewrite E.
Qed.

Section AppProps.
Context `{Bcrypt} `{Jwt} `{DateParser} `{!IsoDate}.
Context (env_secret : option string).

Lemma app_handle_shape ev x cs s x' cs' s' :
  app_handle env_secret ev x cs s = (inr (x', cs'), s') -> x' = x \/ exists y, x' = app_mount y.
Proof.
  unfold app_handle, st_bind, st_ret.
  destruct (index_page (app_auth x) (app_mode x)), ev; try (intros [= -> _ _]; by left).
  all: try (intros [= <- _ _]; eauto; fail).
  all: lazymatch goal with
       | |- context [dashboard_handle ?a ?b ?c ?d ?e] =>
           destruct (dashboard_handle a b c d e) as [[?|?] ?]
       | |- context [signup_handle ?a ?b ?c ?d ?e] =>
           destruct (signup_handle a b c d e) as [[?|?] ?]
       end; [done|intros [= <- _ _]; eauto].
Qed.

(** Every event keeps the app consistent with its page. *)
Theorem app_handle_mounted ev x cs s x' cs' s' :
  mounted x -> app_handle env_secret ev x cs s = (inr (x', cs'), s') -> mounted x'.
Proof.
  intros Hx Hh. destruct (app_handle_shape ev x cs s x' cs' s' Hh) as [->|[y ->]]; [done|].
  apply app_mount_idem.
Qed.

(** The header's logout unmounts the dashboard: the page of [authMode]
    shows, the menu is closed and the draft of [TodoForm] is gone,
    while closing the form keeps it. *)
Theorem logout_drops_draft x cs s :
  mounted x -> AuthProvider.isAuthenticated (app_auth x) = true ->
  app_handle env_secret (EvHeader HLogout) x cs s =
    (inr (mk_app (AuthProvider.logout (app_auth x)) (app_mode x) dashboard_init false
            signup_page_init, cs), s) /\
  (showTodoForm (app_dashboard x) = true ->
   app_handle env_secret (EvDashboard DClose) x cs s =
     (inr (mk_app (app_auth x) (app_mode x) (mk_dashboard false (draft (app_dashboard x)))
             (app_menu x) signup_page_init, cs), s)).
Proof.
  intros Hm Hauth.
  assert (Hsp : app_signup x = signup_page_init).
  { unfold mounted, app_mount, index_page in Hm. rewrite Hauth in Hm. by rewrite <- Hm. }
  unfold app_handle, index_page. rewrite Hauth. split; [|intros Hopen].
  - unfold app_mount, index_page. cbn. rewrite Hsp. by destruct (app_mode x).
  - unfold dashboard_handle. rewrite Hopen. cbn. unfold app_mount, index_page. cbn.
    by rewrite Hauth.
Qed.
End AppProps.
