(* ===== verification/Boot.v ===== *)
(** * Start-up of the backend ([src/backend-todo/src/index.js],
    [db/mongo-db.js]) and the order in which modules read the
    environment

    [index.js] requires [./app] first, which loads the routers, the
    controllers and the services depth first; only then does it call
    [dotenv.config({ path: "./.env" })], start the connection to
    MongoDB without awaiting it, and listen.  Two modules read
    [process.env] when they are loaded: [services/authentication.js]
    reads [JWT_SECRET] into a constant, and [services/LLM-chatbot.js]
    runs [dotenv.config] itself and then reads [MISTRAL_AI_API];
    [mongoDBConnection] reads [MONGO_DB] when it is called.  [load] is
    Node's [require]: a module is cached before its body runs, its
    requires are loaded in order, then its body's effects run.
    [dotenv.config] adds every key of the parsed file that the
    environment does not have.  The connection is a class [Mongo]; a
    server whose connection fails exits, one that is still connecting
    holds the requests it receives (mongoose buffers their operations)
    and answers them, in order, once connected. *)

From S2P Require Import Prelude Runtime Crypto ObjectId UserModel TodoModel Db TodoService AuthService Session Controllers Server.
Local Open Scope todo_scope.

(** ** The environment and [dotenv] *)

Definition env := gmap string string.

(** [dotenv.config]: the parsed [.env] file, if there is one, fills in
    the keys [process.env] does not have; an existing key is kept. *)
Definition dotenv_config (file : option env) (penv : env) : env :=
  match file with Some parsed => penv ∪ parsed | None => penv end.

(** ** Modules *)

Inductive jsmodule :=
| MIndex | MApp | MAuthRoute | MAuthController | MAuthentication | MUserModel
| MPasswordBcrypt | MDecodeToken | MTodoRoute | MTodoController | MUserTodo
| MTodoModel | MChatbotRoute | MLlmController | MLlmChatbot | MMongoDb.

#[export] Instance jsmodule_eq_dec : EqDecision jsmodule.
Proof. solve_decision. Defined.

(** The modules of the repository each module requires, in the order of
    its [require] calls (packages are left out; [middlewares/decode-token]
    is not in the repository and is taken to read nothing when loaded). *)
Definition requires (m : jsmodule) : list jsmodule :=
  match m with
  | MIndex => [MApp; MMongoDb]
  | MApp => [MAuthRoute; MTodoRoute; MChatbotRoute]
  | MAuthRoute => [MAuthController; MDecodeToken]
  | MAuthController => [MAuthentication]
  | MAuthentication => [MUserModel; MPasswordBcrypt]
  | MTodoRoute => [MDecodeToken; MTodoController]
  | MTodoController => [MUserTodo]
  | MUserTodo => [MTodoModel]
  | MChatbotRoute => [MDecodeToken; MLlmController]
  | MLlmController => [MLlmChatbot]
  | _ => []
  end.

(** What a module's top level does with the environment after its
    requires. *)
Inductive effect := ReadVar (name : string) | DotenvConfig.

Definition module_body (m : jsmodule) : list effect :=
  match m with
  | MAuthentication => [ReadVar "JWT_SECRET"]
  | MLlmChatbot => [DotenvConfig; ReadVar "MISTRAL_AI_API"]
  | MIndex => [DotenvConfig; ReadVar "MONGO_DB"]
  | _ => []
  end.

Record boot := mk_boot {
  b_env : env;
  b_reads : list (string * option string);   (** the values read, in order *)
  b_loaded : list jsmodule                   (** Node's module cache *)
}.

Definition run_effect (file : option env) (b : boot) (e : effect) : boot :=
  match e with
  | DotenvConfig => mk_boot (dotenv_config file (b_env b)) (b_reads b) (b_loaded b)
  | ReadVar x => mk_boot (b_env b) (b_reads b ++ [(x, b_env b !! x)]) (b_loaded b)
  end.

(** [require(m)]: nothing when cached; otherwise cache it, load its
    requires, run its body.  Each call below the first caches a new
    module, so the number of modules is enough fuel. *)
Fixpoint load (file : option env) (fuel : nat) (m : jsmodule) (b : boot) : boot :=
  match fuel with
  | O => b
  | S f =>
      if decide (m ∈ b_loaded b) then b
      else
        let b1 := mk_boot (b_env b) (b_reads b) (b_loaded b ++ [m]) in
        let b2 := fold_left (fun acc r => load file f r acc) (requires m) b1 in
        fold_left (run_effect file) (module_body m) b2
  end.

Definition module_count : nat := 16.

(** [node index.js] with the environment [penv] and the parsed [.env]. *)
Definition start (penv : env) (file : option env) : boot :=
  load file module_count MIndex (mk_boot penv [] []).

(** The value read for [x] (the first read), [undefined] if none. *)
Definition read_value (b : boot) (x : string) : option string :=
  match find_first (fun r => String.eqb r.1 x) (b_reads b) with
  | Some r => r.2
  | None => None
  end.

(** The secret [authentication.js] signs and verifies with, the key of
    the chat model and the URI of the database. *)
Definition boot_secret (penv : env) (file : option env) : option string :=
  read_value (start penv file) "JWT_SECRET".
Definition boot_mistral (penv : env) (file : option env) : option string :=
  read_value (start penv file) "MISTRAL_AI_API".
Definition boot_mongo (penv : env) (file : option env) : option string :=
  read_value (start penv file) "MONGO_DB".

(** ** What the backend reads *)

(** The module loading order of [node index.js]: depth first, each
    module once. *)
Lemma start_loaded penv file :
  b_loaded (start penv file) =
    [MIndex; MApp; MAuthRoute; MAuthController; MAuthentication; MUserModel;
     MPasswordBcrypt; MDecodeToken; MTodoRoute; MTodoController; MUserTodo; MTodoModel;
     MChatbotRoute; MLlmController; MLlmChatbot; MMongoDb].
Proof. reflexivity. Qed.

(** The reads, in order: [JWT_SECRET] before any [dotenv.config], the
    chat key after the one of [LLM-chatbot.js], the database URI after
    both. *)
Lemma start_reads penv file :
  b_reads (start penv file) =
    [("JWT_SECRET", penv !! "JWT_SECRET");
     ("MISTRAL_AI_API", dotenv_config file penv !! "MISTRAL_AI_API");
     ("MONGO_DB", dotenv_config file (dotenv_config file penv) !! "MONGO_DB")].
Proof. reflexivity. Qed.

Lemma dotenv_config_idem file penv :
  dotenv_config file (dotenv_config file penv) = dotenv_config file penv.
Proof.
  destruct file as [parsed|]; [|done]. cbn.
  by rewrite <- (assoc_L union), (idemp_L union).
Qed.

(** ** The connection and the server's life *)

(** [mongoose.connect(uri)]: whether it resolves; an undefined URI is
    rejected. *)
Class Mongo := {
  mongo_connect : option string -> bool;
  mongo_connect_undefined : mongo_connect None = false
}.

Inductive phase := Connecting | Connected | Exited.

(** [mongoDBConnection]: connected, or [process.exit(1)] in the
    [catch]. *)
Definition mongoDBConnection `{Mongo} (uri : option string) : phase :=
  if mongo_connect uri then Connected else Exited.

(** The listening server: its phase, the database, the requests held
    while connecting, and the answers sent, in order. *)
Record server := mk_server {
  sv_phase : phase;
  sv_db : db;
  sv_queue : list request;
  sv_answers : list body
}.

Section Life.
Context `{Bcrypt} `{Jwt} `{DateParser} `{Mongo}.
Context (env_secret : option string) (uri : option string).

(** One request handled to its end: the router never rejects (C35), an
    escaping exception would be an empty answer. *)
Definition serve (sv : server) (req : request) : server :=
  match handle env_secret req (sv_db sv) with
  | (inr b, s') => mk_server (sv_phase sv) s' (sv_queue sv) (sv_answers sv ++ [b])
  | (inl _, s') => mk_server (sv_phase sv) s' (sv_queue sv) (sv_answers sv)
  end.

(** The connection settles: connected, the held requests run in the
    order they came; exited, they are never answered. *)
Definition settle (sv : server) : server :=
  match mongoDBConnection uri with
  | Connected => fold_left serve (sv_queue sv) (mk_server Connected (sv_db sv) [] (sv_answers sv))
  | p => mk_server p (sv_db sv) [] (sv_answers sv)
  end.

(** [app.listen(3000)] right after [mongoDBConnection()], which is not
    awaited: requests arrive while connecting. *)
Inductive life_step : server -> server -> Prop :=
| life_settle sv : sv_phase sv = Connecting -> life_step sv (settle sv)
| life_held sv req :
    sv_phase sv = Connecting ->
    life_step sv (mk_server Connecting (sv_db sv) (sv_queue sv ++ [req]) (sv_answers sv))
| life_serve sv req : sv_phase sv = Connected -> life_step sv (serve sv req).

Definition listening (s : db) : server := mk_server Connecting s [] [].
End Life.

Section LifeProps.
Context `{Bcrypt} `{Jwt} `{DateParser} `{Mongo}.
Context (env_secret : option string).

(** C34: what [node index.js] reads from the environment: [authentication.js]
    reads [JWT_SECRET] while [./app] is being required, before either
    [dotenv.config] runs, so a secret written in [.env] is never seen and
    the tokens are signed with ["your-dev-secret"] unless the secret is
    in the process environment; the chat key and the database URI are
    read after [dotenv.config] and do come from [.env]. *)
Theorem env_file_secret_ignored penv file :
  boot_secret penv file = penv !! "JWT_SECRET" /\
  boot_mistral penv file = dotenv_config file penv !! "MISTRAL_AI_API" /\
  boot_mongo penv file = dotenv_config file penv !! "MONGO_DB" /\
  (penv !! "JWT_SECRET" = None -> JWT_SECRET (boot_secret penv file) = "your-dev-secret").
Proof.
  unfold boot_secret, boot_mistral, boot_mongo, read_value. rewrite !start_reads.
  cbn [find_first fst snd]. rewrite dotenv_config_idem.
  split; [done|]. split; [done|]. split; [done|]. by intros ->.
Qed.

Lemma serve_phase sv req : sv_phase (serve env_secret sv req) = sv_phase sv.
Proof. unfold serve. by destruct (handle _ _ _) as [[]]. Qed.

Lemma serve_all_phase reqs sv :
  sv_phase (fold_left (serve env_secret) reqs sv) = sv_phase sv.
Proof.
  revert sv. induction reqs as [|r reqs IH]; intros sv; [done|].
  cbn. by rewrite IH, serve_phase.
Qed.

End LifeProps.
