(* ===== verification/Scenario.v ===== *)
(** * The scenario of the spec (8), run through the router

    Alice signs up, creates "Buy milk", lists her todos, toggles the
    todo twice, deletes it and lists again; Bob then signs up and lists
    his own todos.  Every request goes through [Server.handle]: the
    bearer header of each protected request is built from the token the
    signup returned, and the todo's id from the ObjectId the create
    returned.  The run uses the reference bcrypt, JWT and date parser.
    The rest of the file holds concrete runs (Alice's signup, a race of
    two threads, a browser signing up, a request with a missing field)
    at which the theorems of the other files are applied. *)

From S2P Require Import Prelude Runtime Crypto ObjectId UserModel TodoModel Db TodoService AuthService Session Controllers Server Concurrency Client AuthClient Forms Chat TodoListView Browser Boot.
Import Crypto.Reference TodoModel.RefDate Forms.RefIso.

(** One request, with [JWT_SECRET] unset. *)
Definition run (req : request) (s : db) : body * db :=
  match handle None req s with
  | (inr b, s') => (b, s')
  | (inl e, s') => (BError (err_message e), s')
  end.

Definition bearer (b : body) : option string :=
  match b with
  | BData (PAuth a) => Some (bearer_prefix +:+ au_token a)
  | _ => None
  end.

Definition todo_id (b : body) : jsval :=
  match b with
  | BData (PTodo k _) => oid_json k
  | _ => JUndefined
  end.

(** What a client sees of an answer. *)
Inductive observation :=
| OAuth (username : string)
| OTodo (title : string) (completed : bool)
| OList (completed : list bool)
| OOk
| OErr (msg : string)
| OOther.

Definition observe (b : body) : observation :=
  match b with
  | BData (PAuth a) => OAuth (au_username a)
  | BData (PTodo _ d) => OTodo (t_title d) (t_completed d)
  | BData (PTodos l) => OList (map (fun kd => t_completed kd.2) l)
  | BSuccess => OOk
  | BError m => OErr m
  | _ => OOther
  end.

Definition scenario : list body :=
  let s0 := db_empty 1736000000000%Z in
  let '(b1, s1) := run (PostSignup (JStr "alice") (JStr "secret1") (JStr "Alice")) s0 in
  let h := bearer b1 in
  let '(b2, s2) := run (PostCreate h (JStr "Buy milk") JUndefined (JStr "normal")
                          (JStr "2025-01-10")) s1 in
  let i := todo_id b2 in
  let '(b3, s3) := run (GetTodos h) s2 in
  let '(b4, s4) := run (PatchToggle h i) s3 in
  let '(b5, s5) := run (PatchToggle h i) s4 in
  let '(b6, s6) := run (DeleteTodo h i) s5 in
  let '(b7, s7) := run (GetTodos h) s6 in
  let '(b8, s8) := run (PostSignup (JStr "bob") (JStr "hunter2") (JStr "Bob")) s7 in
  let '(b9, _) := run (GetTodos (bearer b8)) s8 in
  [b1; b2; b3; b4; b5; b6; b7; b8; b9].

(** The spec's scenario: after signup and create, Alice's list has
    one todo, not completed; one toggle completes it, a second one
    undoes it; after the delete her list is empty, and Bob, created
    afterwards, has an empty list of his own. *)
Theorem scenario_observed :
  map observe scenario =
  [OAuth "alice"; OTodo "Buy milk" false; OList [false]; OTodo "Buy milk" true;
   OTodo "Buy milk" false; OOk; OList []; OAuth "bob"; OList []].
Proof. vm_compute. reflexivity. Qed.

(** ** Witnesses of the server theorems *)

Definition alice_signup : request :=
  PostSignup (JStr "alice") (JStr "secret1") (JStr "Alice").

Definition signup_step : (err + body) * db := handle None alice_signup (db_empty 0%Z).

Definition s_alice : db := snd signup_step.

Definition body_of (r : err + body) : body :=
  match r with inr b => b | inl e => BError (err_message e) end.

Lemma reachable_wf_witness : db_wf s_alice.
Proof.
  apply (reachable_wf None 0%Z). apply rtc_once.
  apply (step_handle None alice_signup (db_empty 0%Z) (body_of (fst signup_step))).
  vm_compute. reflexivity.
Defined.

Definition alice_login : auth_user :=
  match fst (loginService None (JStr "alice") (JStr "secret1") s_alice) with
  | inr a => a
  | inl _ => mk_auth 0%N "" "" ""
  end.

Lemma default_secret_forgeable_witness :
  handle None (GetTodos (Some (bearer_prefix +:+
                 jwt_sign "your-dev-secret" (mk_claims 0%N "alice" 0%Z)))) s_alice
  = (inr (BData (PTodos (find_all (owner_is "alice") (db_todos s_alice)))), s_alice).
Proof.
  apply (default_secret_forgeable None 0%N "alice" 0%Z s_alice); [left; reflexivity|discriminate].
Defined.

Lemma concurrent_toggles_lose_update_witness :
  exists s' r1 r2,
    rtc (cstep None) (db_milk, [TToggle "alice" (oid_json 0%N); TToggle "alice" (oid_json 0%N)])
        (s', [TDone (OToggled (inr r1)); TDone (OToggled (inr r2))]) /\
    t_completed (snd r1) = negb (t_completed milk) /\
    t_completed (snd r2) = negb (t_completed milk) /\
    db_todos s' !! 0%N = Some (flip_completed milk (db_clock db_milk)) /\
    db_todos (snd (toggleCompletion "alice" (oid_json 0%N)
                     (snd (toggleCompletion "alice" (oid_json 0%N) db_milk)))) !! 0%N
      = Some (touch milk (db_clock db_milk)).
Proof.
  apply (concurrent_toggles_lose_update None db_milk "alice" (oid_json 0%N) 0%N milk);
    [vm_compute; reflexivity|reflexivity|reflexivity|decide_by_compute].
Defined.

Lemma concurrent_signups_duplicate_key_witness :
  exists s' a,
    rtc (cstep None)
        (db0, [TSignup (JStr "dave") (JStr "Dave") (JStr "pw1");
               TSignup (JStr "dave") (JStr "D. Two") (JStr "pw2")])
        (s', [TDone (OSignedUp (inr a));
              TDone (OSignedUp (inl (ErrDuplicateKey "username")))]) /\
    signupService None (JStr "dave") (JStr "D. Two") (JStr "pw2")
      (snd (signupService None (JStr "dave") (JStr "Dave") (JStr "pw1") db0))
    = (inl ErrUsernameTaken,
       snd (signupService None (JStr "dave") (JStr "Dave") (JStr "pw1") db0)).
Proof.
  apply (concurrent_signups_duplicate_key None db0 (JStr "dave") (JStr "Dave") (JStr "D. Two")
           "pw1" "pw2" "dave" "Dave" "D. Two");
    first [vm_compute; reflexivity | discriminate].
Defined.

Definition race_start : db * list thread :=
  (s_alice, [TSignup (JStr "erin") (JStr "Erin") (JStr "pw1")]).

Definition race_next : db * list thread :=
  (snd (thread_step None (TSignup (JStr "erin") (JStr "Erin") (JStr "pw1")) s_alice),
   <[0 := TSignupCommit (JStr "erin") (JStr "Erin") (JStr "pw1")]> race_start.2).

Lemma interleavings_keep_wf_witness : db_wf race_next.1.
Proof.
  apply (interleavings_keep_wf None race_start race_next).
  - decide_by_compute.
  - apply rtc_once. unfold race_start, race_next.
    apply (cstep_run None s_alice _ 0 (TSignup (JStr "erin") (JStr "Erin") (JStr "pw1")));
      vm_compute; reflexivity.
Defined.

(** ** Witnesses of the handler and client theorems *)

Lemma login_reveals_existence_witness :
  login None (JStr "alice") (JStr "secret2") db_alice
    = (inr (BError "InvalidPassword"), db_alice) /\
  login None (JStr "bob") (JStr "secret2") db_alice
    = (inr (BError "UserNotFound"), db_alice).
Proof.
  apply (login_reveals_existence None (JStr "alice") (JStr "bob") "secret2" "secret1"
           db_alice 0%N alice "alice" "bob" 7);
    first [exact users_unique_alice | vm_compute; reflexivity | discriminate].
Defined.

(** Alice's browser, logged in, with an empty list, adds a todo. *)
Definition client_alice : cstate := mk_cstate (Some (au_token alice_login)) [].

Definition client_add : client_action :=
  CAdd (JStr "Buy milk") JUndefined (JStr "normal") (JStr "2025-01-10").

Definition client_run : (err + cstate) * db := run_client None client_add client_alice s_alice.

Definition client_claims : claims :=
  default (mk_claims 0%N "" 0%Z)
    (verifyToken (JWT_SECRET None) (auth_header (au_token alice_login))).

Definition client_after : cstate :=
  match fst client_run with inr cs' => cs' | inl _ => client_alice end.

Lemma client_mirrors_server_witness :
  mirrors (cl_username client_claims) (snd client_run) client_after.
Proof.
  apply (client_mirrors_server None client_add (au_token alice_login) client_claims
           s_alice client_alice client_after (snd client_run));
    first [reflexivity | decide_by_compute | exact I
          | vm_compute; reflexivity | vm_compute; constructor].
Defined.

(** ** Witnesses of the session theorems

    Alice signs up in her browser; then Bob signs up from another
    client and time passes. *)

Definition browser0 : AuthProvider.astate := AuthProvider.mk_astate None None.

Definition browser_signup : (err + AuthProvider.astate) * db :=
  AuthProvider.auth_run None (AuthProvider.ASignup "Alice" "alice" "secret1") browser0
    (db_empty 0%Z).

Definition browser_alice : AuthProvider.astate :=
  match fst browser_signup with inr a => a | inl _ => browser0 end.

Definition bob_signup : request := PostSignup (JStr "bob") (JStr "hunter22") (JStr "Bob").

Definition db_later : db := tick (snd (handle None bob_signup (snd browser_signup))) 60000%Z.

Definition alice_user : AuthProvider.cuser :=
  default (AuthProvider.mk_cuser 0%N "" "" "") (AuthProvider.as_user browser_alice).

Lemma session_never_expires_witness :
  AuthProvider.as_storage browser_alice = Some (AuthProvider.cu_token alice_user) /\
  handle None (GetInfo (Some (bearer_prefix +:+ AuthProvider.cu_token alice_user))) db_later
  = (inr (BData (PProfile (mk_profile (AuthProvider.cu_id alice_user)
                             (AuthProvider.cu_username alice_user)
                             (AuthProvider.cu_fullname alice_user)))), db_later).
Proof.
  apply (AuthProvider.session_never_expires None 0%Z db_later browser_alice alice_user).
  - eapply rtc_l.
    { apply (AuthProvider.sys_client None (AuthProvider.ASignup "Alice" "alice" "secret1")
               (db_empty 0%Z) browser0 browser_alice (snd browser_signup)).
      vm_compute. reflexivity. }
    eapply rtc_l.
    { apply AuthProvider.sys_server.
      apply (step_handle None bob_signup _ (body_of (fst (handle None bob_signup
                                                             (snd browser_signup))))).
      vm_compute. reflexivity. }
    apply rtc_once. apply AuthProvider.sys_server. apply step_tick. lia.
  - vm_compute. reflexivity.
Defined.

Lemma session_survives_reload_witness :
  AuthProvider.restore None (AuthProvider.reload browser_alice) (snd browser_signup)
  = (inr browser_alice, snd browser_signup).
Proof.
  apply (proj2 (AuthProvider.session_survives_reload None (db_empty 0%Z) browser0
                  browser_alice (snd browser_signup) "alice" "secret1" "Alice"
                  ltac:(decide_by_compute))).
  vm_compute. reflexivity.
Defined.

Lemma missing_fields_rejected_witness :
  TodoController.createTodo (mk_claims 0%N "alice" 0%Z) (JStr "Buy milk") JUndefined
    (JStr "normal") JUndefined s_alice
  = (inr (BError "Missing required fields"), s_alice) /\
  signup None (JStr "erin") (JStr "pw1") (JStr "") s_alice
  = (inr (BError "missing fullname"), s_alice).
Proof.
  pose proof (missing_fields_rejected None (mk_claims 0%N "alice" 0%Z) s_alice
                (JStr "Buy milk") JUndefined (JStr "normal") JUndefined JUndefined
                (JStr "erin") (JStr "pw1") (JStr "")) as (Hc & _ & _ & _ & _ & Hf).
  split; [apply Hc; reflexivity|apply Hf; reflexivity].
Defined.

(** A toggle of "Buy milk" races an update that renames it: the toggle
    reads, a second passes, the update runs, the toggle saves. *)
Definition tu_update : thread :=
  TUpdate "alice" (oid_json 0%N) (JStr "Buy oat milk") (JStr "2025-01-12")
    (JStr "important") JUndefined.

Definition tu_start : db * list thread :=
  (db_milk, [TToggle "alice" (oid_json 0%N); tu_update]).

Definition tick_cfg (c : db * list thread) : db * list thread := (tick c.1 1000%Z, c.2).

Definition tu_end : db * list thread :=
  step_at None 0 (step_at None 1 (tick_cfg (step_at None 0 tu_start))).

Definition tu_outcome (k : nat) : outcome :=
  match tu_end.2 !! k with Some (TDone o) => o | _ => OToggled (inl ErrTodoAccess) end.

Definition tu_patch : todo_patch :=
  match todo_cast_update (mk_update (JStr "Buy oat milk") (JStr "") (JStr "important")
                            (JStr "2025-01-12")) with
  | inr p => p
  | inl _ => mk_patch None None None None
  end.

Lemma toggle_update_serializable_witness :
  db_equiv tu_end.1
    (snd (updateTodoService "alice" (oid_json 0%N) (JStr "Buy oat milk")
            (JStr "2025-01-12") (JStr "important") JUndefined
            (snd (toggleCompletion "alice" (oid_json 0%N) db_milk)))) /\
  db_equiv tu_end.1
    (snd (toggleCompletion "alice" (oid_json 0%N)
            (snd (updateTodoService "alice" (oid_json 0%N) (JStr "Buy oat milk")
                    (JStr "2025-01-12") (JStr "important") JUndefined db_milk)))).
Proof.
  refine (toggle_update_serializable None db_milk "alice" (oid_json 0%N) (JStr "Buy oat milk")
           (JStr "2025-01-12") (JStr "important") JUndefined 0%N milk "Buy oat milk" ""
           tu_patch _ _ _ _ _ _ _ _ tu_end.1 (tu_outcome 0) (tu_outcome 1) _);
    [vm_compute; reflexivity..|decide_by_compute|decide_by_compute|].
  assert (E : (tu_end.1, [TDone (tu_outcome 0); TDone (tu_outcome 1)]) = tu_end)
    by (vm_compute; reflexivity).
  rewrite E. unfold tu_end.
  apply (rtc_r _ (step_at None 1 (tick_cfg (step_at None 0 tu_start))));
    [|apply step_at_cstep; vm_compute; reflexivity].
  apply (rtc_r _ (tick_cfg (step_at None 0 tu_start)));
    [|apply step_at_cstep; vm_compute; reflexivity].
  apply (rtc_r _ (step_at None 0 tu_start)).
  - apply rtc_once. apply step_at_cstep. vm_compute. reflexivity.
  - destruct (step_at None 0 tu_start) as [x ts]. by apply cstep_tick.
Defined.

(** ** Witnesses of the counter and form theorems *)

Lemma objectids_bounded_witness : (db_next s_alice <= 1)%N.
Proof.
  apply (objectids_bounded None 0%Z 1 s_alice).
  eapply nsteps_l; [|apply nsteps_O].
  apply (step_handle None alice_signup _ (body_of (fst signup_step))).
  vm_compute. reflexivity.
Defined.

(** Alice, signed in with an empty list, adds " Buy bread " for the
    instant 1736467200000 (2025-01-10). *)
Definition bread_form : todo_form :=
  mk_todo_form " Buy bread " " at the corner " Important (Some 1736467200000%Z).

Definition bread : todo :=
  mk_todo "Buy bread" "at the corner" (Some "important") (Some 1736467200000%Z) false
    "alice" (db_clock s_alice) (db_clock s_alice).

Lemma todo_form_creates_witness :
  todoForm_submit None bread_form client_alice s_alice =
    (inr (ToastDone "Your task has been added successfully", todo_form_init,
          with_todos client_alice [(db_next s_alice, bread)]),
     db_add_todo s_alice bread) /\
  todo_valid bread.
Proof.
  apply (todo_form_creates None bread_form client_alice s_alice (au_token alice_login)
           client_claims 1736467200000%Z);
    first [reflexivity | vm_compute; reflexivity | vm_compute; discriminate | lia].
Defined.

(** Alice renames "Buy milk" in the edit dialog. *)
Definition milk_edit : edit_form :=
  mk_edit_form "Buy oat milk" "" (Some "important") (Some 1736467200000%Z).

Lemma edit_form_keeps_valid_witness :
  todos_valid (snd (editForm_submit None (oid_to_string 0%N) milk_edit client_alice db_milk)).
Proof.
  destruct (editForm_submit None (oid_to_string 0%N) milk_edit client_alice db_milk)
    as [r s'] eqn:Hrun.
  apply (edit_form_keeps_valid None (oid_to_string 0%N) milk_edit client_alice db_milk r s');
    [decide_by_compute | cbn; set_solver | exact Hrun].
Defined.

Lemma signup_page_blames_username_witness :
  signupPage_submit None "   " "carol" "secret1" browser0 s_alice
  = (inr (ToastError "Username already exists", browser0), db_bump_salt s_alice).
Proof.
  apply (signup_page_blames_username None "   " "carol" "secret1" browser0 s_alice);
    first [discriminate | reflexivity | vm_compute; discriminate | simpl; lia
          | vm_compute; reflexivity].
Defined.

(** A signed-out browser submits the same form: the toast still says
    the task was added. *)
Definition client_out : cstate := mk_cstate None [].

Lemma todo_form_toast_unconditional_witness :
  todoForm_submit None bread_form client_out s_alice =
    (inr (ToastDone "Your task has been added successfully", todo_form_init, client_out),
     s_alice).
Proof.
  apply (proj2 (todo_form_toast_unconditional None bread_form client_out s_alice
                  1736467200000%Z ltac:(vm_compute; discriminate) eq_refl)).
  reflexivity.
Defined.

(** ** Witnesses of the assistant's theorems

    A reference model that echoes the last message, and a JSON of the
    titles. *)
#[local] Instance echo_model : ChatModel := {|
  llm_invoke msgs := match last msgs with
                     | Some (_, t) => Some ("You asked: " +:+ t)
                     | None => None
                     end |}.

#[local] Instance titles_json : TodoJson := {|
  todos_json l := "[" +:+ String.concat "," (map (fun p => t_title p.2) l) +:+ "]" |}.

Definition chat_todos : list (oid * todo) := [(0%N, milk)].

Definition chat_asking : chat_state := mk_chat_state [greeting] "  What should I do first? " false.

(** Alice asks; the answer arrives. *)
Definition chat_run : chat_state * list inflight :=
  answer_next None 0 (send_next browser_alice chat_todos (chat_asking, [])).

Lemma chat_reachable_wf_witness : chat_wf chat_run.
Proof.
  apply (chat_reachable_wf None). unfold chat_run.
  apply (rtc_l _ _ (chat_asking, [])); [apply (chat_typed None chat_init [])|].
  apply (rtc_l _ _ (send_next browser_alice chat_todos (chat_asking, [])));
    [apply send_next_step; vm_compute; eauto|].
  apply rtc_once. apply answer_next_step. vm_compute. eauto.
Defined.

Lemma chat_send_refines_witness :
  handleSendMessage None browser_alice chat_todos chat_asking =
    mk_chat_state ([greeting] ++ exchange "What should I do first?"
                                  "You asked: What should I do first?") "" false.
Proof.
  apply (chat_send_refines None browser_alice chat_todos chat_asking alice_user
           (default (mk_claims 0%N "" 0%Z)
              (verifyToken (JWT_SECRET None)
                 (Some (bearer_prefix +:+ AuthProvider.cu_token alice_user)))));
    first [vm_compute; reflexivity | vm_compute; discriminate | vm_compute; repeat constructor].
Defined.

(** A question with braces fails, and so does the next question while
    it is among the last five messages. *)
Definition chat_poisoned : chat_state :=
  mk_chat_state [greeting; mk_chat_msg "Plan my {week}" false; mk_chat_msg reply_fallback true]
    "And today?" false.

Lemma chat_errors_shown_witness :
  handleSendMessage None browser_alice chat_todos chat_poisoned =
    mk_chat_state (messages chat_poisoned ++ exchange "And today?" reply_fallback) "" false.
Proof.
  apply (proj2 (chat_errors_shown None browser_alice chat_todos chat_poisoned
                  ltac:(vm_compute; discriminate))).
  - vm_compute. discriminate.
  - left. exists (mk_chat_msg "Plan my {week}" false), (err_missing "week"). split.
    + apply list_elem_of_In. vm_compute. tauto.
    + vm_compute. reflexivity.
Defined.

(** Alice asks twice without waiting; the second answer arrives first.
    It is shown under the second question, the first answer comes last,
    and the typing indicator is gone while the first request is still in
    flight. *)
Definition chat_two_sent : chat_state * list inflight :=
  let c1 := send_next browser_alice chat_todos (chat_asking, []) in
  send_next browser_alice chat_todos (mk_chat_state (messages c1.1) "And after that?" (loading c1.1), c1.2).

Lemma chat_answers_out_of_order :
  rtc (chat_step None) (chat_init, []) (answer_next None 1 chat_two_sent) /\
  map m_text (messages (answer_next None 1 chat_two_sent).1) =
    [m_text greeting; "What should I do first?"; "And after that?"; "You asked: And after that?"] /\
  loading (answer_next None 1 chat_two_sent).1 = false /\
  length (answer_next None 1 chat_two_sent).2 = 1.
Proof.
  split; [|vm_compute; done].
  apply (rtc_l _ _ (chat_asking, [])); [apply (chat_typed None chat_init [])|].
  apply (rtc_l _ _ (send_next browser_alice chat_todos (chat_asking, [])));
    [apply send_next_step; vm_compute; eauto|].
  apply (rtc_l _ _ (let c1 := send_next browser_alice chat_todos (chat_asking, []) in
                    (mk_chat_state (messages c1.1) "And after that?" (loading c1.1), c1.2)));
    [apply chat_typed|].
  apply (rtc_l _ _ chat_two_sent); [apply send_next_step; vm_compute; eauto|].
  apply rtc_once. apply answer_next_step. vm_compute. eauto.
Qed.

(** Alice opens the edit dialog on "Buy milk" and saves it unchanged. *)
Lemma edit_unchanged_roundtrip_witness :
  editForm_submit None (oid_to_string 0%N) (edit_form_init milk) client_alice db_milk =
    (inr (ToastDone "Your task has been updated successfully",
          with_todos client_alice (on_replace (oid_to_string 0%N)
                        (BData (PTodo 0%N (touched milk (db_clock db_milk)))) [])),
     set_todos (insert 0%N (touched milk (db_clock db_milk))) db_milk).
Proof.
  apply (edit_unchanged_roundtrip None client_alice db_milk (au_token alice_login)
           client_claims 0%N milk "normal" 20250110%Z);
    first [reflexivity | vm_compute; reflexivity | vm_compute; discriminate | lia].
Defined.

(** ** A shared browser

    Alice signs up and adds "Buy milk"; her list's fetch is still in
    flight when she logs out and Bob signs up; Bob's fetch answers, then
    Alice's.  Bob is signed in, nothing is in flight, and the dashboard
    lists Alice's todo. *)
Definition br_c1 : db * browser :=
  signup_next None "Alice" "alice" "secret1" (db_empty 0%Z, mk_browser browser0 [] []).
Definition br_c2 : db * browser :=
  todo_next None (CAdd (JStr "Buy milk") JUndefined (JStr "normal") (JStr "2025-01-10")) br_c1.
Definition br_c3 : db * browser :=
  (br_c2.1, mk_browser (AuthProvider.logout (br_auth br_c2.2)) (br_todos br_c2.2) (br_fetches br_c2.2)).
Definition br_c4 : db * browser := signup_next None "Bob" "bob" "hunter22" br_c3.
Definition br_c5 : db * browser := fetched_next None 1 br_c4.

Definition tok_alice_fetch : string := default "" (br_fetches br_c5.2 !! 0).
Definition claims_alice_fetch : claims :=
  default (mk_claims 0%N "" 0%Z) (verifyToken (JWT_SECRET None) (auth_header tok_alice_fetch)).

Definition br_c6 : db * browser :=
  (br_c5.1, mk_browser (br_auth br_c5.2)
              (find_all (owner_is (cl_username claims_alice_fetch)) (db_todos br_c5.1))
              (delete 0 (br_fetches br_c5.2))).

Lemma stale_list_shown_witness :
  rtc (br_step None) (db_empty 0%Z, mk_browser browser0 [] []) br_c6 /\
  option_map AuthProvider.cu_username (AuthProvider.as_user (br_auth br_c6.2)) = Some "bob" /\
  br_fetches br_c6.2 = [] /\
  map (fun t => (t_title t.2, t_username t.2)) (br_todos br_c6.2) = [("Buy milk", "alice")].
Proof.
  split; [|vm_compute; done].
  apply (rtc_l _ _ br_c1); [apply signup_next_step|].
  apply (rtc_l _ _ br_c2); [apply todo_next_step|].
  apply (rtc_l _ _ br_c3); [apply br_logout|].
  apply (rtc_l _ _ br_c4); [apply signup_next_step|].
  apply (rtc_l _ _ br_c5); [apply fetched_next_step; vm_compute; eauto|].
  apply rtc_once.
  apply (proj2 (stale_list_shown None) br_c5.1 br_c5.2 0 tok_alice_fetch claims_alice_fetch);
    vm_compute; first [reflexivity | discriminate].
Defined.

(** ** Start-up *)

(** A [.env] that sets [JWT_SECRET], the chat key and the database URI,
    with an empty process environment. *)
Definition env_file : env :=
  <["JWT_SECRET" := "from-env-file"]> (<["MISTRAL_AI_API" := "key"]>
    (<["MONGO_DB" := "mongodb://localhost/todo"]> ∅)).

Lemma env_file_secret_ignored_witness :
  boot_mongo ∅ (Some env_file) = Some "mongodb://localhost/todo" /\
  JWT_SECRET (boot_secret ∅ (Some env_file)) = "your-dev-secret".
Proof.
  pose proof (env_file_secret_ignored ∅ (Some env_file)) as (_ & _ & Hm & Hs).
  split; [rewrite Hm; reflexivity | apply Hs; reflexivity].
Defined.

(** A connection that succeeds exactly when the URI is defined. *)
#[local] Instance uri_mongo : Mongo := {
  mongo_connect u := match u with Some _ => true | None => false end;
  mongo_connect_undefined := eq_refl
}.

